(** * loQL service worker (src/sw.js): a shallow embedding and its properties

    The service worker intercepts GraphQL requests, serves them from an
    IndexedDB-backed cache when it can, and writes network responses back
    into the cache, both per hashed query and in normalized form.

    Layout of this development:
    - [JS]: the fragment of JavaScript values and coercions the worker uses;
    - [GraphQL]: the parsed document and the [visit] traversal;
    - [Sw]: the worker itself, in a state-and-exception monad over the
      IndexedDB collection, a trace of external calls and the list of
      promise rejections nobody handles;
    - [Spec]: what the specification asks of the classifier and of the
      bypass policy, in its own words;
    - [Fixtures]: concrete settings, requests and collaborators;
    - [Activation]: the loading of the settings when the worker activates;
    - [Observe]: the vocabulary of the further properties (what a run
      leaves unchanged, what a request needs to reach the cache lookup);
    - the properties: the classifier, freshness, the normalized writes,
      the pipeline stage by stage, the fetch listener;
    - further properties: how a request is served in each cache mode,
      which requests never reach the cache, the functions one by one, what
      no request ever does, the cache key, idempotence of the normalized
      write, extraction and activation.

    A call to an async function that the source does not await is run at
    the point of the call ([detached]): its store and network effects are
    recorded, its result is dropped, and a rejection is kept as unhandled.
    The response of the request never depends on such a call.  In the
    worker the steps of such a call come later, after the caller has gone
    on: the state [detached] gives is the one reached once the call has
    settled with nothing else in between.  No statement below fixes the
    place of its events in the trace, and two such calls in flight at once
    are written out step by step ([overlappingWrites]). *)

From Stdlib Require Import ZArith Lia DecimalString.
From stdpp Require Import base strings list gmap pretty.

#[local] Set Warnings "-register-all".
Local Open Scope string_scope.
Local Open Scope Z_scope.

(* ===================================================================== *)
(** * JavaScript values *)
(* ===================================================================== *)

Module JS.

(** Values that travel through the worker: [undefined] plus the JSON values.
    Numbers are the integer-valued ones (timestamps, ids); an object is the
    list of its own properties in insertion order. *)
Inductive jsval : Type :=
| JUndefined
| JNull
| JBool (b : bool)
| JNum (n : Z)
| JStr (s : string)
| JArr (xs : list jsval)
| JObj (props : list (string * jsval)).

(** Errors a [throw] or a rejected promise carries. *)
Inductive JSError : Type :=
| ReferenceError (what : string)
| TypeError (what : string)
| GraphQLSyntaxError
| StoreError (key : string)
| NetworkError
| NormalizeError.

(** The double-quote character (code 34). *)
Definition dquote : string := String (Ascii.ascii_of_nat 34) EmptyString.

(** ToBoolean: [if (v)], [!v], [a && b]. *)
Definition truthy (v : jsval) : bool :=
  match v with
  | JUndefined | JNull => false
  | JBool b => b
  | JNum n => negb (n =? 0)
  | JStr s => negb (String.eqb s EmptyString)
  | JArr _ | JObj _ => true
  end.

Fixpoint join (sep : string) (parts : list string) : string :=
  match parts with
  | [] => EmptyString
  | [p] => p
  | p :: rest => p +:+ sep +:+ join sep rest
  end.

(** ToString, as [String.prototype.concat] applies it to its argument.
    An object is first converted to a primitive through its [toString]
    method.  The own properties of a JSON object are never callable: one
    named [toString] hides [Object.prototype.toString], the inherited
    [valueOf] answers the object itself, and the conversion throws a
    TypeError.  An array joins the conversions of its elements, [null] and
    [undefined] as the empty string. *)
Fixpoint toString (v : jsval) : JSError + string :=
  match v with
  | JUndefined => inr "undefined"
  | JNull => inr "null"
  | JBool true => inr "true"
  | JBool false => inr "false"
  | JNum n => inr (pretty n)
  | JStr s => inr s
  | JArr xs =>
      match
        (fix elements (l : list jsval) : JSError + list string :=
           match l with
           | [] => inr []
           | x :: rest =>
               match (match x with
                      | JUndefined | JNull => inr EmptyString
                      | _ => toString x
                      end) with
               | inl e => inl e
               | inr p =>
                   match elements rest with
                   | inl e => inl e
                   | inr ps => inr (p :: ps)
                   end
               end
           end) xs
      with
      | inl e => inl e
      | inr parts => inr (join "," parts)
      end
  | JObj props =>
      if bool_decide ("toString" ∈ props.*1)
      then inl (TypeError "Cannot convert object to primitive value")
      else inr "[object Object]"
  end.

(** ToString returns: the value is neither an object with an own
    [toString] member nor an array that holds one. *)
Definition convertible (v : jsval) : bool :=
  match toString v with
  | inr _ => true
  | inl _ => false
  end.

(** [s.concat(v)] on a string receiver. *)
Definition concat (s : string) (v : jsval) : JSError + string :=
  match toString v with
  | inl e => inl e
  | inr t => inr (s +:+ t)
  end.

(** [a - b < c] with [a] and [c] numbers, [b] converted by ToNumber: false
    as soon as [b] is NaN.  A string is converted by StringToNumber
    (decimal, hexadecimal and exponent literals, blanks trimmed), whose
    outcome [ofString a s c] stands for; an array goes through its string,
    and an object is NaN.  A conversion that throws is not told apart from
    NaN here: the worker only ever stores a number in this place. *)
Definition sub_lt (ofString : Z -> string -> Z -> bool)
                  (a : Z) (b : jsval) (c : Z) : bool :=
  match b with
  | JUndefined => false
  | JNull => a - 0 <? c
  | JBool b => a - (if b then 1 else 0) <? c
  | JNum n => a - n <? c
  | JStr s => ofString a s c
  | JArr _ =>
      match toString b with
      | inr s => ofString a s c
      | inl _ => false
      end
  | JObj _ => false
  end.

(** The value a property list gives a key: as in a JSON text, a later
    member with the same name wins. *)
Fixpoint obj_find (k : string) (props : list (string * jsval)) : option jsval :=
  match props with
  | [] => None
  | (k', v) :: rest =>
      match obj_find k rest with
      | Some w => Some w
      | None => if String.eqb k k' then Some v else None
      end
  end.

(** [o[k]]: [undefined] for a missing property. *)
Definition obj_get (k : string) (props : list (string * jsval)) : jsval :=
  default JUndefined (obj_find k props).

(** [v.k] for the property names the worker reads ([data], [lastApiCall],
    [query], [variables], [hashedQuery]): none of them exists on a
    primitive or an array, and reading it off [undefined] or [null]
    throws. *)
Definition getProp (v : jsval) (k : string) : JSError + jsval :=
  match v with
  | JUndefined | JNull => inl (TypeError ("Cannot read properties: " +:+ k))
  | JObj props => inr (obj_get k props)
  | _ => inr JUndefined
  end.

(** Assignment [o[k] = v]: an existing key keeps its place. *)
Fixpoint obj_set (k : string) (v : jsval) (props : list (string * jsval))
  : list (string * jsval) :=
  match props with
  | [] => [(k, v)]
  | (k', v') :: rest =>
      if String.eqb k k' then (k, v) :: rest else (k', v') :: obj_set k v rest
  end.

Fixpoint chars (s : string) : list string :=
  match s with
  | EmptyString => []
  | String c rest => String c EmptyString :: chars rest
  end.

(** The own enumerable properties a spread [...v] copies. *)
Definition ownEntries (v : jsval) : list (string * jsval) :=
  match v with
  | JObj props => props
  | JArr xs => imap (fun i x => (pretty (Z.of_nat i), x)) xs
  | JStr s => imap (fun i c => (pretty (Z.of_nat i), JStr c)) (chars s)
  | _ => []
  end.

(** The object literal [{ ...a, ...b }]. *)
Definition spread2 (a b : jsval) : list (string * jsval) :=
  fold_left (fun acc kv => obj_set kv.1 kv.2 acc)
            (ownEntries a ++ ownEntries b) [].

Definition hex_digit (n : nat) : string :=
  String (Ascii.ascii_of_nat (if Nat.ltb n 10 then 48 + n else 87 + n)%nat)
         EmptyString.

(** One character of a JSON string literal. *)
Definition escape_char (c : Ascii.ascii) : string :=
  let n := Ascii.nat_of_ascii c in
  if Nat.eqb n 34 then String (Ascii.ascii_of_nat 92) dquote
  else if Nat.eqb n 92 then
    String (Ascii.ascii_of_nat 92) (String (Ascii.ascii_of_nat 92) EmptyString)
  else if Nat.eqb n 8 then "\b"
  else if Nat.eqb n 9 then "\t"
  else if Nat.eqb n 10 then "\n"
  else if Nat.eqb n 12 then "\f"
  else if Nat.eqb n 13 then "\r"
  else if Nat.ltb n 32 then
    "\u00" +:+ hex_digit (Nat.div n 16) +:+ hex_digit (Nat.modulo n 16)
  else String c EmptyString.

Fixpoint escape (s : string) : string :=
  match s with
  | EmptyString => EmptyString
  | String c rest => escape_char c +:+ escape rest
  end.

Definition quote (s : string) : string := dquote +:+ escape s +:+ dquote.

(** [JSON.stringify(v)]; [None] is the [undefined] it returns for
    [undefined]. A property whose value is [undefined] is left out, an
    array element that is [undefined] prints as [null]. *)
Fixpoint stringify (v : jsval) : option string :=
  match v with
  | JUndefined => None
  | JNull => Some "null"
  | JBool true => Some "true"
  | JBool false => Some "false"
  | JNum n => Some (pretty n)
  | JStr s => Some (quote s)
  | JArr xs =>
      Some ("[" +:+ join "," (List.map (fun x => match stringify x with
                                                 | Some s => s
                                                 | None => "null"
                                                 end) xs) +:+ "]")
  | JObj props =>
      Some ("{" +:+ join ","
              ((fix members (ps : list (string * jsval)) : list string :=
                  match ps with
                  | [] => []
                  | (k, x) :: rest =>
                      match stringify x with
                      | Some s => (quote k +:+ ":" +:+ s) :: members rest
                      | None => members rest
                      end
                  end) props) +:+ "}")
  end.

End JS.

Import JS.

(* ===================================================================== *)
(** * The GraphQL document and its traversal *)
(* ===================================================================== *)

Module GraphQL.

Inductive OperationType : Type := OpQuery | OpMutation | OpSubscription.

(** [node.operation], the string the parser stores. *)
Definition operation_string (o : OperationType) : string :=
  match o with
  | OpQuery => "query"
  | OpMutation => "mutation"
  | OpSubscription => "subscription"
  end.

(** The nodes [visit] reaches through the hooks of [metaParseAST]:
    definitions, selection sets and selections. Arguments, directives and
    variable definitions carry no selection set and no operation
    definition, so no hook fires below them. *)
Inductive SelectionNode : Type :=
| Field (alias : option string) (name : string)
        (selectionSet : option SelectionSetNode)
| FragmentSpread (name : string)
| InlineFragment (typeCondition : option string)
                 (selectionSet : SelectionSetNode)
with SelectionSetNode : Type :=
| SelectionSet (selections : list SelectionNode).

Inductive DefinitionNode : Type :=
| OperationDefinition (operation : OperationType) (name : option string)
                      (selectionSet : SelectionSetNode)
| FragmentDefinition (name : string) (typeCondition : string)
                     (selectionSet : SelectionSetNode)
| TypeSystemDefinition (name : string).

Definition DocumentNode : Type := list DefinitionNode.

(** [parent.kind] of a selection set. *)
Inductive ParentKind : Type :=
| KOperationDefinition | KFragmentDefinition | KField | KInlineFragment.

Definition selections (ss : SelectionSetNode) : list SelectionNode :=
  match ss with SelectionSet sels => sels end.

(** A visitor with the two [enter] hooks the worker installs, threading the
    state [S] its closures mutate. Neither hook returns a value, so the
    traversal is never cut short or edited. *)
Record Visitor (S : Type) : Type := {
  enterOperationDefinition : OperationType -> S -> S;
  enterSelectionSet : SelectionSetNode -> ParentKind -> S -> S;
}.
Arguments enterOperationDefinition {S}.
Arguments enterSelectionSet {S}.

Section Visit.
Context {S : Type} (v : Visitor S).

(** Depth first, in document order: a node is entered before its
    children. *)
Fixpoint visitSelectionSet (pk : ParentKind) (ss : SelectionSetNode)
                           (acc : S) : S :=
  let acc := enterSelectionSet v ss pk acc in
  match ss with
  | SelectionSet sels =>
      (fix each (l : list SelectionNode) (acc : S) : S :=
         match l with
         | [] => acc
         | s :: rest => each rest (visitSelection s acc)
         end) sels acc
  end
with visitSelection (s : SelectionNode) (acc : S) : S :=
  match s with
  | Field _ _ None => acc
  | Field _ _ (Some ss) => visitSelectionSet KField ss acc
  | FragmentSpread _ => acc
  | InlineFragment _ ss => visitSelectionSet KInlineFragment ss acc
  end.

Definition visitDefinition (d : DefinitionNode) (acc : S) : S :=
  match d with
  | OperationDefinition op _ ss =>
      visitSelectionSet KOperationDefinition ss
                        (enterOperationDefinition v op acc)
  | FragmentDefinition _ _ ss => visitSelectionSet KFragmentDefinition ss acc
  | TypeSystemDefinition _ => acc
  end.

Definition visit (doc : DocumentNode) (acc : S) : S :=
  fold_left (fun a d => visitDefinition d a) doc acc.
End Visit.

End GraphQL.

Import GraphQL.

(* ===================================================================== *)
(** * The service worker *)
(* ===================================================================== *)

Module Sw.

(** ** Data the worker handles *)

Record URL : Type := {
  origin : string;
  pathname : string;
  href : string;
  searchParams : list (string * string);
}.

(** [urlObject.searchParams.get(name)]: the first value, or [null]. *)
Definition searchParams_get (u : URL) (name : string) : jsval :=
  match List.find (fun kv => String.eqb kv.1 name) (searchParams u) with
  | Some kv => JStr kv.2
  | None => JNull
  end.

Definition Headers : Type := list (string * string).

(** An intercepted request; [req_json] is what [request.json()] resolves
    to, [None] when it rejects. *)
Record Request : Type := {
  req_url : URL;
  req_method : string;
  req_headers : Headers;
  req_json : option jsval;
}.

(** The [options] object [executeQuery] hands to [fetch]. *)
Record FetchOptions : Type := {
  fo_method : string;
  fo_headers : Headers;
  fo_body : option string;
}.

(** A response of the network; [net_json] is what [response.json()]
    resolves to, [None] when the body is not JSON. *)
Record NetResponse : Type := {
  net_status : Z;
  net_json : option jsval;
}.

(** What [respondWith] receives: a response built by the worker, or the
    one [fetch] returned. *)
Inductive Response : Type :=
| SwResponse (body : option string) (status : Z)
| NetworkResponse (r : NetResponse).

(** The [settings] object filled at activation; a setting never stored
    reads as [undefined] ([None]). *)
Record Settings : Type := {
  gqlEndpoints : option (list string);
  cacheExpirationLimit : option Z;
  cacheMethod : option string;
  doNotCacheGlobal : option (list string);
  doNotCacheCustom : option (list (string * list string));
}.

(** What [normalizeResult] returns: one single-key object per entity, and
    the patch for the root record. *)
Record NormalizedData : Type := {
  denestedObjects : list (list (string * jsval));
  rootQueryObject : list (string * jsval);
}.

(** What [metaParseAST] returns. *)
Record QueryCST : Type := {
  operationType : string;
  fields : list string;
}.

(** The collaborators of the worker that are not in sw.js: the settings
    read at activation, the clock, the hash, the GraphQL parser, the
    normalizer, the network, which IndexedDB requests fail, and the
    outcome of [a - s < c] on a string [s], which the language settles by
    StringToNumber. *)
Record Env : Type := {
  settings : Settings;
  now : Z;
  ourMD5 : string -> string;
  parse : string -> option DocumentNode;
  normalizeResult : jsval -> JSError + NormalizedData;
  net_fetch : string -> FetchOptions -> option NetResponse;
  net_fetchRequest : Request -> option NetResponse;
  get_fails : string -> string -> bool;
  set_fails : string -> string -> bool;
  string_sub_lt : Z -> string -> Z -> bool;
}.

(** ** State and effects *)

Inductive Event : Type :=
| EvGet (collection key : string)
| EvSet (collection key : string) (value : jsval)
| EvSetMany (collection : string) (keys : list string)
| EvFetch (href : string) (options : FetchOptions)
| EvFetchRequest (request : Request)
| EvLog (msg : string)
| EvErrorLog (msg : string).

(** The IndexedDB contents by (collection, key), the external calls made so
    far in order, the rejections of promises nobody awaits or catches, and
    the [Metrics] object of the request with what it saved. *)
Record State : Type := {
  db : gmap (string * string) jsval;
  trace : list Event;
  unhandled : list JSError;
  isCached : bool;
  saved : list (bool * jsval);
}.

Definition with_db (f : gmap (string * string) jsval -> gmap (string * string) jsval)
                   (s : State) : State :=
  {| db := f (db s); trace := trace s; unhandled := unhandled s;
     isCached := isCached s; saved := saved s |}.

Definition with_event (e : Event) (s : State) : State :=
  {| db := db s; trace := trace s ++ [e]; unhandled := unhandled s;
     isCached := isCached s; saved := saved s |}.

Definition with_unhandled (e : JSError) (s : State) : State :=
  {| db := db s; trace := trace s; unhandled := unhandled s ++ [e];
     isCached := isCached s; saved := saved s |}.

Definition with_isCached (b : bool) (s : State) : State :=
  {| db := db s; trace := trace s; unhandled := unhandled s;
     isCached := b; saved := saved s |}.

Definition with_saved (h : jsval) (s : State) : State :=
  {| db := db s; trace := trace s; unhandled := unhandled s;
     isCached := isCached s; saved := saved s ++ [(isCached s, h)] |}.

(** How an async function ends: it returns or it throws (its promise
    resolves or rejects). *)
Inductive Completion (A : Type) : Type :=
| Return (a : A)
| Throw (e : JSError).
Arguments Return {A}.
Arguments Throw {A}.

Definition Async (A : Type) : Type := State -> Completion A * State.

Definition ret {A} (a : A) : Async A := fun s => (Return a, s).

Definition throw {A} (e : JSError) : Async A := fun s => (Throw e, s).

Definition bind {A B} (m : Async A) (k : A -> Async B) : Async B :=
  fun s => match m s with
           | (Return a, s') => k a s'
           | (Throw e, s') => (Throw e, s')
           end.

(** [try { m } catch (err) { h err }]. *)
Definition try_catch {A} (m : Async A) (h : JSError -> Async A) : Async A :=
  fun s => match m s with
           | (Return a, s') => (Return a, s')
           | (Throw e, s') => h e s'
           end.

(** A call to an async function whose promise is dropped: its effects
    happen, the caller goes on, and a rejection has no handler.  The call
    is run here in one piece, which gives the store, the metrics and the
    rejections as they are once it has settled undisturbed; in the worker
    its steps past the first [await] come after the caller's next steps,
    so the place of its events in the trace is not the worker's. *)
Definition detached {A} (m : Async A) : Async unit :=
  fun s => match m s with
           | (Return _, s') => (Return tt, s')
           | (Throw e, s') => (Return tt, with_unhandled e s')
           end.

Definition lift {A} (r : JSError + A) : Async A :=
  match r with
  | inl e => throw e
  | inr a => ret a
  end.

Definition emit (e : Event) : Async unit :=
  fun s => (Return tt, with_event e s).

(** Reading a [let] binding before its declaration has run. *)
Definition uninitialized {A} (name : string) : Async A :=
  throw (ReferenceError name).

Declare Scope async_scope.
Delimit Scope async_scope with async.
Notation "x <- m ;; k" := (bind m (fun x => k))
  (at level 100, m at next level, right associativity) : async_scope.
Notation "m ;; k" := (bind m (fun _ => k))
  (at level 100, right associativity) : async_scope.
Local Open Scope async_scope.

Definition sw_log (msg : string) : Async unit := emit (EvLog msg).
Definition sw_error_log (msg : string) : Async unit := emit (EvErrorLog msg).

Section Worker.
Variable E : Env.

(** ** The store adapter (db.js) *)

(** Modelled from the spec: db.js is not among the sources. Section 6
    gives [get(collection, key) -> value | absent]; a failed request
    rejects. *)
Definition get (collection key : string) : Async jsval :=
  emit (EvGet collection key);;
  if get_fails E collection key then throw (StoreError key)
  else fun s => (Return (default JUndefined (db s !! (collection, key))), s).

(** Modelled from the spec: db.js is not among the sources. Section 6
    gives [set(collection, key, value) -> ack], and section 3 has a
    record written this way overwritten wholesale. *)
Definition set (collection key : string) (value : jsval) : Async unit :=
  emit (EvSet collection key value);;
  if set_fails E collection key then throw (StoreError key)
  else fun s => (Return tt, with_db (insert (collection, key) value) s).

(** The pairs put one after the other, a later pair over an earlier one
    with the same key. *)
Definition putAll (collection : string) (kvs : list (string * jsval))
                  (m : gmap (string * string) jsval)
  : gmap (string * string) jsval :=
  fold_left (fun m kv => <[(collection, kv.1) := kv.2]> m) kvs m.

(** The keys of the entries that are pairs. *)
Definition entryKeys (entries : list (option (string * jsval))) : list string :=
  omap (fmap fst) entries.

(** The puts of [setMany], one entry after the other: the first entry
    that is not a pair, or whose put fails, rejects the call, and what was
    put before it stays. *)
Fixpoint putEach (collection : string)
                 (entries : list (option (string * jsval))) : Async unit :=
  match entries with
  | [] => ret tt
  | None :: _ => throw (TypeError "setMany: entry is undefined")
  | Some (key, value) :: rest =>
      if set_fails E collection key then throw (StoreError key)
      else
        (fun s => (Return tt, with_db (insert (collection, key) value) s));;
        putEach collection rest
  end.

(** Modelled from the spec: db.js is not among the sources. Section 6
    gives [setMany(collection, sequence of (key, value)) -> ack]: the
    pairs are put in order; section 4.7 has the write not atomic, so a
    failure leaves the earlier puts in the store. *)
Definition setMany (collection : string)
                   (entries : list (option (string * jsval))) : Async unit :=
  emit (EvSetMany collection (entryKeys entries));;
  putEach collection entries.

(** ** The network and the metrics sink *)

Definition fetch (href : string) (options : FetchOptions) : Async NetResponse :=
  emit (EvFetch href options);;
  match net_fetch E href options with
  | Some r => ret r
  | None => throw NetworkError
  end.

(** [fetch(clone)]: the original request, sent as it came. *)
Definition fetchRequest (clone : Request) : Async NetResponse :=
  emit (EvFetchRequest clone);;
  match net_fetchRequest E clone with
  | Some r => ret r
  | None => throw NetworkError
  end.

Definition response_json (r : NetResponse) : Async jsval :=
  match net_json r with
  | Some v => ret v
  | None => throw (TypeError "response.json: body is not JSON")
  end.

Definition request_json (r : Request) : Async jsval :=
  match req_json r with
  | Some v => ret v
  | None => throw (TypeError "request.json: body is not JSON")
  end.

(** Modelled from the spec: Metrics.js is not among the sources.
    Section 4.8 gives [record(isCached, key)], a sink. *)
Definition metrics_save (hashedQuery : jsval) : Async unit :=
  fun s => (Return tt, with_saved hashedQuery s).

Definition metrics_set_isCached (b : bool) : Async unit :=
  fun s => (Return tt, with_isCached b s).

(** ** sw.js, lines 174-237: extraction, lookup, freshness, network *)

(** The template literal of the [throw] reads [url], which is a constant
    of the fetch listener and not in scope here: evaluating it raises a
    ReferenceError in place of the Error being built. *)
Definition getQueryFromUrl (urlObject : URL) : Async (jsval * jsval) :=
  let query := searchParams_get urlObject "query" in
  let variables := searchParams_get urlObject "variables" in
  if negb (truthy query) then throw (ReferenceError "url")
  else ret (query, variables).

Definition getQueryFromBody (request : Request) : Async (jsval * jsval) :=
  try_catch
    (parsed <- request_json request;;
     query <- lift (getProp parsed "query");;
     variables <- lift (getProp parsed "variables");;
     ret (query, variables))
    (fun err =>
       sw_error_log "We couldn't get the query from the request body!";;
       throw err).

(** The [catch] logs and falls off the end: the call resolves to
    [undefined]. *)
Definition checkQueryExists (hashedQuery : string) : Async jsval :=
  try_catch
    (get "queries" hashedQuery)
    (fun err => sw_error_log "Error getting query from IDB";; ret JUndefined).

(** [!cacheExpirationLimit] holds for [undefined] and for [0]. *)
Definition checkCachedQueryIsFresh (lastApiCall : jsval) : bool :=
  match cacheExpirationLimit (settings E) with
  | None => true
  | Some limit =>
      if limit =? 0 then true
      else sub_lt (string_sub_lt E) (now E) lastApiCall limit
  end.

(** The [options] of [executeQuery]: the body goes with a POST only. *)
Definition queryOptions (method : string) (headers : Headers) (body : string)
  : FetchOptions :=
  {| fo_method := method; fo_headers := headers;
     fo_body := if String.eqb method "POST" then Some body else None |}.

(** The [catch] logs and falls off the end: the call resolves to
    [undefined]. *)
Definition executeQuery (urlObject : URL) (method : string)
                        (headers : Headers) (body : string) : Async jsval :=
  try_catch
    (let options := queryOptions method headers body in
     response <- fetch (href urlObject) options;;
     data <- response_json response;;
     ret data)
    (fun err => sw_error_log "Error executing query";; ret JUndefined).

(** ** sw.js, lines 239-283: writing the caches *)

Definition writeToCache (hashedQuery : string) (data : jsval) : Async unit :=
  if negb (truthy data) then ret tt
  else
    try_catch
      (set "queries" hashedQuery
           (JObj [("data", data); ("lastApiCall", JNum (now E))]);;
       sw_log "Wrote response to cache.")
      (fun err =>
         sw_error_log "Could not write response to cache!";;
         throw err).

(** [denestedObjects.map((e) => Object.entries(e)[0])]: the first property
    of each object, [undefined] for an empty one. *)
Definition arrayKeyVals (normalizedData : NormalizedData)
  : list (option (string * jsval)) :=
  List.map head (denestedObjects normalizedData).

(** Lines 258-266: what [writeToNormalizedCache] does with the
    [rootQuery] it has read.  The read and this write are two awaits, and
    whatever else the worker is doing can run between them. *)
Definition writeRootQuery (normalizedData : NormalizedData)
                          (rootQuery : jsval) : Async unit :=
  if negb (truthy rootQuery) then
    set "queries" "ROOT_QUERY" (JObj (rootQueryObject normalizedData))
  else
    let expandedRoot :=
      JObj (spread2 rootQuery (JObj (rootQueryObject normalizedData))) in
    set "queries" "ROOT_QUERY" expandedRoot.

Definition writeToNormalizedCache (normalizedData : NormalizedData) : Async unit :=
  setMany "queries" (arrayKeyVals normalizedData);;
  rootQuery <- get "queries" "ROOT_QUERY";;
  writeRootQuery normalizedData rootQuery.

(** Neither write is awaited. *)
Definition executeAndUpdate (hashedQuery : string) (urlObject : URL)
                            (method : string) (headers : Headers)
                            (body : string) : Async jsval :=
  data <- executeQuery urlObject method headers body;;
  detached (writeToCache hashedQuery data);;
  payload <- lift (getProp data "data");;
  normalizedData <- lift (normalizeResult E payload);;
  detached (writeToNormalizedCache normalizedData);;
  ret data.

(** ** sw.js, lines 302-364: classification and the bypass policy *)

(** The two hooks of [metaParseAST]. The loop over the selections of the
    operation has an empty body: every statement in it is commented
    out. *)
Definition metaVisitor : Visitor QueryCST := {|
  enterOperationDefinition := fun operation queryCST =>
    {| operationType := operation_string operation;
       fields := fields queryCST |};
  enterSelectionSet := fun node parentKind queryCST =>
    match parentKind with
    | KOperationDefinition =>
        fold_left (fun cst (selection : SelectionNode) => cst)
                  (selections node) queryCST
    | _ => queryCST
    end;
|}.

(** [parse] throws on a text that is not GraphQL, and on a value that is
    not a string. *)
Definition metaParseAST (query : jsval) : Async QueryCST :=
  let queryCST := {| operationType := EmptyString; fields := [] |} in
  queryAST <- match query with
              | JStr text =>
                  match parse E text with
                  | Some doc => ret doc
                  | None => throw GraphQLSyntaxError
                  end
              | _ => throw (TypeError "Body must be a string")
              end;;
  rootQueryObject <- get "queries" "ROOT_QUERY";;
  ret (visit metaVisitor queryAST queryCST).

(** [endpoint in settings.doNotCacheCustom] throws when that setting is
    [undefined], and so does spreading an [undefined]
    [settings.doNotCacheGlobal]. *)
Definition doNotCacheCheck (queryCST : QueryCST) (urlObject : URL)
  : JSError + bool :=
  let endpoint := origin urlObject +:+ pathname urlObject in
  let fieldsArray := fields queryCST in
  match doNotCacheCustom (settings E) with
  | None => inl (TypeError "Cannot use 'in' operator in undefined")
  | Some custom =>
      match doNotCacheGlobal (settings E) with
      | None => inl (TypeError "settings.doNotCacheGlobal is not iterable")
      | Some global =>
          let doNotCache :=
            match List.find (fun kv => String.eqb kv.1 endpoint) custom with
            | Some kv => (kv.2 ++ global)%list
            | None => global
            end in
          inr (existsb (fun f => existsb (fun d => String.eqb f d) doNotCache)
                       fieldsArray)
      end
  end.

(** ** sw.js, lines 106-172: the caching logic *)

(** [ourMD5(query.concat(variables))], the value of [hashedQuery] when
    the concatenation returns; there is no key when it throws, and the
    empty string stands for that. *)
Definition hashedQueryOf (text : string) (variables : jsval) : string :=
  match concat text variables with
  | inr joined => ourMD5 E joined
  | inl _ => EmptyString
  end.

(** [JSON.stringify({ query, variables })], always a string. *)
Definition requestBody (query variables : jsval) : string :=
  default EmptyString
    (stringify (JObj [("query", query); ("variables", variables)])).

(** In the bypass branch the argument [body] of [executeQuery] is read
    before [let body] (declared further down the same function) has run:
    the read throws inside the [try], before [executeQuery] is called.
    Past the bypass, [query.concat(variables)] is evaluated inside the
    second [try]: when it throws, the error is logged and thrown on. *)
Definition runCachingLogic (urlObject : URL) (method : string)
                           (headers : Headers) (request : Request)
  : Async jsval :=
  qv <- try_catch
          (if String.eqb method "GET" then getQueryFromUrl urlObject
           else getQueryFromBody request)
          (fun err =>
             sw_error_log
               "There was an error getting the query/variables from the request!";;
             throw err);;
  let query := qv.1 in
  let variables := qv.2 in
  metadata <- metaParseAST query;;
  bypass <- match doNotCacheGlobal (settings E) with
            | None => ret false
            | Some _ => lift (doNotCacheCheck metadata urlObject)
            end;;
  if bypass then
    responseData <-
      try_catch
        (body <- uninitialized "body";;
         executeQuery urlObject method headers body)
        (fun err =>
           sw_error_log "There was an error getting the response data!";;
           throw err);;
    ret responseData
  else
    found <-
      try_catch
        (text <- match query with
                 | JStr text => ret text
                 | _ => throw (TypeError "query.concat is not a function")
                 end;;
         joined <- lift (concat text variables);;
         let hashedQuery := ourMD5 E joined in
         let body := requestBody query variables in
         cachedData <- checkQueryExists hashedQuery;;
         ret (hashedQuery, body, cachedData))
        (fun err =>
           sw_error_log "There was an error getting the cached data!";;
           throw err);;
    let hashedQuery := found.1.1 in
    let body := found.1.2 in
    let cachedData := found.2 in
    if truthy cachedData
       && checkCachedQueryIsFresh (obj_get "lastApiCall" (ownEntries cachedData))
    then
      metrics_set_isCached true;;
      sw_log "Fetched from cache";;
      (if bool_decide (cacheMethod (settings E) = Some "cache-network")
       then detached (executeAndUpdate hashedQuery urlObject method headers body)
       else ret tt);;
      ret (JObj [("data", cachedData); ("hashedQuery", JStr hashedQuery)])
    else
      data <- executeAndUpdate hashedQuery urlObject method headers body;;
      ret (JObj [("data", data); ("hashedQuery", JStr hashedQuery)]).

(** ** sw.js, lines 67-99: the fetch listener *)

Definition fetchAndGetResponse (request clone : Request) : Async Response :=
  try_catch
    (result <- runCachingLogic (req_url clone) (req_method clone)
                               (req_headers clone) request;;
     data <- lift (getProp result "data");;
     hashedQuery <- lift (getProp result "hashedQuery");;
     metrics_save hashedQuery;;
     ret (SwResponse (stringify data) 200))
    (fun err =>
       sw_error_log "There was an error in the caching logic!";;
       response <- fetchRequest clone;;
       ret (NetworkResponse response)).

(** What the listener does with a fetch event. *)
Inductive Dispatch : Type :=
| NotIntercepted
| ListenerThrew (e : JSError)
| RespondWith (outcome : Completion Response * State).

(** A fresh [Metrics] object per event; [respondWith] is reached only for
    a request whose origin and path are among [gqlEndpoints]. *)
Definition onFetch (request : Request) (s : State) : Dispatch :=
  let s := with_isCached false s in
  let endpoint := origin (req_url request) +:+ pathname (req_url request) in
  match gqlEndpoints (settings E) with
  | None => ListenerThrew (TypeError "gqlEndpoints is undefined")
  | Some endpoints =>
      if existsb (String.eqb endpoint) endpoints
      then RespondWith (fetchAndGetResponse request request s)
      else NotIntercepted
  end.
End Worker.

End Sw.

Import Sw.
Local Open Scope async_scope.

(* ===================================================================== *)
(** * Activation: loading the settings *)
(* ===================================================================== *)

Module Activation.

(** sw.js, lines 16-28. One callback of [validSettings.map]: the setting is
    read from the [settings] collection and assigned to the [settings]
    object; when the read rejects nothing is assigned and the rejection is
    what [Promise.all] sees. Every callback runs, whatever the others do.
    The second component records whether some callback has rejected. *)
Definition loadSetting (E : Env) (acc : list (string * jsval) * bool)
           (setting : string) : Async (list (string * jsval) * bool) :=
  try_catch
    (result <- get E "settings" setting;;
     ret (obj_set setting result acc.1, acc.2))
    (fun err => ret (acc.1, true)).

Fixpoint loadSettings (E : Env) (validSettings : list string)
         (acc : list (string * jsval) * bool)
  : Async (list (string * jsval) * bool) :=
  match validSettings with
  | [] => ret acc
  | setting :: rest =>
      acc' <- loadSetting E acc setting;;
      loadSettings E rest acc'
  end.

(** The first [try] block of the activate listener, from an empty
    [settings] object: it returns the object as the callbacks leave it.
    [validSettings] is exported by index.js, which is not among the
    sources, and is taken as a parameter. *)
Definition activateSettings (E : Env) (validSettings : list string)
  : Async (list (string * jsval)) :=
  loaded <- loadSettings E validSettings ([], false);;
  (if loaded.2
   then sw_error_log "Could not initialize service worker settings."
   else sw_log "Service worker settings initialized.");;
  ret loaded.1.

End Activation.

Import Activation.

(* ===================================================================== *)
(** * What the specification asks of the classifier *)
(* ===================================================================== *)

Module Spec.

(** Section 4.2 in the specification's words: the names of the fields of
    the outermost selection set of the operation, nested selections left
    out, in order. *)
Definition outermostFieldNames (ss : SelectionSetNode) : list string :=
  omap (fun sel => match sel with
                   | Field _ name _ => Some name
                   | _ => None
                   end) (selections ss).

(** Section 4.2 in the specification's words: kind and top-level fields
    are read from the first operation definition of the document. *)
Fixpoint classify (doc : DocumentNode) : option QueryCST :=
  match doc with
  | [] => None
  | OperationDefinition op _ ss :: _ =>
      Some {| operationType := operation_string op;
              fields := outermostFieldNames ss |}
  | _ :: rest => classify rest
  end.

(** Section 4.3 in the specification's words: the bypass set of an
    endpoint. *)
Definition bypassSet (global : list string)
                     (custom : list (string * list string))
                     (endpoint : string) : list string :=
  match List.find (fun kv => String.eqb kv.1 endpoint) custom with
  | Some kv => (kv.2 ++ global)%list
  | None => global
  end.

End Spec.

(* ===================================================================== *)
(** * Fixtures: concrete collaborators, settings and requests *)
(* ===================================================================== *)

Module Fixtures.

Definition endpoint_url : URL := {|
  origin := "https://api.example.com";
  pathname := "/graphql";
  href := "https://api.example.com/graphql";
  searchParams := [];
|}.

Definition posts_text : string := "{ posts { id } }".
Definition user_text : string := "query { user { name } }".

(** The document the parser returns for [{ posts { id } }]. *)
Definition posts_doc : DocumentNode :=
  [OperationDefinition OpQuery None
     (SelectionSet
        [Field None "posts" (Some (SelectionSet [Field None "id" None]))])].

(** The document the parser returns for [query { user { name } }]. *)
Definition user_doc : DocumentNode :=
  [OperationDefinition OpQuery None
     (SelectionSet
        [Field None "user" (Some (SelectionSet [Field None "name" None]))])].

Definition parse_fixture (text : string) : option DocumentNode :=
  if String.eqb text posts_text then Some posts_doc
  else if String.eqb text user_text then Some user_doc
  else None.

Definition posts_payload : jsval :=
  JObj [("data", JObj [("posts", JArr [JObj [("__typename", JStr "Post");
                                             ("id", JNum 1)]])])].

Definition posts_normalized : NormalizedData := {|
  denestedObjects := [[("Post:1", JObj [("__typename", JStr "Post");
                                        ("id", JNum 1)])]];
  rootQueryObject := [("posts", JArr [JStr "Post:1"])];
|}.

Definition normalize_fixture (payload : jsval) : JSError + NormalizedData :=
  match payload with
  | JObj _ => inr posts_normalized
  | _ => inl NormalizeError
  end.

Definition post_request (text : string) (variables : jsval) : Request := {|
  req_url := endpoint_url;
  req_method := "POST";
  req_headers := [("Content-Type", "application/json")];
  req_json := Some (JObj [("query", JStr text); ("variables", variables)]);
|}.

Definition settings_fixture : Settings := {|
  gqlEndpoints := Some ["https://api.example.com/graphql"];
  cacheExpirationLimit := Some 1000;
  cacheMethod := Some "cache-first";
  doNotCacheGlobal := Some ["posts"];
  doNotCacheCustom := Some [];
|}.

Definition ok_response : NetResponse :=
  {| net_status := 200; net_json := Some posts_payload |}.

(** StringToNumber on the strings the fixtures meet: the empty string is
    0, a decimal integer literal is its value, anything else NaN. *)
Definition decimal_sub_lt (a : Z) (s : string) (c : Z) : bool :=
  if String.eqb s EmptyString then a - 0 <? c
  else match DecimalString.NilZero.int_of_string s with
       | Some d => a - Z.of_int d <? c
       | None => false
       end.

(** A network that answers every call with [posts_payload], or fails every
    call; a store in which the listed (collection, key) requests fail. *)
Definition env_fixture (network_up : bool)
                       (failing_gets failing_sets : list string) : Env := {|
  settings := settings_fixture;
  now := 5000;
  ourMD5 := fun s => "md5(" +:+ s +:+ ")";
  parse := parse_fixture;
  normalizeResult := normalize_fixture;
  net_fetch := fun _ _ => if network_up then Some ok_response else None;
  net_fetchRequest := fun _ => if network_up then Some ok_response else None;
  get_fails := fun _ k => existsb (String.eqb k) failing_gets;
  set_fails := fun _ k => existsb (String.eqb k) failing_sets;
  string_sub_lt := decimal_sub_lt;
|}.

Definition empty_state : State := {|
  db := ∅; trace := []; unhandled := []; isCached := false; saved := [];
|}.

(** A store that already holds the entity [User:1] and a root record
    pointing at it. *)
Definition user_state : State := {|
  db := <[("queries", "ROOT_QUERY") := JObj [("user", JStr "User:1")]]>
        (<[("queries", "User:1") := JObj [("name", JStr "A");
                                          ("email", JStr "a@example.com")]]> ∅);
  trace := []; unhandled := []; isCached := false; saved := [];
|}.

(** A later response that carries [User:1] with its [name] only. *)
Definition user_update : NormalizedData := {|
  denestedObjects := [[("User:1", JObj [("name", JStr "B")])]];
  rootQueryObject := [("posts", JArr [JStr "Post:1"])];
|}.

Definition posts_key : string :=
  hashedQueryOf (env_fixture true [] []) posts_text JNull.

(** The store after a first request for [posts_text], answered from the
    network with every collaborator up. *)
Definition warm_state : State :=
  (fetchAndGetResponse (env_fixture true [] []) (post_request posts_text JNull)
                       (post_request posts_text JNull) empty_state).2.

(** The cache record that first request leaves behind. *)
Definition posts_record : jsval :=
  JObj [("data", posts_payload); ("lastApiCall", JNum 5000)].

(** An environment that differs from the fixture in the expiration limit
    and the clock only. *)
Definition env_with_limit (limit : option Z) (clock : Z) : Env := {|
  settings := {| gqlEndpoints := gqlEndpoints settings_fixture;
                 cacheExpirationLimit := limit;
                 cacheMethod := cacheMethod settings_fixture;
                 doNotCacheGlobal := doNotCacheGlobal settings_fixture;
                 doNotCacheCustom := doNotCacheCustom settings_fixture |};
  now := clock;
  ourMD5 := ourMD5 (env_fixture true [] []);
  parse := parse_fixture;
  normalizeResult := normalize_fixture;
  net_fetch := net_fetch (env_fixture true [] []);
  net_fetchRequest := net_fetchRequest (env_fixture true [] []);
  get_fails := fun _ _ => false;
  set_fails := fun _ _ => false;
  string_sub_lt := decimal_sub_lt;
|}.

End Fixtures.

Import Fixtures.

(* ===================================================================== *)
(** * Observations used to state further properties *)
(* ===================================================================== *)

Module Observe.

(** The store, the saved metrics and the unhandled rejections are the same
    in two states; the trace may differ. *)
Definition same_store (s s' : State) : Prop :=
  db s' = db s /\ saved s' = saved s /\ unhandled s' = unhandled s.

(** From [s] to [s'] the saved metrics are the same, every collection
    other than [queries] is the same, and the trace and the unhandled
    rejections have only grown. *)
Definition extends (s s' : State) : Prop :=
  saved s' = saved s
  /\ (forall collection key,
        collection <> "queries" ->
        db s' !! (collection, key) = db s !! (collection, key))
  /\ trace s `prefix_of` trace s'
  /\ unhandled s `prefix_of` unhandled s'.

(** Every run of [m] takes a state to one that extends it. *)
Definition respects {A : Type} (m : Async A) : Prop :=
  forall s c s', m s = (c, s') -> extends s s'.

(** The operation type [visit] leaves in the classifier's record: every
    operation definition overwrites it, so the last one stays. *)
Fixpoint lastOperation (doc : DocumentNode) (seen : string) : string :=
  match doc with
  | [] => seen
  | OperationDefinition op _ _ :: rest => lastOperation rest (operation_string op)
  | _ :: rest => lastOperation rest seen
  end.

(** The extraction step of [runCachingLogic]: by URL for a GET, by body
    otherwise. *)
Definition extraction (url : URL) (method : string) (request : Request)
  : Async (jsval * jsval) :=
  if String.eqb method "GET" then getQueryFromUrl url
  else getQueryFromBody request.

(** A request gets as far as the lookup of its cache record: extraction
    yields a query text and variables, the text parses, the variables
    convert to a string, the root record and the cache record can be read,
    and the bypass test does not throw. *)
Definition reaches_lookup (E : Env) (url : URL) (method : string)
           (request : Request) (s : State)
           (text : string) (variables : jsval) (doc : DocumentNode) : Prop :=
  extraction url method request s = (Return (JStr text, variables), s)
  /\ parse E text = Some doc
  /\ convertible variables = true
  /\ get_fails E "queries" "ROOT_QUERY" = false
  /\ (doNotCacheGlobal (settings E) = None
      \/ is_Some (doNotCacheCustom (settings E)))
  /\ get_fails E "queries" (hashedQueryOf E text variables) = false.

(** The record [writeToCache] builds for a payload. *)
Definition cacheRecord (E : Env) (payload : jsval) : jsval :=
  JObj [("data", payload); ("lastApiCall", JNum (now E))].

(** The fixture with [cache-network] as cache method. *)
Definition env_cache_network (network_up : bool) : Env := {|
  settings := {| gqlEndpoints := gqlEndpoints settings_fixture;
                 cacheExpirationLimit := cacheExpirationLimit settings_fixture;
                 cacheMethod := Some "cache-network";
                 doNotCacheGlobal := doNotCacheGlobal settings_fixture;
                 doNotCacheCustom := doNotCacheCustom settings_fixture |};
  now := 5500;
  ourMD5 := ourMD5 (env_fixture true [] []);
  parse := parse_fixture;
  normalizeResult := normalize_fixture;
  net_fetch := fun _ _ => if network_up then Some ok_response else None;
  net_fetchRequest := fun _ => if network_up then Some ok_response else None;
  get_fails := fun _ _ => false;
  set_fails := fun _ _ => false;
  string_sub_lt := decimal_sub_lt;
|}.

(** The fixture with a bypass list and no per-endpoint bypass setting. *)
Definition env_no_custom : Env := {|
  settings := {| gqlEndpoints := gqlEndpoints settings_fixture;
                 cacheExpirationLimit := cacheExpirationLimit settings_fixture;
                 cacheMethod := cacheMethod settings_fixture;
                 doNotCacheGlobal := Some ["comments"];
                 doNotCacheCustom := None |};
  now := 5000;
  ourMD5 := ourMD5 (env_fixture true [] []);
  parse := parse_fixture;
  normalizeResult := normalize_fixture;
  net_fetch := net_fetch (env_fixture true [] []);
  net_fetchRequest := net_fetchRequest (env_fixture true [] []);
  get_fails := fun _ _ => false;
  set_fails := fun _ _ => false;
  string_sub_lt := decimal_sub_lt;
|}.

(** The fixture with a parser that returns [doc] for every text. *)
Definition env_parsing (doc : DocumentNode) : Env := {|
  settings := settings_fixture;
  now := 5000;
  ourMD5 := ourMD5 (env_fixture true [] []);
  parse := fun _ => Some doc;
  normalizeResult := normalize_fixture;
  net_fetch := net_fetch (env_fixture true [] []);
  net_fetchRequest := net_fetchRequest (env_fixture true [] []);
  get_fails := fun _ _ => false;
  set_fails := fun _ _ => false;
  string_sub_lt := decimal_sub_lt;
|}.

(** A document with a query followed by a mutation. *)
Definition two_operations_doc : DocumentNode :=
  [OperationDefinition OpQuery (Some "A")
     (SelectionSet [Field None "user" None]);
   OperationDefinition OpMutation (Some "B")
     (SelectionSet [Field None "addUser" None])].

(** A GraphQL answer that carries errors and no data. *)
Definition errors_payload : jsval :=
  JObj [("errors", JArr [JObj [("message", JStr "Cannot query field")]])].

(** The fixture with a network that answers every call with
    [errors_payload], which the normalizer of the fixture refuses. *)
Definition env_errors : Env := {|
  settings := settings_fixture;
  now := 5000;
  ourMD5 := ourMD5 (env_fixture true [] []);
  parse := parse_fixture;
  normalizeResult := normalize_fixture;
  net_fetch := fun _ _ => Some {| net_status := 200;
                                  net_json := Some errors_payload |};
  net_fetchRequest := fun _ => Some {| net_status := 200;
                                       net_json := Some errors_payload |};
  get_fails := fun _ _ => false;
  set_fails := fun _ _ => false;
  string_sub_lt := decimal_sub_lt;
|}.

(** A GET request with the given query-string parameters. *)
Definition get_request (params : list (string * string)) : Request := {|
  req_url := {| origin := "https://api.example.com";
                pathname := "/graphql";
                href := "https://api.example.com/graphql";
                searchParams := params |};
  req_method := "GET";
  req_headers := [];
  req_json := None;
|}.

(** A response that carries [User:1] and points the root field [user] at
    it. *)
Definition user_normalized : NormalizedData := {|
  denestedObjects := [[("User:1", JObj [("name", JStr "A")])]];
  rootQueryObject := [("user", JStr "User:1")];
|}.

(** Two calls of [writeToNormalizedCache] in flight at once.  A call is
    three store requests, one per [await], and nothing holds the store
    between them: here each call has written its entities and read the
    root record before either writes it. *)
Definition overlappingWrites (E : Env) (first second : NormalizedData)
  : Async unit :=
  setMany E "queries" (arrayKeyVals first);;
  setMany E "queries" (arrayKeyVals second);;
  rootFirst <- get E "queries" "ROOT_QUERY";;
  rootSecond <- get E "queries" "ROOT_QUERY";;
  writeRootQuery E first rootFirst;;
  writeRootQuery E second rootSecond.

(** The same two calls one after the other. *)
Definition successiveWrites (E : Env) (first second : NormalizedData)
  : Async unit :=
  writeToNormalizedCache E first;;
  writeToNormalizedCache E second.

(** The caching logic looks a request up under [key]: after the read of
    the root record its next store request is the read of [key], and a
    result it returns carries [key] as its [hashedQuery]. *)
Definition looksUpUnder (E : Env) (url : URL) (method : string)
           (headers : Headers) (request : Request) (s : State)
           (key : string) : Prop :=
  let out := runCachingLogic E url method headers request s in
  (exists rest,
     trace out.2
     = (trace s ++ [EvGet "queries" "ROOT_QUERY"; EvGet "queries" key]
                ++ rest)%list)
  /\ (forall result,
        out.1 = Return result ->
        getProp result "hashedQuery" = inr (JStr key)).

(** A [variables] object with an own member named [toString]. *)
Definition shadowing_variables : jsval := JObj [("toString", JNum 1)].

End Observe.

Import Observe.

(* ===================================================================== *)
(** * Properties of the JavaScript fragment *)
(* ===================================================================== *)

Section JSFacts.

Lemma string_eqb_refl (a : string) : String.eqb a a = true.
Proof. apply String.eqb_refl. Qed.

Lemma string_eqb_decide (a b : string) : String.eqb a b = bool_decide (a = b).
Proof.
  destruct (String.eqb_spec a b) as [->|Hne].
  - by rewrite bool_decide_eq_true_2.
  - by rewrite bool_decide_eq_false_2.
Qed.

Lemma length_append (a b : string) :
  String.length (a +:+ b) = (String.length a + String.length b)%nat.
Proof. induction a as [|c a IH]; simpl; [done | by rewrite IH]. Qed.

(** A plain object converts to one and the same string, unless it has an
    own [toString] member: then the conversion throws. *)
Lemma toString_object (props : list (string * jsval)) :
  "toString" ∉ props.*1 -> toString (JObj props) = inr "[object Object]".
Proof. intros Hown. cbn. by rewrite bool_decide_eq_false_2. Qed.

Lemma toString_own_member (props : list (string * jsval)) :
  "toString" ∈ props.*1 ->
  toString (JObj props) = inl (TypeError "Cannot convert object to primitive value").
Proof. intros Hown. cbn. by rewrite bool_decide_eq_true_2. Qed.

Lemma concat_convertible (text : string) (v : jsval) :
  convertible v = true -> exists suffix, concat text v = inr (text +:+ suffix).
Proof.
  unfold convertible, concat. destruct (toString v) as [e|suffix]; [done|].
  intros _. by exists suffix.
Qed.

Lemma hashedQueryOf_concat (E : Env) (text : string) (v : jsval) (joined : string) :
  concat text v = inr joined -> hashedQueryOf E text v = ourMD5 E joined.
Proof. unfold hashedQueryOf. by intros ->. Qed.

Lemma stringify_record_length (payload : jsval) (t : Z) (body : string) :
  stringify payload = Some body ->
  exists wrapped,
    stringify (JObj [("data", payload); ("lastApiCall", JNum t)]) = Some wrapped
    /\ (String.length body < String.length wrapped)%nat.
Proof.
  intros Hbody. eexists. split.
  - cbn [stringify]. rewrite Hbody. reflexivity.
  - cbn [join]. rewrite !length_append. simpl. lia.
Qed.

Lemma stringify_record_neq (payload : jsval) (t : Z) :
  stringify (JObj [("data", payload); ("lastApiCall", JNum t)])
  <> stringify payload.
Proof.
  destruct (stringify payload) as [body|] eqn:Hbody.
  - destruct (stringify_record_length payload t body Hbody) as (w & Hw & Hlen).
    rewrite Hw. intros [= ->]. lia.
  - cbn [stringify]. rewrite Hbody. discriminate.
Qed.

End JSFacts.

(* ===================================================================== *)
(** * The classifier *)
(* ===================================================================== *)

Section Classifier.
Variable E : Env.

Lemma forEach_empty_body (sels : list SelectionNode) (cst : QueryCST) :
  fold_left (fun c (_ : SelectionNode) => c) sels cst = cst.
Proof. induction sels; simpl; auto. Qed.

(** No selection set, at any depth, changes what the visitor collects. *)
Fixpoint visitSelectionSet_id (pk : ParentKind) (ss : SelectionSetNode)
                              (cst : QueryCST) {struct ss} :
  visitSelectionSet metaVisitor pk ss cst = cst
with visitSelection_id (sel : SelectionNode) (cst : QueryCST) {struct sel} :
  visitSelection metaVisitor sel cst = cst.
Proof.
  - destruct ss as [sels].
    assert (Henter : enterSelectionSet metaVisitor (SelectionSet sels) pk cst = cst).
    { destruct pk; simpl; auto using forEach_empty_body. }
    cbn [visitSelectionSet]. rewrite Henter. clear Henter.
    induction sels as [|sel sels IH]; [reflexivity|].
    rewrite visitSelection_id. exact IH.
  - destruct sel as [al name [ss|]|name|tc ss]; simpl; auto.
Qed.

Lemma visitDefinition_fields (d : DefinitionNode) (cst : QueryCST) :
  fields (visitDefinition metaVisitor d cst) = fields cst.
Proof.
  destruct d; simpl; rewrite ?visitSelectionSet_id; reflexivity.
Qed.

Lemma visit_fields (doc : DocumentNode) (cst : QueryCST) :
  fields (visit metaVisitor doc cst) = fields cst.
Proof.
  unfold visit. revert cst.
  induction doc as [|d doc IH]; intros cst; simpl; [reflexivity|].
  rewrite IH. apply visitDefinition_fields.
Qed.

(** Whatever the operation selects, the classifier reports no field. *)
Lemma metaParseAST_fields_nil (query : jsval) (s s' : State) (cst : QueryCST) :
  metaParseAST E query s = (Return cst, s') -> fields cst = [].
Proof.
  unfold metaParseAST, bind, get, emit, throw, ret.
  destruct query as [| | | |text| |]; try discriminate.
  destruct (parse E text) as [doc|]; [|discriminate].
  destruct (get_fails E "queries" "ROOT_QUERY"); [discriminate|].
  intros [= <- _]. apply visit_fields.
Qed.

(** [doNotCacheCheck] in itself is the membership test of section 4.3. *)
Lemma doNotCacheCheck_spec (cst : QueryCST) (url : URL)
                           (global : list string)
                           (custom : list (string * list string)) :
  doNotCacheGlobal (settings E) = Some global ->
  doNotCacheCustom (settings E) = Some custom ->
  exists b,
    doNotCacheCheck E cst url = inr b
    /\ (b = true <->
        exists f, f ∈ fields cst
                  /\ f ∈ Spec.bypassSet global custom (origin url +:+ pathname url)).
Proof.
  intros Hg Hc. unfold doNotCacheCheck. rewrite Hg, Hc.
  eexists. split; [reflexivity|].
  fold (Spec.bypassSet global custom (origin url +:+ pathname url)).
  rewrite existsb_exists. split.
  - intros (f & Hf & Hin). apply existsb_exists in Hin as (d & Hd & Heq).
    apply String.eqb_eq in Heq as ->.
    exists d. by rewrite !list_elem_of_In.
  - intros (f & Hf & Hin). exists f. rewrite <- list_elem_of_In. split; [done|].
    apply existsb_exists. exists f. rewrite <- list_elem_of_In.
    split; [done | apply String.eqb_refl].
Qed.

(** On what the classifier returns, the bypass test is never true. *)
Lemma doNotCacheCheck_after_metaParseAST (query : jsval) (s s' : State)
                                         (cst : QueryCST) (url : URL) :
  metaParseAST E query s = (Return cst, s') ->
  doNotCacheCheck E cst url <> inr true.
Proof.
  intros Hcst. apply metaParseAST_fields_nil in Hcst.
  unfold doNotCacheCheck. rewrite Hcst.
  destruct (doNotCacheCustom (settings E)); [|discriminate].
  destruct (doNotCacheGlobal (settings E)); [|discriminate].
  simpl. discriminate.
Qed.

End Classifier.

(** C1. The claim: for every text that parses, the classifier returns the
    kind of the root operation and, as top-level fields, the names of the
    fields of its outermost selection set, in order. On the code this
    fails: for [query { user { name } }], whose outermost selection set is
    the single field [user], [metaParseAST] returns the kind [query] and
    an empty list of fields. *)
Theorem C1_metaParseAST_reports_no_field :
  parse (env_fixture true [] []) user_text = Some user_doc
  /\ Spec.classify user_doc
     = Some {| operationType := "query"; fields := ["user"] |}
  /\ (metaParseAST (env_fixture true [] []) (JStr user_text) empty_state).1
     = Return {| operationType := "query"; fields := [] |}.
Proof. repeat split. Qed.

(* ===================================================================== *)
(** * Freshness *)
(* ===================================================================== *)

Section Freshness.
Variable E : Env.

Lemma sub_lt_number (a n c : Z) :
  sub_lt (string_sub_lt E) a (JNum n) c = (a - n <? c).
Proof. reflexivity. Qed.

Lemma checkCachedQueryIsFresh_unset (lastApiCall : jsval) :
  cacheExpirationLimit (settings E) = None ->
  checkCachedQueryIsFresh E lastApiCall = true.
Proof. unfold checkCachedQueryIsFresh. by intros ->. Qed.

Lemma checkCachedQueryIsFresh_zero (lastApiCall : jsval) :
  cacheExpirationLimit (settings E) = Some 0 ->
  checkCachedQueryIsFresh E lastApiCall = true.
Proof. unfold checkCachedQueryIsFresh. by intros ->. Qed.

Lemma checkCachedQueryIsFresh_limit (limit t : Z) :
  cacheExpirationLimit (settings E) = Some limit ->
  limit <> 0 ->
  checkCachedQueryIsFresh E (JNum t) = (now E - t <? limit).
Proof.
  unfold checkCachedQueryIsFresh. intros -> Hne.
  destruct (Z.eqb_spec limit 0); [done|]. apply sub_lt_number.
Qed.

End Freshness.

(** C5, the claim as stated, is false on the code: with the limit set to 0
    and a record fetched 1000 ms ago, [now - lastFetchedAt < limit] is
    false but the record is reported fresh, because [!cacheExpirationLimit]
    is true for 0 as it is for an absent limit. *)
Lemma C5_zero_limit_counterexample :
  ~ (forall (E : Env) (limit t : Z),
       cacheExpirationLimit (settings E) = Some limit ->
       checkCachedQueryIsFresh E (JNum t) = (now E - t <? limit)).
Proof.
  intros Hclaim.
  specialize (Hclaim (env_with_limit (Some 0) 1000) 0 0 eq_refl).
  discriminate Hclaim.
Qed.

(** C5, amended: the freshness check returns true when no limit is
    configured or the limit is 0; for any other limit it returns true
    exactly when [now - lastFetchedAt < limit]. In particular, with the
    limit at 1000, a record fetched 999 ms ago is fresh and one fetched
    1001 ms ago is stale. *)
Theorem C5_checkCachedQueryIsFresh_spec (E : Env) (t : Z) :
  checkCachedQueryIsFresh E (JNum t)
  = match cacheExpirationLimit (settings E) with
    | None => true
    | Some limit => (limit =? 0) || (now E - t <? limit)
    end
  /\ (cacheExpirationLimit (settings E) = Some 1000 ->
      checkCachedQueryIsFresh E (JNum (now E - 999)) = true
      /\ checkCachedQueryIsFresh E (JNum (now E - 1001)) = false).
Proof.
  split.
  - unfold checkCachedQueryIsFresh.
    destruct (cacheExpirationLimit (settings E)) as [limit|]; [|reflexivity].
    destruct (Z.eqb_spec limit 0); reflexivity.
  - intros Hlimit.
    rewrite !(checkCachedQueryIsFresh_limit E 1000) by (done || lia).
    split; [apply Z.ltb_lt | apply Z.ltb_ge]; lia.
Qed.

Lemma C5_checkCachedQueryIsFresh_spec_witness :
  checkCachedQueryIsFresh (env_with_limit (Some 1000) 5000) (JNum 4001) = true
  /\ checkCachedQueryIsFresh (env_with_limit (Some 1000) 5000) (JNum 3999) = false.
Proof.
  exact (proj2 (C5_checkCachedQueryIsFresh_spec
                  (env_with_limit (Some 1000) 5000) 0) eq_refl).
Defined.

(* ===================================================================== *)
(** * Running the monad *)
(* ===================================================================== *)

(** Unfolds the plumbing of [Async] and nothing of the worker. *)
Ltac run :=
  cbv beta iota zeta
      delta [bind ret try_catch lift throw emit uninitialized sw_log
             sw_error_log metrics_set_isCached metrics_save];
  cbn [fst snd].

Section MonadFacts.
Context {A : Type}.

(** A dropped promise never makes its caller throw. *)
Lemma detached_returns (m : Async A) (s : State) :
  exists s', detached m s = (Return tt, s').
Proof. unfold detached. destruct (m s) as [[a|e] s']; eauto. Qed.

Lemma detached_unhandled (m : Async A) (s s' : State) (e : JSError) :
  m s = (Throw e, s') ->
  detached m s = (Return tt, with_unhandled e s').
Proof. unfold detached. by intros ->. Qed.

End MonadFacts.

(* ===================================================================== *)
(** * Objects and their merge *)
(* ===================================================================== *)

Section Objects.

Lemma obj_find_not_key (k : string) (props : list (string * jsval)) :
  k ∉ props.*1 -> obj_find k props = None.
Proof.
  induction props as [|[k' v] props IH]; [done|].
  rewrite fmap_cons, not_elem_of_cons. intros [Hne Hnotin]. simpl.
  rewrite (IH Hnotin). destruct (String.eqb_spec k k'); [done|reflexivity].
Qed.

Lemma obj_set_keys (k : string) (v : jsval) (props : list (string * jsval))
      (k0 : string) :
  k0 ∈ (obj_set k v props).*1 <-> k0 = k \/ k0 ∈ props.*1.
Proof.
  induction props as [|[k' v'] props IH]; simpl.
  - rewrite list_elem_of_singleton, elem_of_nil. tauto.
  - destruct (String.eqb_spec k k') as [->|Hne]; simpl.
    + rewrite !elem_of_cons. tauto.
    + rewrite !elem_of_cons, IH. tauto.
Qed.

Lemma obj_set_NoDup (k : string) (v : jsval) (props : list (string * jsval)) :
  NoDup props.*1 -> NoDup (obj_set k v props).*1.
Proof.
  induction props as [|[k' v'] props IH]; simpl.
  - intros _. apply NoDup_singleton.
  - rewrite NoDup_cons. intros [Hnotin Hnd].
    destruct (String.eqb_spec k k') as [->|Hne]; simpl.
    + by apply NoDup_cons.
    + apply NoDup_cons. split; [|by apply IH].
      rewrite obj_set_keys. intros [->|?]; done.
Qed.

Lemma obj_find_obj_set (f k : string) (v : jsval)
      (props : list (string * jsval)) :
  NoDup props.*1 ->
  obj_find f (obj_set k v props)
  = if String.eqb f k then Some v else obj_find f props.
Proof.
  induction props as [|[k' v'] props IH]; simpl.
  - reflexivity.
  - rewrite NoDup_cons. intros [Hnotin Hnd].
    destruct (String.eqb_spec k k') as [->|Hne]; simpl.
    + destruct (String.eqb_spec f k') as [->|Hf]; [|reflexivity].
      by rewrite (obj_find_not_key k' props).
    + rewrite (IH Hnd).
      destruct (String.eqb_spec f k); reflexivity.
Qed.

Lemma obj_find_assign (f : string) (src acc : list (string * jsval)) :
  NoDup acc.*1 ->
  obj_find f (fold_left (fun acc kv => obj_set kv.1 kv.2 acc) src acc)
  = match obj_find f src with
    | Some v => Some v
    | None => obj_find f acc
    end.
Proof.
  revert acc. induction src as [|[k v] src IH]; intros acc Hnd; simpl; [done|].
  rewrite IH by by apply obj_set_NoDup.
  destruct (obj_find f src); [done|].
  rewrite obj_find_obj_set by done. by destruct (f =? k)%string.
Qed.

Lemma obj_find_app (f : string) (a b : list (string * jsval)) :
  obj_find f (a ++ b)
  = match obj_find f b with
    | Some v => Some v
    | None => obj_find f a
    end.
Proof.
  induction a as [|[k v] a IH]; simpl.
  - by destruct (obj_find f b).
  - rewrite IH. by destruct (obj_find f b).
Qed.

(** What a property reads in the object [{ ...a, ...b }]. *)
Lemma obj_find_spread2 (f : string) (a b : jsval) :
  obj_find f (spread2 a b)
  = match obj_find f (ownEntries b) with
    | Some v => Some v
    | None => obj_find f (ownEntries a)
    end.
Proof.
  unfold spread2. rewrite obj_find_assign by apply NoDup_nil_2.
  rewrite obj_find_app. simpl.
  destruct (obj_find f (ownEntries b)); [done|].
  by destruct (obj_find f (ownEntries a)).
Qed.

(** A falsy value has no property to spread. *)
Lemma ownEntries_falsy (v : jsval) :
  truthy v = false -> ownEntries v = [].
Proof.
  destruct v as [| |b|n|str|xs|props]; simpl; try done.
  destruct str; [done|discriminate].
Qed.

End Objects.

(* ===================================================================== *)
(** * Writing the normalized cache *)
(* ===================================================================== *)

Section Store.
Variable E : Env.

Lemma putAll_lookup_other (c : string) (kvs : list (string * jsval))
      (m : gmap (string * string) jsval) (k : string) :
  k ∉ kvs.*1 -> putAll c kvs m !! (c, k) = m !! (c, k).
Proof.
  revert m. induction kvs as [|[k' v] kvs IH]; intros m; simpl; [done|].
  rewrite not_elem_of_cons. intros [Hne Hnotin].
  unfold putAll in *. simpl. rewrite IH by done.
  apply lookup_insert_ne. congruence.
Qed.

Lemma putAll_lookup_last (c : string) (before after : list (string * jsval))
      (m : gmap (string * string) jsval) (k : string) (v : jsval) :
  k ∉ after.*1 ->
  putAll c (before ++ (k, v) :: after) m !! (c, k) = Some v.
Proof.
  intros Hnotin.
  change (putAll c (before ++ (k, v) :: after) m)
    with (fold_left (fun m kv => <[(c, kv.1) := kv.2]> m)
                    (before ++ (k, v) :: after) m).
  rewrite fold_left_app.
  change (fold_left ?f ((k, v) :: after) ?m0)
    with (putAll c after (<[(c, k) := v]> m0)).
  rewrite putAll_lookup_other by done.
  apply lookup_insert_eq.
Qed.

Lemma entryKeys_pairs (entries : list (option (string * jsval)))
      (kvs : list (string * jsval)) :
  mapM id entries = Some kvs -> entryKeys entries = kvs.*1.
Proof.
  revert kvs. induction entries as [|[[k v]|] entries IH]; intros kvs; simpl.
  - by intros [= <-].
  - destruct (mapM id entries) as [kvs'|]; simpl; [|done].
    intros [= <-]. unfold entryKeys in *. simpl. by rewrite (IH kvs').
  - done.
Qed.

Lemma entryKeys_elem (entries : list (option (string * jsval))) (k : string) :
  k ∈ entryKeys entries <-> exists v, Some (k, v) ∈ entries.
Proof.
  unfold entryKeys. rewrite list_elem_of_omap. split.
  - intros ([[k' v]|] & Hin & Heq); simpl in Heq; [|done].
    injection Heq as ->. by exists v.
  - intros [v Hin]. by exists (Some (k, v)).
Qed.

Lemma putEach_run (c : string) (entries : list (option (string * jsval)))
      (kvs : list (string * jsval)) (s : State) :
  mapM id entries = Some kvs ->
  (forall k, k ∈ kvs.*1 -> set_fails E c k = false) ->
  putEach E c entries s = (Return tt, with_db (putAll c kvs) s).
Proof.
  revert kvs s. induction entries as [|[[k v]|] entries IH]; intros kvs s; simpl.
  - intros [= <-] _. by destruct s.
  - destruct (mapM id entries) as [kvs'|]; simpl; [|done].
    intros [= <-] Hok. rewrite (Hok k) by (simpl; left).
    run. rewrite (IH kvs') by (done || intros k' Hk'; apply Hok; simpl; by right).
    reflexivity.
  - done.
Qed.

(** A run of the puts that returns has put every entry. *)
Lemma putEach_returns (c : string) (entries : list (option (string * jsval)))
      (s s1 : State) :
  putEach E c entries s = (Return tt, s1) ->
  exists kvs, mapM id entries = Some kvs /\ s1 = with_db (putAll c kvs) s.
Proof.
  revert s. induction entries as [|[[k v]|] entries IH]; intros s; simpl.
  - intros [= <-]. exists []. by destruct s.
  - destruct (set_fails E c k); [done|]. run.
    intros (kvs & -> & ->)%IH. by exists ((k, v) :: kvs).
  - done.
Qed.

(** However the puts end, they touch the keys of the entries only. *)
Lemma putEach_frame (c : string) (entries : list (option (string * jsval)))
      (s s1 : State) (o : Completion unit) :
  putEach E c entries s = (o, s1) ->
  (forall col k, (col = c -> k ∉ entryKeys entries) ->
                 db s1 !! (col, k) = db s !! (col, k))
  /\ trace s1 = trace s /\ unhandled s1 = unhandled s
  /\ isCached s1 = isCached s /\ saved s1 = saved s.
Proof.
  revert s. induction entries as [|[[k v]|] entries IH]; intros s; simpl.
  - by intros [= <- <-].
  - destruct (set_fails E c k); [by intros [= <- <-]|]. run.
    intros (Hdb & -> & -> & -> & ->)%IH. split; [|done].
    intros col k' Hk'. rewrite Hdb.
    + cbn [db with_db]. apply lookup_insert_ne.
      intros [= <- <-]. apply (Hk' eq_refl). unfold entryKeys. simpl. left.
    + intros Hcol Hin. apply (Hk' Hcol). unfold entryKeys in *. simpl. by right.
  - by intros [= <- <-].
Qed.

Lemma setMany_run (c : string) (entries : list (option (string * jsval)))
      (kvs : list (string * jsval)) (s : State) :
  mapM id entries = Some kvs ->
  (forall k, k ∈ kvs.*1 -> set_fails E c k = false) ->
  setMany E c entries s
  = (Return tt, with_db (putAll c kvs) (with_event (EvSetMany c kvs.*1) s)).
Proof.
  intros Hmap Hok. unfold setMany. run.
  rewrite (putEach_run c entries kvs) by done.
  by rewrite (entryKeys_pairs entries kvs).
Qed.

Lemma setMany_root_untouched (entries : list (option (string * jsval)))
      (s s1 : State) :
  (forall v, Some ("ROOT_QUERY", v) ∉ entries) ->
  setMany E "queries" entries s = (Return tt, s1) ->
  db s1 !! ("queries", "ROOT_QUERY") = db s !! ("queries", "ROOT_QUERY").
Proof.
  intros Hnot. unfold setMany. run.
  intros (Hdb & _)%putEach_frame. rewrite Hdb; [done|].
  intros _ [v Hin]%entryKeys_elem. by apply (Hnot v).
Qed.

End Store.

(** C2, the claim as stated, is false on the code. The store holds
    [User:1] with a name and an e-mail address; a new response carries
    [User:1] with a name only. A shallow merge would keep the address;
    after [writeToNormalizedCache] the stored entity is the new object
    alone and the address is gone. *)
Lemma C2_entity_merge_counterexample :
  ~ (forall (E : Env) (nd : NormalizedData) (s : State) (key : string)
            (old new : list (string * jsval)) (f : string),
       db s !! ("queries", key) = Some (JObj old) ->
       denestedObjects nd = [[(key, JObj new)]] ->
       (forall c k, get_fails E c k = false /\ set_fails E c k = false) ->
       obj_find f (ownEntries
                     (default JUndefined
                        (db (writeToNormalizedCache E nd s).2 !! ("queries", key))))
       = match obj_find f new with
         | Some v => Some v
         | None => obj_find f old
         end).
Proof.
  intros Hclaim.
  specialize (Hclaim (env_fixture true [] []) user_update user_state "User:1"
                     [("name", JStr "A"); ("email", JStr "a@example.com")]
                     [("name", JStr "B")] "email"
                     eq_refl eq_refl (fun _ _ => conj eq_refl eq_refl)).
  vm_compute in Hclaim. discriminate Hclaim.
Qed.

(** C2, amended: writing a new response stores every normalized entity
    once, under its composite key, and replaces whatever the store held at
    that key with the entity as the new response carries it (the last one,
    when the response carries the key several times): the fields of the new
    write are stored, fields absent from it are not preserved. *)
Theorem C2_entity_write_replaces
        (E : Env) (nd : NormalizedData) (s : State)
        (before after : list (string * jsval)) (key : string) (value : jsval) :
  mapM id (arrayKeyVals nd) = Some (before ++ (key, value) :: after)%list ->
  key ∉ after.*1 ->
  key <> "ROOT_QUERY" ->
  (forall k, k ∈ ((before ++ (key, value) :: after)%list).*1 ->
             set_fails E "queries" k = false) ->
  db (writeToNormalizedCache E nd s).2 !! ("queries", key) = Some value.
Proof.
  intros Hmap Hlast Hroot Hok.
  unfold writeToNormalizedCache, writeRootQuery. run.
  rewrite (setMany_run E _ _ _ _ Hmap Hok). run.
  unfold get, set. run.
  assert (Hne : ("queries", "ROOT_QUERY") <> ("queries", key)) by congruence.
  repeat match goal with
         | |- context [if ?b then _ else _] => destruct b
         end; cbn [snd db with_db with_event];
    rewrite ?lookup_insert_ne by exact Hne;
    by apply putAll_lookup_last.
Qed.

Lemma C2_entity_write_replaces_witness :
  db (writeToNormalizedCache (env_fixture true [] []) user_update user_state).2
     !! ("queries", "User:1")
  = Some (JObj [("name", JStr "B")]).
Proof.
  apply (C2_entity_write_replaces (env_fixture true [] []) user_update
           user_state [] [] "User:1" (JObj [("name", JStr "B")])).
  - reflexivity.
  - apply not_elem_of_nil.
  - discriminate.
  - intros k _. reflexivity.
Defined.

(** The write of the root record, on whatever the call has read: the
    stored record reads as the patch where the patch has the field, and as
    the record read otherwise. *)
Lemma writeRootQuery_merge (E : Env) (nd : NormalizedData)
      (rootQuery : jsval) (s : State) :
  set_fails E "queries" "ROOT_QUERY" = false ->
  exists root,
    writeRootQuery E nd rootQuery s
    = (Return tt,
       with_db (insert ("queries", "ROOT_QUERY") (JObj root))
               (with_event (EvSet "queries" "ROOT_QUERY" (JObj root)) s))
    /\ (forall f,
          obj_find f root
          = match obj_find f (rootQueryObject nd) with
            | Some v => Some v
            | None => obj_find f (ownEntries rootQuery)
            end).
Proof.
  intros Hset. unfold writeRootQuery, set. run. rewrite Hset.
  destruct (truthy rootQuery) eqn:Htruthy; cbn [negb]; run.
  - eexists. split; [reflexivity|]. intros f. apply obj_find_spread2.
  - eexists. split; [reflexivity|]. intros f.
    rewrite (ownEntries_falsy _ Htruthy). simpl.
    by destruct (obj_find f (rootQueryObject nd)).
Qed.

(** C7, the claim as stated, is false on the code. Two responses are
    being written at once, the first with the root field [user], the
    second with the root field [posts]. Each call reads the root record
    before the other has written it, so the second write stores its patch
    over the record it read and the field [user], which the store held
    when that write was made and which the second patch does not mention,
    is gone. *)
Lemma C7_overlapping_writes_counterexample :
  ~ (forall (E : Env) (first second : NormalizedData) (s s' : State)
            (f : string) (v : jsval),
       overlappingWrites E first second s = (Return tt, s') ->
       obj_find f (rootQueryObject first) = Some v ->
       obj_find f (rootQueryObject second) = None ->
       exists root,
         db s' !! ("queries", "ROOT_QUERY") = Some (JObj root)
         /\ obj_find f root = Some v).
Proof.
  intros Hclaim.
  destruct (Hclaim (env_fixture true [] []) user_normalized posts_normalized
                   empty_state _ "user" (JStr "User:1")
                   eq_refl eq_refl eq_refl) as (root & Hroot & Huser).
  vm_compute in Hroot. injection Hroot as <-. discriminate Huser.
Qed.

(** The two schedules side by side, from an empty store: one call after
    the other leaves both root fields, the overlapping calls leave the
    field of the later write only. *)
Lemma overlapping_writes_lose_the_first_patch :
  let E := env_fixture true [] [] in
  let successive :=
    successiveWrites E user_normalized posts_normalized empty_state in
  let overlapping :=
    overlappingWrites E user_normalized posts_normalized empty_state in
  successive.1 = Return tt
  /\ db successive.2 !! ("queries", "ROOT_QUERY")
     = Some (JObj [("user", JStr "User:1"); ("posts", JArr [JStr "Post:1"])])
  /\ overlapping.1 = Return tt
  /\ db overlapping.2 !! ("queries", "ROOT_QUERY")
     = Some (JObj [("posts", JArr [JStr "Post:1"])])
  /\ db overlapping.2 !! ("queries", "User:1")
     = db successive.2 !! ("queries", "User:1")
  /\ db overlapping.2 !! ("queries", "Post:1")
     = db successive.2 !! ("queries", "Post:1").
Proof. repeat split. Qed.

(** C7. Every write of the [ROOT_QUERY] record stores the patch of the
    response merged over the record the writing call has read: a field of
    the patch reads as the patch has it, any other field reads as in the
    record read, the record is the patch alone when none was read, and no
    other key of the collection changes. That holds whatever else ran
    between the read and the write. A call that runs with nothing in
    between reads the record the store holds after its own entity write,
    which is the record held before the call whenever no entity is keyed
    [ROOT_QUERY]: such a call merges its patch into the record that
    existed before it. *)
Theorem C7_root_query_write_merges_the_record_read
        (E : Env) (nd : NormalizedData) :
  set_fails E "queries" "ROOT_QUERY" = false ->
  (forall (rootQuery : jsval) (s : State),
     exists s' root,
       writeRootQuery E nd rootQuery s = (Return tt, s')
       /\ db s' !! ("queries", "ROOT_QUERY") = Some (JObj root)
       /\ (forall f,
             obj_find f root
             = match obj_find f (rootQueryObject nd) with
               | Some v => Some v
               | None => obj_find f (ownEntries rootQuery)
               end)
       /\ (forall k, k <> "ROOT_QUERY" ->
                     db s' !! ("queries", k) = db s !! ("queries", k)))
  /\ (forall (s s1 : State),
        get_fails E "queries" "ROOT_QUERY" = false ->
        setMany E "queries" (arrayKeyVals nd) s = (Return tt, s1) ->
        writeToNormalizedCache E nd s
        = writeRootQuery E nd
            (default JUndefined (db s1 !! ("queries", "ROOT_QUERY")))
            (with_event (EvGet "queries" "ROOT_QUERY") s1)
        /\ ((forall v, Some ("ROOT_QUERY", v) ∉ arrayKeyVals nd) ->
            exists s' root,
              writeToNormalizedCache E nd s = (Return tt, s')
              /\ db s' !! ("queries", "ROOT_QUERY") = Some (JObj root)
              /\ (forall f,
                    obj_find f root
                    = match obj_find f (rootQueryObject nd) with
                      | Some v => Some v
                      | None =>
                          obj_find f
                            (ownEntries
                               (default JUndefined
                                  (db s !! ("queries", "ROOT_QUERY"))))
                      end))).
Proof.
  intros Hset. split.
  - intros rootQuery s.
    destruct (writeRootQuery_merge E nd rootQuery s Hset) as (root & -> & Hmerge).
    eexists _, root. split; [reflexivity|]. cbn [db with_db with_event].
    split; [apply lookup_insert_eq|]. split; [exact Hmerge|].
    intros k Hk. apply lookup_insert_ne. congruence.
  - intros s s1 Hget Hmany.
    assert (Hrun : writeToNormalizedCache E nd s
                   = writeRootQuery E nd
                       (default JUndefined (db s1 !! ("queries", "ROOT_QUERY")))
                       (with_event (EvGet "queries" "ROOT_QUERY") s1)).
    { unfold writeToNormalizedCache. run. rewrite Hmany. run.
      unfold get. run. by rewrite Hget. }
    split; [exact Hrun|]. intros Hnot. rewrite Hrun.
    destruct (writeRootQuery_merge E nd
                (default JUndefined (db s1 !! ("queries", "ROOT_QUERY")))
                (with_event (EvGet "queries" "ROOT_QUERY") s1) Hset)
      as (root & -> & Hmerge).
    eexists _, root. split; [reflexivity|]. cbn [db with_db with_event].
    split; [apply lookup_insert_eq|]. intros f. rewrite Hmerge.
    by rewrite (setMany_root_untouched E _ _ _ Hnot Hmany).
Qed.

Lemma C7_root_query_write_merges_the_record_read_witness :
  exists s' root,
    writeToNormalizedCache (env_fixture true [] []) user_update user_state
    = (Return tt, s')
    /\ db s' !! ("queries", "ROOT_QUERY") = Some (JObj root)
    /\ obj_find "user" root = Some (JStr "User:1")
    /\ obj_find "posts" root = Some (JArr [JStr "Post:1"]).
Proof.
  destruct (proj2 (proj2 (C7_root_query_write_merges_the_record_read
                            (env_fixture true [] []) user_update eq_refl)
                         user_state
                         (setMany (env_fixture true [] []) "queries"
                                  (arrayKeyVals user_update) user_state).2
                         eq_refl eq_refl))
    as (s' & root & Hrun & Hroot & Hmerge).
  { intros v [Heq|Hin]%elem_of_cons; [discriminate|].
    by apply not_elem_of_nil in Hin. }
  exists s', root. repeat split; [exact Hrun | exact Hroot | |].
  - rewrite Hmerge. reflexivity.
  - rewrite Hmerge. reflexivity.
Defined.

(* ===================================================================== *)
(** * The request pipeline, stage by stage *)
(* ===================================================================== *)

Section Pipeline.
Variable E : Env.

Lemma metaParseAST_run (text : string) (doc : DocumentNode) (s : State) :
  parse E text = Some doc ->
  get_fails E "queries" "ROOT_QUERY" = false ->
  metaParseAST E (JStr text) s
  = (Return (visit metaVisitor doc
                   {| operationType := EmptyString; fields := [] |}),
     with_event (EvGet "queries" "ROOT_QUERY") s).
Proof.
  intros Hparse Hroot. unfold metaParseAST, get. run.
  rewrite Hparse, Hroot. reflexivity.
Qed.

Lemma doNotCacheCheck_no_fields (cst : QueryCST) (url : URL) (g : list string) :
  fields cst = [] ->
  doNotCacheGlobal (settings E) = Some g ->
  is_Some (doNotCacheCustom (settings E)) ->
  doNotCacheCheck E cst url = inr false.
Proof.
  intros Hf Hg [c Hc].
  unfold doNotCacheCheck. rewrite Hc, Hg, Hf. reflexivity.
Qed.

Lemma checkQueryExists_run (h : string) (s : State) :
  get_fails E "queries" h = false ->
  checkQueryExists E h s
  = (Return (default JUndefined (db s !! ("queries", h))),
     with_event (EvGet "queries" h) s).
Proof.
  intros Hget. unfold checkQueryExists, get. run.
  rewrite Hget. reflexivity.
Qed.

(** A failed read of the cache record is logged and reads as a miss. *)
Lemma checkQueryExists_swallows (h : string) (s : State) :
  get_fails E "queries" h = true ->
  checkQueryExists E h s
  = (Return JUndefined,
     with_event (EvErrorLog "Error getting query from IDB")
                (with_event (EvGet "queries" h) s)).
Proof.
  intros Hget. unfold checkQueryExists, get. run.
  rewrite Hget. reflexivity.
Qed.

Lemma executeQuery_run (url : URL) (method : string) (headers : Headers)
      (body : string) (s : State) (r : NetResponse) (payload : jsval) :
  net_fetch E (href url) (queryOptions method headers body) = Some r ->
  net_json r = Some payload ->
  executeQuery E url method headers body s
  = (Return payload,
     with_event (EvFetch (href url) (queryOptions method headers body)) s).
Proof.
  intros Hfetch Hjson. unfold executeQuery, fetch, response_json. run.
  rewrite Hfetch. run. rewrite Hjson. reflexivity.
Qed.

(** A transport failure or a body that is not JSON is logged inside
    [executeQuery], which then resolves to [undefined]. *)
Lemma executeQuery_swallows (url : URL) (method : string) (headers : Headers)
      (body : string) (s : State) :
  (forall r, net_fetch E (href url) (queryOptions method headers body) = Some r ->
             net_json r = None) ->
  executeQuery E url method headers body s
  = (Return JUndefined,
     with_event (EvErrorLog "Error executing query")
       (with_event (EvFetch (href url) (queryOptions method headers body)) s)).
Proof.
  intros Hfail. unfold executeQuery, fetch, response_json. run.
  destruct (net_fetch E (href url) (queryOptions method headers body))
    as [r|] eqn:Hfetch; run; [|reflexivity].
  rewrite (Hfail r eq_refl). reflexivity.
Qed.

(** No error ever leaves [executeQuery]. *)
Lemma executeQuery_never_throws (url : URL) (method : string)
      (headers : Headers) (body : string) (s : State) :
  exists v s', executeQuery E url method headers body s = (Return v, s').
Proof.
  unfold executeQuery, fetch, response_json. run.
  destruct (net_fetch E _ _) as [r|]; run; [|eauto].
  destruct (net_json r); eauto.
Qed.

(** The record [writeToCache] stores for a payload. *)
Lemma writeToCache_record (h : string) (payload : jsval) (s : State) :
  truthy payload = true ->
  set_fails E "queries" h = false ->
  db (writeToCache E h payload s).2 !! ("queries", h)
  = Some (JObj [("data", payload); ("lastApiCall", JNum (now E))]).
Proof.
  intros Htruthy Hset. unfold writeToCache, set. rewrite Htruthy. run.
  rewrite Hset. cbn [snd db with_db with_event]. apply lookup_insert_eq.
Qed.

(** A failed write of the cache record is rethrown by [writeToCache]. *)
Lemma writeToCache_rethrows (h : string) (payload : jsval) (s : State) :
  truthy payload = true ->
  set_fails E "queries" h = true ->
  exists s', writeToCache E h payload s = (Throw (StoreError h), s').
Proof.
  intros Htruthy Hset. unfold writeToCache, set. rewrite Htruthy. run.
  rewrite Hset. eauto.
Qed.

Lemma executeAndUpdate_run (h : string) (url : URL) (method : string)
      (headers : Headers) (body : string) (s : State)
      (r : NetResponse) (payload inner : jsval) (nd : NormalizedData) :
  net_fetch E (href url) (queryOptions method headers body) = Some r ->
  net_json r = Some payload ->
  getProp payload "data" = inr inner ->
  normalizeResult E inner = inr nd ->
  exists s', executeAndUpdate E h url method headers body s = (Return payload, s').
Proof.
  intros Hfetch Hjson Hdata Hnorm. unfold executeAndUpdate. run.
  rewrite (executeQuery_run _ _ _ _ _ _ _ Hfetch Hjson). run.
  destruct (detached_returns (writeToCache E h payload)
              (with_event (EvFetch (href url) (queryOptions method headers body)) s))
    as [s1 ->].
  run. rewrite Hdata. run. rewrite Hnorm. run.
  destruct (detached_returns (writeToNormalizedCache E nd) s1) as [s2 ->].
  eauto.
Qed.

(** When the network call fails, [executeAndUpdate] throws on reading
    [data.data] off [undefined]. *)
Lemma executeAndUpdate_network_failure (h : string) (url : URL)
      (method : string) (headers : Headers) (body : string) (s : State) :
  (forall r, net_fetch E (href url) (queryOptions method headers body) = Some r ->
             net_json r = None) ->
  exists s', executeAndUpdate E h url method headers body s
             = (Throw (TypeError "Cannot read properties: data"), s').
Proof.
  intros Hfail. unfold executeAndUpdate. run.
  rewrite (executeQuery_swallows _ _ _ _ _ Hfail). run.
  unfold detached, writeToCache. cbn [truthy negb]. run. eauto.
Qed.

(** From the extracted operation to the decision on the cache record:
    the common prefix of [runCachingLogic]. *)
Ltac to_lookup Hext Hparse Hconv Hroot Hbyp doc url text variables :=
  let suffix := fresh "suffix" in
  let Hconc := fresh "Hconc" in
  let Hkey := fresh "Hkey" in
  destruct (concat_convertible text variables Hconv) as [suffix Hconc];
  pose proof (hashedQueryOf_concat E text variables _ Hconc) as Hkey;
  unfold runCachingLogic; run; rewrite Hext; run;
  rewrite (metaParseAST_run _ _ _ Hparse Hroot); run;
  let g := fresh "g" in
  let Hg := fresh "Hg" in
  let Hc := fresh "Hc" in
  destruct (doNotCacheGlobal (settings E)) as [g|] eqn:Hg;
    [destruct Hbyp as [?|Hc]; [done|];
     rewrite (doNotCacheCheck_no_fields _ url g
                (visit_fields doc {| operationType := EmptyString; fields := [] |})
                Hg Hc)
    |]; run; rewrite Hconc; run; rewrite <- Hkey.

(** A fresh hit returns the stored record itself as [data]. *)
Lemma runCachingLogic_fresh_hit
      (url : URL) (method : string) (headers : Headers) (request : Request)
      (s s0 : State) (text : string) (variables : jsval) (doc : DocumentNode)
      (cached : jsval) :
  (if String.eqb method "GET" then getQueryFromUrl url
   else getQueryFromBody request) s = (Return (JStr text, variables), s0) ->
  parse E text = Some doc ->
  convertible variables = true ->
  get_fails E "queries" "ROOT_QUERY" = false ->
  doNotCacheGlobal (settings E) = None \/ is_Some (doNotCacheCustom (settings E)) ->
  get_fails E "queries" (hashedQueryOf E text variables) = false ->
  db s0 !! ("queries", hashedQueryOf E text variables) = Some cached ->
  truthy cached = true ->
  checkCachedQueryIsFresh E (obj_get "lastApiCall" (ownEntries cached)) = true ->
  exists s',
    runCachingLogic E url method headers request s
    = (Return (JObj [("data", cached);
                     ("hashedQuery", JStr (hashedQueryOf E text variables))]),
       s').
Proof.
  intros Hext Hparse Hconv Hroot Hbyp Hget Hdb Htr Hfresh.
  to_lookup Hext Hparse Hconv Hroot Hbyp doc url text variables.
  all: rewrite (checkQueryExists_run _ _ Hget); run.
  all: cbn [db with_event]; rewrite Hdb; cbn [default from_option id].
  all: rewrite Htr, Hfresh; cbn [andb]; run.
  all: destruct (bool_decide _); [|eauto].
  all: match goal with
       | |- context [detached ?m ?s] =>
           destruct (detached_returns m s) as [s1 ->]
       end; eauto.
Qed.

(** A miss or a stale hit returns what the network sent as [data]. *)
Lemma runCachingLogic_miss
      (url : URL) (method : string) (headers : Headers) (request : Request)
      (s s0 : State) (text : string) (variables : jsval) (doc : DocumentNode)
      (r : NetResponse) (payload inner : jsval) (nd : NormalizedData) :
  (if String.eqb method "GET" then getQueryFromUrl url
   else getQueryFromBody request) s = (Return (JStr text, variables), s0) ->
  parse E text = Some doc ->
  convertible variables = true ->
  get_fails E "queries" "ROOT_QUERY" = false ->
  doNotCacheGlobal (settings E) = None \/ is_Some (doNotCacheCustom (settings E)) ->
  get_fails E "queries" (hashedQueryOf E text variables) = false ->
  (let cached :=
     default JUndefined (db s0 !! ("queries", hashedQueryOf E text variables)) in
   truthy cached
   && checkCachedQueryIsFresh E (obj_get "lastApiCall" (ownEntries cached))
   = false) ->
  net_fetch E (href url)
            (queryOptions method headers (requestBody (JStr text) variables))
  = Some r ->
  net_json r = Some payload ->
  getProp payload "data" = inr inner ->
  normalizeResult E inner = inr nd ->
  exists s',
    runCachingLogic E url method headers request s
    = (Return (JObj [("data", payload);
                     ("hashedQuery", JStr (hashedQueryOf E text variables))]),
       s').
Proof.
  intros Hext Hparse Hconv Hroot Hbyp Hget Hmiss Hfetch Hjson Hdata Hnorm.
  to_lookup Hext Hparse Hconv Hroot Hbyp doc url text variables.
  all: rewrite (checkQueryExists_run _ _ Hget); run.
  all: cbn [db with_event]; cbv zeta in Hmiss; rewrite Hmiss.
  all: match goal with
       | |- context [executeAndUpdate E ?h ?u ?m ?hd ?b ?s] =>
           destruct (executeAndUpdate_run h u m hd b s _ _ _ _
                       Hfetch Hjson Hdata Hnorm) as [s1 ->]
       end.
  all: eauto.
Qed.

(** A text the parser refuses makes the caching logic throw. *)
Lemma runCachingLogic_parse_error
      (url : URL) (method : string) (headers : Headers) (request : Request)
      (s s0 : State) (text : string) (variables : jsval) :
  (if String.eqb method "GET" then getQueryFromUrl url
   else getQueryFromBody request) s = (Return (JStr text, variables), s0) ->
  parse E text = None ->
  runCachingLogic E url method headers request s
  = (Throw GraphQLSyntaxError, s0).
Proof.
  intros Hext Hparse. unfold runCachingLogic. run. rewrite Hext. run.
  unfold metaParseAST. run. rewrite Hparse. reflexivity.
Qed.

(** On a miss, a failed network call makes the caching logic throw. *)
Lemma runCachingLogic_network_failure
      (url : URL) (method : string) (headers : Headers) (request : Request)
      (s s0 : State) (text : string) (variables : jsval) (doc : DocumentNode) :
  (if String.eqb method "GET" then getQueryFromUrl url
   else getQueryFromBody request) s = (Return (JStr text, variables), s0) ->
  parse E text = Some doc ->
  convertible variables = true ->
  get_fails E "queries" "ROOT_QUERY" = false ->
  doNotCacheGlobal (settings E) = None \/ is_Some (doNotCacheCustom (settings E)) ->
  get_fails E "queries" (hashedQueryOf E text variables) = false ->
  db s0 !! ("queries", hashedQueryOf E text variables) = None ->
  (forall r, net_fetch E (href url)
                       (queryOptions method headers
                                     (requestBody (JStr text) variables)) = Some r ->
             net_json r = None) ->
  exists s',
    runCachingLogic E url method headers request s
    = (Throw (TypeError "Cannot read properties: data"), s').
Proof.
  intros Hext Hparse Hconv Hroot Hbyp Hget Hdb Hfail.
  to_lookup Hext Hparse Hconv Hroot Hbyp doc url text variables.
  all: rewrite (checkQueryExists_run _ _ Hget); run.
  all: cbn [db with_event]; rewrite Hdb; cbn [default from_option truthy andb].
  all: match goal with
       | |- context [executeAndUpdate E ?h ?u ?m ?hd ?b ?s] =>
           destruct (executeAndUpdate_network_failure h u m hd b s Hfail)
             as [s1 ->]
       end.
  all: eauto.
Qed.

End Pipeline.

(* ===================================================================== *)
(** * The fetch listener *)
(* ===================================================================== *)

Section Listener.
Variable E : Env.

Lemma getProp_result_data (data hashedQuery : jsval) :
  getProp (JObj [("data", data); ("hashedQuery", hashedQuery)]) "data"
  = inr data.
Proof. reflexivity. Qed.

Lemma getProp_result_hashedQuery (data hashedQuery : jsval) :
  getProp (JObj [("data", data); ("hashedQuery", hashedQuery)]) "hashedQuery"
  = inr hashedQuery.
Proof. reflexivity. Qed.

(** What the caller gets when the caching logic returns. *)
Lemma fetchAndGetResponse_served (request clone : Request) (s s1 : State)
      (data hashedQuery : jsval) :
  runCachingLogic E (req_url clone) (req_method clone) (req_headers clone)
                  request s
  = (Return (JObj [("data", data); ("hashedQuery", hashedQuery)]), s1) ->
  fetchAndGetResponse E request clone s
  = (Return (SwResponse (stringify data) 200), with_saved hashedQuery s1).
Proof.
  intros Hrun. unfold fetchAndGetResponse. run. rewrite Hrun. run.
  rewrite getProp_result_data. run.
  rewrite getProp_result_hashedQuery. reflexivity.
Qed.

(** What the caller gets when the caching logic throws. *)
Lemma fetchAndGetResponse_passes_through (request clone : Request)
      (s s1 : State) (e : JSError) :
  runCachingLogic E (req_url clone) (req_method clone) (req_headers clone)
                  request s
  = (Throw e, s1) ->
  fetchAndGetResponse E request clone s
  = (match net_fetchRequest E clone with
     | Some r => Return (NetworkResponse r)
     | None => Throw NetworkError
     end,
     with_event (EvFetchRequest clone)
       (with_event (EvErrorLog "There was an error in the caching logic!") s1)).
Proof.
  intros Hrun. unfold fetchAndGetResponse, fetchRequest. run. rewrite Hrun. run.
  destruct (net_fetchRequest E clone); reflexivity.
Qed.

End Listener.

(** The handler of the listener. For every request to a configured
    GraphQL endpoint, whenever the caching logic ends in an error,
    whatever the error and the stage that threw it, the listener answers
    with the outcome of [fetch] on the original request: no response is
    built from cached or fetched data, no metrics are saved, and past that
    point the store is untouched. An error that a stage catches without
    throwing it on never gets here. *)
Theorem fail_open_on_a_propagated_error
        (E : Env) (request : Request) (s s1 : State) (e : JSError)
        (endpoints : list string) :
  gqlEndpoints (settings E) = Some endpoints ->
  origin (req_url request) +:+ pathname (req_url request) ∈ endpoints ->
  runCachingLogic E (req_url request) (req_method request)
                  (req_headers request) request (with_isCached false s)
  = (Throw e, s1) ->
  exists s',
    onFetch E request s
    = RespondWith (match net_fetchRequest E request with
                   | Some r => Return (NetworkResponse r)
                   | None => Throw NetworkError
                   end, s')
    /\ db s' = db s1
    /\ saved s' = saved s1
    /\ unhandled s' = unhandled s1
    /\ trace s'
       = (trace s1 ++ [EvErrorLog "There was an error in the caching logic!";
                       EvFetchRequest request])%list.
Proof.
  intros Hep Hin Hrun. unfold onFetch. rewrite Hep.
  assert (Hex : existsb
                  (String.eqb (origin (req_url request) +:+ pathname (req_url request)))
                  endpoints = true).
  { apply existsb_exists. eexists. split; [by apply list_elem_of_In|].
    apply String.eqb_refl. }
  rewrite Hex, (fetchAndGetResponse_passes_through E _ _ _ _ _ Hrun).
  eexists. split; [reflexivity|]. cbn [db saved unhandled trace with_event].
  repeat split. by rewrite <- app_assoc.
Qed.

Lemma fail_open_on_a_propagated_error_witness :
  exists s',
    onFetch (env_fixture true [] []) (post_request "not graphql" JNull) empty_state
    = RespondWith (Return (NetworkResponse ok_response), s')
    /\ db s' = ∅
    /\ saved s' = []
    /\ unhandled s' = []
    /\ trace s'
       = [EvErrorLog "There was an error in the caching logic!";
          EvFetchRequest (post_request "not graphql" JNull)].
Proof.
  exact (fail_open_on_a_propagated_error (env_fixture true [] [])
           (post_request "not graphql" JNull) empty_state empty_state
           GraphQLSyntaxError ["https://api.example.com/graphql"]
           eq_refl (list_elem_of_here _ _) eq_refl).
Defined.

(** C10. On a fresh cache hit the body sent to the caller is the JSON text
    of the whole stored record; on a miss or a stale hit it is the JSON
    text of what the network sent. The record [writeToCache] stores for a
    payload is the object holding that payload under [data] and the time of
    the call under [lastApiCall], and its JSON text differs from the JSON
    text of the payload: the same operation is answered with one body from
    the network and another from the cache. *)
Theorem C10_cached_body_is_the_whole_record
        (E : Env) (request clone : Request) (s s0 : State)
        (text : string) (variables : jsval) (doc : DocumentNode) :
  (if String.eqb (req_method clone) "GET" then getQueryFromUrl (req_url clone)
   else getQueryFromBody request) s = (Return (JStr text, variables), s0) ->
  parse E text = Some doc ->
  convertible variables = true ->
  get_fails E "queries" "ROOT_QUERY" = false ->
  doNotCacheGlobal (settings E) = None \/ is_Some (doNotCacheCustom (settings E)) ->
  get_fails E "queries" (hashedQueryOf E text variables) = false ->
  (forall cached,
     db s0 !! ("queries", hashedQueryOf E text variables) = Some cached ->
     truthy cached = true ->
     checkCachedQueryIsFresh E (obj_get "lastApiCall" (ownEntries cached)) = true ->
     exists s',
       fetchAndGetResponse E request clone s
       = (Return (SwResponse (stringify cached) 200), s'))
  /\ (forall r payload inner nd,
        (let cached :=
           default JUndefined
                   (db s0 !! ("queries", hashedQueryOf E text variables)) in
         truthy cached
         && checkCachedQueryIsFresh E (obj_get "lastApiCall" (ownEntries cached))
         = false) ->
        net_fetch E (href (req_url clone))
                  (queryOptions (req_method clone) (req_headers clone)
                                (requestBody (JStr text) variables)) = Some r ->
        net_json r = Some payload ->
        getProp payload "data" = inr inner ->
        normalizeResult E inner = inr nd ->
        exists s',
          fetchAndGetResponse E request clone s
          = (Return (SwResponse (stringify payload) 200), s'))
  /\ (forall payload s1,
        truthy payload = true ->
        set_fails E "queries" (hashedQueryOf E text variables) = false ->
        let record := JObj [("data", payload); ("lastApiCall", JNum (now E))] in
        db (writeToCache E (hashedQueryOf E text variables) payload s1).2
           !! ("queries", hashedQueryOf E text variables) = Some record
        /\ stringify record <> stringify payload).
Proof.
  intros Hext Hparse Hconv Hroot Hbyp Hget.
  split; [|split].
  - intros cached Hdb Htruthy Hfresh.
    destruct (runCachingLogic_fresh_hit E (req_url clone) (req_method clone)
                (req_headers clone) request _ _ _ _ _ _
                Hext Hparse Hconv Hroot Hbyp Hget Hdb Htruthy Hfresh)
      as [s1 Hrun].
    rewrite (fetchAndGetResponse_served E _ _ _ _ _ _ Hrun). eauto.
  - intros r payload inner nd Hmiss Hfetch Hjson Hdata Hnorm.
    destruct (runCachingLogic_miss E (req_url clone) (req_method clone)
                (req_headers clone) request _ _ _ _ _ _ _ _ _
                Hext Hparse Hconv Hroot Hbyp Hget Hmiss Hfetch Hjson Hdata Hnorm)
      as [s1 Hrun].
    rewrite (fetchAndGetResponse_served E _ _ _ _ _ _ Hrun). eauto.
  - intros payload s1 Htruthy Hset. cbv zeta. split.
    + by apply writeToCache_record.
    + apply stringify_record_neq.
Qed.

Lemma C10_cached_body_is_the_whole_record_witness :
  (exists s',
     fetchAndGetResponse (env_fixture true [] []) (post_request posts_text JNull)
                         (post_request posts_text JNull) warm_state
     = (Return (SwResponse (stringify posts_record) 200), s'))
  /\ (exists s',
        fetchAndGetResponse (env_fixture true [] []) (post_request posts_text JNull)
                            (post_request posts_text JNull) empty_state
        = (Return (SwResponse (stringify posts_payload) 200), s'))
  /\ stringify posts_record <> stringify posts_payload.
Proof.
  split; [|split].
  - apply (proj1 (C10_cached_body_is_the_whole_record
                    (env_fixture true [] []) (post_request posts_text JNull)
                    (post_request posts_text JNull) warm_state warm_state
                    posts_text JNull posts_doc eq_refl eq_refl eq_refl eq_refl
                    (or_intror (mk_is_Some _ _ eq_refl)) eq_refl));
      reflexivity.
  - apply (proj1 (proj2 (C10_cached_body_is_the_whole_record
                    (env_fixture true [] []) (post_request posts_text JNull)
                    (post_request posts_text JNull) empty_state empty_state
                    posts_text JNull posts_doc eq_refl eq_refl eq_refl eq_refl
                    (or_intror (mk_is_Some _ _ eq_refl)) eq_refl))
                 ok_response posts_payload
                 (JObj [("posts", JArr [JObj [("__typename", JStr "Post");
                                              ("id", JNum 1)]])])
                 posts_normalized);
      reflexivity.
  - apply (proj2 (proj2 (C10_cached_body_is_the_whole_record
                    (env_fixture true [] []) (post_request posts_text JNull)
                    (post_request posts_text JNull) empty_state empty_state
                    posts_text JNull posts_doc eq_refl eq_refl eq_refl eq_refl
                    (or_intror (mk_is_Some _ _ eq_refl)) eq_refl))
                 posts_payload empty_state eq_refl eq_refl).
Defined.

(* ===================================================================== *)
(** * Where the worker departs from its specification *)
(* ===================================================================== *)

(** C3. The claim: an operation with a top-level field in the bypass set
    skips the cache altogether. On the code this fails. With [posts] in
    [doNotCacheGlobal], the operation [{ posts { id } }] has the top-level
    field [posts], yet the classifier reports no field, the bypass test is
    false, and the request runs the cache path: the record is looked up
    under the hashed query before the network is called, the caller is
    answered by the worker, and the store ends up holding the response,
    its entity and the root record. (The two writes are not awaited;
    nothing is said here of the order in which their store requests and
    logs fall.) *)
Theorem C3_bypassed_field_goes_through_the_cache :
  let E := env_fixture true [] [] in
  let request := post_request posts_text JNull in
  let out := fetchAndGetResponse E request request empty_state in
  doNotCacheGlobal (settings E) = Some ["posts"]
  /\ Spec.classify posts_doc
     = Some {| operationType := "query"; fields := ["posts"] |}
  /\ (metaParseAST E (JStr posts_text) empty_state).1
     = Return {| operationType := "query"; fields := [] |}
  /\ (doNotCacheCheck E {| operationType := "query"; fields := [] |}
                      endpoint_url = inr false
      /\ doNotCacheCheck E {| operationType := "query"; fields := ["posts"] |}
                         endpoint_url = inr true)
  /\ out.1 = Return (SwResponse (stringify posts_payload) 200)
  /\ [EvGet "queries" "ROOT_QUERY";
      EvGet "queries" posts_key;
      EvFetch (href endpoint_url)
              (queryOptions "POST" (req_headers request)
                            (requestBody (JStr posts_text) JNull))]
     `prefix_of` trace out.2
  /\ db empty_state !! ("queries", posts_key) = None
  /\ db out.2 !! ("queries", posts_key) = Some posts_record
  /\ db out.2 !! ("queries", "Post:1")
     = Some (JObj [("__typename", JStr "Post"); ("id", JNum 1)])
  /\ db out.2 !! ("queries", "ROOT_QUERY")
     = Some (JObj [("posts", JArr [JStr "Post:1"])]).
Proof.
  cbv zeta. repeat lazymatch goal with
                   | |- _ `prefix_of` _ => by eexists
                   | |- _ /\ _ => split
                   | |- _ => reflexivity
                   end.
Qed.

(** C4. The claim: a transport failure or a body that is not JSON makes
    the network executor fail, and the error is rethrown. On the code this
    fails: with the network down, [executeQuery] logs the error and
    returns [undefined]; the same holds for a response whose body is not
    JSON. *)
Theorem C4_executeQuery_swallows_the_failure :
  let E := env_fixture false [] [] in
  let out := executeQuery E endpoint_url "POST" [] "{}" empty_state in
  net_fetch E (href endpoint_url) (queryOptions "POST" [] "{}") = None
  /\ out.1 = Return JUndefined
  /\ trace out.2
     = [EvFetch (href endpoint_url) (queryOptions "POST" [] "{}");
        EvErrorLog "Error executing query"].
Proof. repeat split. Qed.

(** C6. The claim: whatever error is thrown in the caching pipeline, the
    handler of the listener drops the cached path and answers with the
    original request sent to the network as it came. On the code this
    fails for an error the pipeline catches without throwing it on. The
    read of the cache record fails: [checkQueryExists] logs the error and
    returns [undefined], the handler never sees it, and the request goes
    on as a miss. The caller is answered with a response the worker
    built, the original request is never sent as it came, the metrics are
    saved and the cache is written. *)
Theorem C6_swallowed_store_error_is_not_passed_through :
  let E := env_fixture true [posts_key] [] in
  let request := post_request posts_text JNull in
  let out := fetchAndGetResponse E request request empty_state in
  (get E "queries" posts_key empty_state).1 = Throw (StoreError posts_key)
  /\ (checkQueryExists E posts_key empty_state).1 = Return JUndefined
  /\ [EvGet "queries" "ROOT_QUERY";
      EvGet "queries" posts_key;
      EvErrorLog "Error getting query from IDB";
      EvFetch (href endpoint_url)
              (queryOptions "POST" (req_headers request)
                            (requestBody (JStr posts_text) JNull))]
     `prefix_of` trace out.2
  /\ out.1 = Return (SwResponse (stringify posts_payload) 200)
  /\ out.1 <> Return (NetworkResponse ok_response)
  /\ (EvFetchRequest request ∉ trace out.2)
  /\ (EvErrorLog "There was an error in the caching logic!" ∉ trace out.2)
  /\ saved out.2 = [(false, JStr posts_key)]
  /\ db out.2 !! ("queries", posts_key) = Some posts_record.
Proof.
  cbv zeta. repeat lazymatch goal with
                   | |- _ `prefix_of` _ => by eexists
                   | |- _ /\ _ => split
                   | |- _ <> _ => discriminate
                   | |- _ ∉ _ =>
                       let Hin := fresh "Hin" in
                       intros Hin; vm_compute in Hin;
                       repeat (apply elem_of_cons in Hin as [Hin|Hin];
                               [discriminate Hin|]);
                       by apply not_elem_of_nil in Hin
                   | |- _ => reflexivity
                   end.
Qed.

(** C8. The claim: when the read of the cache record fails, the caller
    still gets the result of a network call and no promise rejection is
    left unhandled. On the code the second half fails: with the read and
    the write of the record both failing, the caller gets the network
    payload, and the rejection of the un-awaited [writeToCache] has no
    handler. *)
Theorem C8_failed_lookup_leaves_an_unhandled_rejection :
  let E := env_fixture true [posts_key] [posts_key] in
  let request := post_request posts_text JNull in
  let out := fetchAndGetResponse E request request empty_state in
  get_fails E "queries" posts_key = true
  /\ out.1 = Return (SwResponse (stringify posts_payload) 200)
  /\ unhandled out.2 = [StoreError posts_key].
Proof. repeat split. Qed.

(** When the read fails and the writes go through, nothing is left
    unhandled. *)
Lemma failed_lookup_alone_is_handled :
  let E := env_fixture true [posts_key] [] in
  let request := post_request posts_text JNull in
  let out := fetchAndGetResponse E request request empty_state in
  out.1 = Return (SwResponse (stringify posts_payload) 200)
  /\ unhandled out.2 = [].
Proof. repeat split. Qed.

(** Two requests with one query text and different object variables share
    one cache record: the second is answered from the record the first
    left, without a network call. *)
Lemma distinct_object_variables_share_a_record :
  let E := env_fixture true [] [] in
  let first := post_request posts_text (JObj [("id", JNum 1)]) in
  let second := post_request posts_text (JObj [("id", JNum 2)]) in
  let after_first := (fetchAndGetResponse E first first empty_state).2 in
  let out := fetchAndGetResponse E second second
               {| db := db after_first; trace := []; unhandled := [];
                  isCached := false; saved := [] |} in
  out.1 = Return (SwResponse (stringify posts_record) 200)
  /\ trace out.2
     = [EvGet "queries" "ROOT_QUERY";
        EvGet "queries" (hashedQueryOf E posts_text (JObj [("id", JNum 1)]));
        EvLog "Fetched from cache"].
Proof. repeat split. Qed.

(* ===================================================================== *)
(** * Further properties: what each stage leaves untouched *)
(* ===================================================================== *)

Section Frames.
Variable E : Env.

Lemma same_store_refl (s : State) : same_store s s.
Proof. by repeat split. Qed.

Lemma same_store_event (e : Event) (s s' : State) :
  same_store s s' -> same_store s (with_event e s').
Proof. intros H. exact H. Qed.

Lemma same_store_trans (s1 s2 s3 : State) :
  same_store s1 s2 -> same_store s2 s3 -> same_store s1 s3.
Proof.
  intros (Hd & Hs & Hu) (Hd' & Hs' & Hu'). repeat split; congruence.
Qed.

Lemma detached_db {A : Type} (m : Async A) (s : State) :
  db (detached m s).2 = db (m s).2.
Proof. unfold detached. by destruct (m s) as [[a|e] s']. Qed.

(** Extraction never touches the state when it succeeds, and its result
    does not depend on the state. *)
Lemma extraction_pure (url : URL) (method : string) (request : Request)
      (s s0 : State) (qv : jsval * jsval) :
  extraction url method request s = (Return qv, s0) ->
  s0 = s /\ forall s2, extraction url method request s2 = (Return qv, s2).
Proof.
  unfold extraction. destruct (String.eqb method "GET").
  - unfold getQueryFromUrl. destruct (negb _); run; [discriminate|].
    intros [= <- <-]. done.
  - unfold getQueryFromBody, request_json.
    destruct (req_json request) as [v|]; run; [|discriminate].
    destruct (getProp v "query") as [e|q]; run; [discriminate|].
    destruct (getProp v "variables") as [e|vars]; run; [discriminate|].
    intros [= <- <-]. done.
Qed.

(** However extraction ends, it has only logged. *)
Lemma extraction_frame (url : URL) (method : string) (request : Request)
      (s s' : State) (c : Completion (jsval * jsval)) :
  extraction url method request s = (c, s') -> same_store s s'.
Proof.
  unfold extraction. destruct (String.eqb method "GET").
  - unfold getQueryFromUrl. destruct (negb _); run; intros [= <- <-];
      apply same_store_refl.
  - unfold getQueryFromBody, request_json.
    destruct (req_json request) as [v|]; run.
    + destruct (getProp v "query") as [e|q]; run.
      * intros [= <- <-]. by repeat split.
      * destruct (getProp v "variables") as [e|vars]; run;
          intros [= <- <-]; by repeat split.
    + intros [= <- <-]. by repeat split.
Qed.

(** However classification ends, it has only read the store. *)
Lemma metaParseAST_frame (query : jsval) (s s' : State) (c : Completion QueryCST) :
  metaParseAST E query s = (c, s') -> same_store s s'.
Proof.
  unfold metaParseAST, get. run.
  destruct query as [| | | |text| |]; run; try (intros [= <- <-]; by repeat split).
  destruct (parse E text); run; [|intros [= <- <-]; by repeat split].
  destruct (get_fails E "queries" "ROOT_QUERY"); intros [= <- <-]; by repeat split.
Qed.

(** The normalized write leaves alone every key that is neither the root
    record nor the key of an entity. *)
Lemma writeToNormalizedCache_frame (nd : NormalizedData) (s : State) (key : string) :
  key <> "ROOT_QUERY" ->
  (forall v, Some (key, v) ∉ arrayKeyVals nd) ->
  db (writeToNormalizedCache E nd s).2 !! ("queries", key)
  = db s !! ("queries", key).
Proof.
  intros Hroot Hnot. unfold writeToNormalizedCache, writeRootQuery, setMany. run.
  match goal with
  | |- context [putEach E ?c ?l ?s0] =>
      destruct (putEach E c l s0) as [o s1] eqn:Hput
  end.
  apply putEach_frame in Hput as (Hdb & _).
  assert (Hs1 : db s1 !! ("queries", key) = db s !! ("queries", key)).
  { rewrite Hdb; [done|]. intros _ [v Hin]%entryKeys_elem. by apply (Hnot v). }
  assert (Hne : ("queries", "ROOT_QUERY") <> ("queries", key)) by congruence.
  destruct o; run; [|exact Hs1].
  unfold get, set. run.
  repeat match goal with
         | |- context [if ?b then _ else _] => destruct b
         end; cbn [snd db with_db with_event];
    rewrite ?lookup_insert_ne by exact Hne;
    exact Hs1.
Qed.

(** The whole of [executeAndUpdate] on a successful network call: the
    payload comes back and the cache record holds it. *)
Lemma executeAndUpdate_write_through
      (h : string) (url : URL) (method : string) (headers : Headers)
      (body : string) (s : State) (r : NetResponse) (payload inner : jsval)
      (nd : NormalizedData) :
  net_fetch E (href url) (queryOptions method headers body) = Some r ->
  net_json r = Some payload ->
  getProp payload "data" = inr inner ->
  normalizeResult E inner = inr nd ->
  truthy payload = true ->
  set_fails E "queries" h = false ->
  h <> "ROOT_QUERY" ->
  (forall v, Some (h, v) ∉ arrayKeyVals nd) ->
  exists s',
    executeAndUpdate E h url method headers body s = (Return payload, s')
    /\ db s' !! ("queries", h)
       = Some (JObj [("data", payload); ("lastApiCall", JNum (now E))]).
Proof.
  intros Hfetch Hjson Hdata Hnorm Htruthy Hset Hroot Hnot.
  unfold executeAndUpdate. run.
  rewrite (executeQuery_run E _ _ _ _ _ _ _ Hfetch Hjson). run.
  set (s1 := with_event (EvFetch (href url) (queryOptions method headers body)) s).
  destruct (detached (writeToCache E h payload) s1) as [c2 s2] eqn:Hd2.
  destruct (detached_returns (writeToCache E h payload) s1) as [s2' Hs2'].
  rewrite Hd2 in Hs2'. injection Hs2' as -> <-. run.
  rewrite Hdata. run. rewrite Hnorm. run.
  destruct (detached (writeToNormalizedCache E nd) s2) as [c3 s3] eqn:Hd3.
  destruct (detached_returns (writeToNormalizedCache E nd) s2) as [s3' Hs3'].
  rewrite Hd3 in Hs3'. injection Hs3' as -> <-.
  eexists. split; [reflexivity|].
  replace s3 with (detached (writeToNormalizedCache E nd) s2).2 by (by rewrite Hd3).
  rewrite detached_db, (writeToNormalizedCache_frame nd s2 h Hroot Hnot).
  replace s2 with (detached (writeToCache E h payload) s1).2 by (by rewrite Hd2).
  rewrite detached_db. by apply writeToCache_record.
Qed.
End Frames.

(* ===================================================================== *)
(** * Further properties: serving a request *)
(* ===================================================================== *)

Section Serving.
Variable E : Env.

Lemma executeAndUpdate_network_failure_state
      (h : string) (url : URL) (method : string) (headers : Headers)
      (body : string) (s : State) :
  (forall r, net_fetch E (href url) (queryOptions method headers body) = Some r ->
             net_json r = None) ->
  executeAndUpdate E h url method headers body s
  = (Throw (TypeError "Cannot read properties: data"),
     with_event (EvErrorLog "Error executing query")
       (with_event (EvFetch (href url) (queryOptions method headers body)) s)).
Proof.
  intros Hfail. unfold executeAndUpdate. run.
  rewrite (executeQuery_swallows E _ _ _ _ _ Hfail). run.
  unfold detached, writeToCache. cbn [truthy negb]. run. reflexivity.
Qed.

(** From a request that reaches the lookup to the decision on its cache
    record. *)
Ltac lookup Hreach doc url text variables :=
  let Hext := fresh "Hext" in
  let Hparse := fresh "Hparse" in
  let Hroot := fresh "Hroot" in
  let Hbyp := fresh "Hbyp" in
  let Hget := fresh "Hget" in
  let g := fresh "g" in
  let Hg := fresh "Hg" in
  let Hc := fresh "Hc" in
  let Hconv := fresh "Hconv" in
  let suffix := fresh "suffix" in
  let Hconc := fresh "Hconc" in
  let Hkey := fresh "Hkey" in
  destruct Hreach as (Hext & Hparse & Hconv & Hroot & Hbyp & Hget);
  destruct (concat_convertible text variables Hconv) as [suffix Hconc];
  pose proof (hashedQueryOf_concat E text variables _ Hconc) as Hkey;
  unfold extraction in Hext;
  unfold runCachingLogic; run; rewrite Hext; run;
  rewrite (metaParseAST_run E _ _ _ Hparse Hroot); run;
  destruct (doNotCacheGlobal (settings E)) as [g|] eqn:Hg;
    [destruct Hbyp as [?|Hc]; [done|];
     rewrite (doNotCacheCheck_no_fields E _ url g
                (visit_fields doc {| operationType := EmptyString; fields := [] |})
                Hg Hc)
    |]; run; rewrite Hconc; run; rewrite <- Hkey;
  rewrite (checkQueryExists_run E _ _ Hget); run;
  cbn [db with_event].

Lemma runCachingLogic_cache_first_hit
      (url : URL) (method : string) (headers : Headers) (request : Request)
      (s : State) (text : string) (variables : jsval) (doc : DocumentNode)
      (cached : jsval) :
  reaches_lookup E url method request s text variables doc ->
  db s !! ("queries", hashedQueryOf E text variables) = Some cached ->
  truthy cached = true ->
  checkCachedQueryIsFresh E (obj_get "lastApiCall" (ownEntries cached)) = true ->
  cacheMethod (settings E) <> Some "cache-network" ->
  runCachingLogic E url method headers request s
  = (Return (JObj [("data", cached);
                   ("hashedQuery", JStr (hashedQueryOf E text variables))]),
     with_event (EvLog "Fetched from cache")
       (with_isCached true
          (with_event (EvGet "queries" (hashedQueryOf E text variables))
             (with_event (EvGet "queries" "ROOT_QUERY") s)))).
Proof.
  intros Hreach Hdb Htr Hfresh Hmode.
  lookup Hreach doc url text variables.
  all: rewrite Hdb; cbn [default from_option id].
  all: rewrite Htr, Hfresh; cbn [andb]; run.
  all: rewrite bool_decide_eq_false_2 by done; reflexivity.
Qed.

Lemma runCachingLogic_cache_network_hit
      (url : URL) (method : string) (headers : Headers) (request : Request)
      (s : State) (text : string) (variables : jsval) (doc : DocumentNode)
      (cached : jsval) :
  reaches_lookup E url method request s text variables doc ->
  db s !! ("queries", hashedQueryOf E text variables) = Some cached ->
  truthy cached = true ->
  checkCachedQueryIsFresh E (obj_get "lastApiCall" (ownEntries cached)) = true ->
  cacheMethod (settings E) = Some "cache-network" ->
  runCachingLogic E url method headers request s
  = (Return (JObj [("data", cached);
                   ("hashedQuery", JStr (hashedQueryOf E text variables))]),
     (detached
        (executeAndUpdate E (hashedQueryOf E text variables) url method headers
                          (requestBody (JStr text) variables))
        (with_event (EvLog "Fetched from cache")
           (with_isCached true
              (with_event (EvGet "queries" (hashedQueryOf E text variables))
                 (with_event (EvGet "queries" "ROOT_QUERY") s))))).2).
Proof.
  intros Hreach Hdb Htr Hfresh Hmode.
  lookup Hreach doc url text variables.
  all: rewrite Hdb; cbn [default from_option id].
  all: rewrite Htr, Hfresh; cbn [andb]; run.
  all: rewrite bool_decide_eq_true_2 by done.
  all: match goal with
       | |- context [detached ?m ?s] =>
           destruct (detached_returns m s) as [s1 Hs1]; rewrite Hs1
       end; reflexivity.
Qed.

Lemma runCachingLogic_refetch
      (url : URL) (method : string) (headers : Headers) (request : Request)
      (s : State) (text : string) (variables : jsval) (doc : DocumentNode) :
  reaches_lookup E url method request s text variables doc ->
  (let cached :=
     default JUndefined (db s !! ("queries", hashedQueryOf E text variables)) in
   truthy cached
   && checkCachedQueryIsFresh E (obj_get "lastApiCall" (ownEntries cached))
   = false) ->
  runCachingLogic E url method headers request s
  = (data <- executeAndUpdate E (hashedQueryOf E text variables) url method
                              headers (requestBody (JStr text) variables);;
     ret (JObj [("data", data);
                ("hashedQuery", JStr (hashedQueryOf E text variables))]))%async
      (with_event (EvGet "queries" (hashedQueryOf E text variables))
         (with_event (EvGet "queries" "ROOT_QUERY") s)).
Proof.
  intros Hreach Hmiss. cbv zeta in Hmiss.
  lookup Hreach doc url text variables.
  all: rewrite Hmiss; reflexivity.
Qed.

End Serving.

Lemma fetchAndGetResponse_write_through
        (E : Env) (request clone : Request) (s : State)
        (text : string) (variables : jsval) (doc : DocumentNode)
        (r : NetResponse) (payload inner : jsval) (nd : NormalizedData) :
  reaches_lookup E (req_url clone) (req_method clone) request s
                 text variables doc ->
  (let cached :=
     default JUndefined (db s !! ("queries", hashedQueryOf E text variables)) in
   truthy cached
   && checkCachedQueryIsFresh E (obj_get "lastApiCall" (ownEntries cached))
   = false) ->
  net_fetch E (href (req_url clone))
            (queryOptions (req_method clone) (req_headers clone)
                          (requestBody (JStr text) variables)) = Some r ->
  net_json r = Some payload ->
  getProp payload "data" = inr inner ->
  normalizeResult E inner = inr nd ->
  truthy payload = true ->
  set_fails E "queries" (hashedQueryOf E text variables) = false ->
  hashedQueryOf E text variables <> "ROOT_QUERY" ->
  (forall v, Some (hashedQueryOf E text variables, v) ∉ arrayKeyVals nd) ->
  exists s',
    fetchAndGetResponse E request clone s
    = (Return (SwResponse (stringify payload) 200), s')
    /\ db s' !! ("queries", hashedQueryOf E text variables)
       = Some (cacheRecord E payload).
Proof.
  intros Hreach Hmiss Hfetch Hjson Hdata Hnorm Htruthy Hset Hroot Hnot.
  pose proof (runCachingLogic_refetch E (req_url clone) (req_method clone)
                (req_headers clone) request s text variables doc Hreach Hmiss)
    as Hrun.
  destruct (executeAndUpdate_write_through E (hashedQueryOf E text variables)
              (req_url clone) (req_method clone) (req_headers clone)
              (requestBody (JStr text) variables)
              (with_event (EvGet "queries" (hashedQueryOf E text variables))
                 (with_event (EvGet "queries" "ROOT_QUERY") s))
              r payload inner nd Hfetch Hjson Hdata Hnorm Htruthy Hset Hroot Hnot)
    as (s1 & Hupd & Hdb).
  revert Hrun. run. rewrite Hupd. intros Hrun.
  rewrite (fetchAndGetResponse_served E _ _ _ _ _ _ Hrun).
  eexists. split; [reflexivity|]. exact Hdb.
Qed.

(** X1. A miss or a stale hit writes through: when the network answers
    with a truthy JSON payload, the caller gets that payload with status
    200 and afterwards the store holds, under the hashed query, the record
    made of the payload and the current time, whatever it held before. *)
Theorem X1_miss_or_stale_hit_writes_through
        (E : Env) (request clone : Request) (s : State)
        (text : string) (variables : jsval) (doc : DocumentNode)
        (r : NetResponse) (payload inner : jsval) (nd : NormalizedData) :
  reaches_lookup E (req_url clone) (req_method clone) request s
                 text variables doc ->
  (let cached :=
     default JUndefined (db s !! ("queries", hashedQueryOf E text variables)) in
   truthy cached
   && checkCachedQueryIsFresh E (obj_get "lastApiCall" (ownEntries cached))
   = false) ->
  net_fetch E (href (req_url clone))
            (queryOptions (req_method clone) (req_headers clone)
                          (requestBody (JStr text) variables)) = Some r ->
  net_json r = Some payload ->
  getProp payload "data" = inr inner ->
  normalizeResult E inner = inr nd ->
  truthy payload = true ->
  set_fails E "queries" (hashedQueryOf E text variables) = false ->
  hashedQueryOf E text variables <> "ROOT_QUERY" ->
  (forall v, Some (hashedQueryOf E text variables, v) ∉ arrayKeyVals nd) ->
  exists s',
    fetchAndGetResponse E request clone s
    = (Return (SwResponse (stringify payload) 200), s')
    /\ db s' !! ("queries", hashedQueryOf E text variables)
       = Some (cacheRecord E payload).
Proof. apply fetchAndGetResponse_write_through. Qed.

Lemma X1_miss_or_stale_hit_writes_through_witness :
  exists s',
    fetchAndGetResponse (env_fixture true [] []) (post_request posts_text JNull)
                        (post_request posts_text JNull) empty_state
    = (Return (SwResponse (stringify posts_payload) 200), s')
    /\ db s' !! ("queries", posts_key) = Some posts_record.
Proof.
  apply (X1_miss_or_stale_hit_writes_through
           (env_fixture true [] []) (post_request posts_text JNull)
           (post_request posts_text JNull) empty_state posts_text JNull
           posts_doc ok_response posts_payload
           (JObj [("posts", JArr [JObj [("__typename", JStr "Post");
                                        ("id", JNum 1)]])])
           posts_normalized).
  - repeat split. right. by eexists.
  - reflexivity.
  - reflexivity.
  - reflexivity.
  - reflexivity.
  - reflexivity.
  - reflexivity.
  - reflexivity.
  - discriminate.
  - intros v Hin. apply list_elem_of_singleton in Hin. discriminate Hin.
Defined.

(** X2. A request answered from the network is answered from the cache
    when it comes again: under the hypotheses of X1, and with a record
    written at the current time counting as fresh, the same request sent
    again gets the stored record back. *)
Theorem X2_miss_then_hit
        (E : Env) (request clone : Request) (s : State)
        (text : string) (variables : jsval) (doc : DocumentNode)
        (r : NetResponse) (payload inner : jsval) (nd : NormalizedData) :
  reaches_lookup E (req_url clone) (req_method clone) request s
                 text variables doc ->
  (let cached :=
     default JUndefined (db s !! ("queries", hashedQueryOf E text variables)) in
   truthy cached
   && checkCachedQueryIsFresh E (obj_get "lastApiCall" (ownEntries cached))
   = false) ->
  net_fetch E (href (req_url clone))
            (queryOptions (req_method clone) (req_headers clone)
                          (requestBody (JStr text) variables)) = Some r ->
  net_json r = Some payload ->
  getProp payload "data" = inr inner ->
  normalizeResult E inner = inr nd ->
  truthy payload = true ->
  set_fails E "queries" (hashedQueryOf E text variables) = false ->
  hashedQueryOf E text variables <> "ROOT_QUERY" ->
  (forall v, Some (hashedQueryOf E text variables, v) ∉ arrayKeyVals nd) ->
  checkCachedQueryIsFresh E (JNum (now E)) = true ->
  exists s1 s2,
    fetchAndGetResponse E request clone s
    = (Return (SwResponse (stringify payload) 200), s1)
    /\ fetchAndGetResponse E request clone s1
       = (Return (SwResponse (stringify (cacheRecord E payload)) 200), s2).
Proof.
  intros Hreach Hmiss Hfetch Hjson Hdata Hnorm Htruthy Hset Hroot Hnot Hfresh.
  destruct (fetchAndGetResponse_write_through E request clone s text variables
              doc r payload inner nd Hreach Hmiss Hfetch Hjson Hdata Hnorm
              Htruthy Hset Hroot Hnot) as (s1 & Hfirst & Hdb).
  exists s1.
  destruct Hreach as (Hext & Hparse & Hconv & Hrootread & Hbyp & Hget).
  destruct (extraction_pure _ _ _ _ _ _ Hext) as [_ Hext1].
  destruct (runCachingLogic_fresh_hit E (req_url clone) (req_method clone)
              (req_headers clone) request s1 s1 text variables doc
              (cacheRecord E payload) (Hext1 s1) Hparse Hconv Hrootread Hbyp
              Hget Hdb eq_refl Hfresh) as [s2 Hrun].
  eexists. split; [exact Hfirst|].
  apply (fetchAndGetResponse_served E _ _ _ _ _ _ Hrun).
Qed.

Lemma X2_miss_then_hit_witness :
  exists s1 s2,
    fetchAndGetResponse (env_fixture true [] []) (post_request posts_text JNull)
                        (post_request posts_text JNull) empty_state
    = (Return (SwResponse (stringify posts_payload) 200), s1)
    /\ fetchAndGetResponse (env_fixture true [] []) (post_request posts_text JNull)
                           (post_request posts_text JNull) s1
       = (Return (SwResponse (stringify posts_record) 200), s2).
Proof.
  apply (X2_miss_then_hit
           (env_fixture true [] []) (post_request posts_text JNull)
           (post_request posts_text JNull) empty_state posts_text JNull
           posts_doc ok_response posts_payload
           (JObj [("posts", JArr [JObj [("__typename", JStr "Post");
                                        ("id", JNum 1)]])])
           posts_normalized).
  - repeat split. right. by eexists.
  - reflexivity.
  - reflexivity.
  - reflexivity.
  - reflexivity.
  - reflexivity.
  - reflexivity.
  - reflexivity.
  - discriminate.
  - intros v Hin. apply list_elem_of_singleton in Hin. discriminate Hin.
  - reflexivity.
Defined.

(** X3. With any cache method other than [cache-network], a fresh hit is
    served without touching the network or writing the store: the only
    external calls are the two store reads, the store is unchanged, no
    rejection is left behind, and the metrics are saved once, as cached. *)
Theorem X3_cache_first_hit_is_read_only
        (E : Env) (request clone : Request) (s : State)
        (text : string) (variables : jsval) (doc : DocumentNode)
        (cached : jsval) :
  reaches_lookup E (req_url clone) (req_method clone) request s
                 text variables doc ->
  db s !! ("queries", hashedQueryOf E text variables) = Some cached ->
  truthy cached = true ->
  checkCachedQueryIsFresh E (obj_get "lastApiCall" (ownEntries cached)) = true ->
  cacheMethod (settings E) <> Some "cache-network" ->
  exists s',
    fetchAndGetResponse E request clone s
    = (Return (SwResponse (stringify cached) 200), s')
    /\ db s' = db s
    /\ unhandled s' = unhandled s
    /\ trace s'
       = (trace s ++ [EvGet "queries" "ROOT_QUERY";
                      EvGet "queries" (hashedQueryOf E text variables);
                      EvLog "Fetched from cache"])%list
    /\ saved s'
       = (saved s ++ [(true, JStr (hashedQueryOf E text variables))])%list.
Proof.
  intros Hreach Hdb Htruthy Hfresh Hmode.
  rewrite (fetchAndGetResponse_served E _ _ _ _ _ _
             (runCachingLogic_cache_first_hit E _ _ _ _ _ _ _ _ _
                Hreach Hdb Htruthy Hfresh Hmode)).
  eexists. split; [reflexivity|].
  cbn [db unhandled trace saved isCached with_saved with_event with_isCached].
  repeat split. by rewrite <- !app_assoc.
Qed.

Lemma X3_cache_first_hit_is_read_only_witness :
  exists s',
    fetchAndGetResponse (env_fixture true [] []) (post_request posts_text JNull)
                        (post_request posts_text JNull) warm_state
    = (Return (SwResponse (stringify posts_record) 200), s')
    /\ db s' = db warm_state
    /\ unhandled s' = unhandled warm_state
    /\ trace s'
       = (trace warm_state ++ [EvGet "queries" "ROOT_QUERY";
                               EvGet "queries" posts_key;
                               EvLog "Fetched from cache"])%list
    /\ saved s' = (saved warm_state ++ [(true, JStr posts_key)])%list.
Proof.
  apply (X3_cache_first_hit_is_read_only
           (env_fixture true [] []) (post_request posts_text JNull)
           (post_request posts_text JNull) warm_state posts_text JNull
           posts_doc posts_record).
  - repeat split. right. by eexists.
  - reflexivity.
  - reflexivity.
  - reflexivity.
  - discriminate.
Defined.

(** X4. With [cache-network], a fresh hit whose background network call
    fails (transport failure or a body that is not JSON) is still answered
    with the stored record; the store is left as it was, and the rejection
    of the dropped [executeAndUpdate] (reading [data] off [undefined])
    stays unhandled. *)
Theorem X4_background_refresh_failure_is_unhandled
        (E : Env) (request clone : Request) (s : State)
        (text : string) (variables : jsval) (doc : DocumentNode)
        (cached : jsval) :
  reaches_lookup E (req_url clone) (req_method clone) request s
                 text variables doc ->
  db s !! ("queries", hashedQueryOf E text variables) = Some cached ->
  truthy cached = true ->
  checkCachedQueryIsFresh E (obj_get "lastApiCall" (ownEntries cached)) = true ->
  cacheMethod (settings E) = Some "cache-network" ->
  (forall r, net_fetch E (href (req_url clone))
                       (queryOptions (req_method clone) (req_headers clone)
                                     (requestBody (JStr text) variables)) = Some r ->
             net_json r = None) ->
  exists s',
    fetchAndGetResponse E request clone s
    = (Return (SwResponse (stringify cached) 200), s')
    /\ db s' = db s
    /\ unhandled s'
       = (unhandled s ++ [TypeError "Cannot read properties: data"])%list.
Proof.
  intros Hreach Hdb Htruthy Hfresh Hmode Hfail.
  rewrite (fetchAndGetResponse_served E _ _ _ _ _ _
             (runCachingLogic_cache_network_hit E _ _ _ _ _ _ _ _ _
                Hreach Hdb Htruthy Hfresh Hmode)).
  eexists. split; [reflexivity|].
  unfold detached.
  rewrite (executeAndUpdate_network_failure_state E _ _ _ _ _ _ Hfail).
  by repeat split.
Qed.

Lemma X4_background_refresh_failure_is_unhandled_witness :
  exists s',
    fetchAndGetResponse (env_cache_network false) (post_request posts_text JNull)
                        (post_request posts_text JNull) warm_state
    = (Return (SwResponse (stringify posts_record) 200), s')
    /\ db s' = db warm_state
    /\ unhandled s' = [TypeError "Cannot read properties: data"].
Proof.
  apply (X4_background_refresh_failure_is_unhandled
           (env_cache_network false) (post_request posts_text JNull)
           (post_request posts_text JNull) warm_state posts_text JNull
           posts_doc posts_record).
  - repeat split. right. by eexists.
  - reflexivity.
  - reflexivity.
  - reflexivity.
  - reflexivity.
  - discriminate.
Defined.

(** X5. With [cache-network], a fresh hit is answered with the record as
    it was stored, and the background call replaces that record: when the
    network answers with a truthy JSON payload, the store afterwards holds
    the new payload with the current time under the hashed query. *)
Theorem X5_background_refresh_replaces_the_record
        (E : Env) (request clone : Request) (s : State)
        (text : string) (variables : jsval) (doc : DocumentNode)
        (cached : jsval)
        (r : NetResponse) (payload inner : jsval) (nd : NormalizedData) :
  reaches_lookup E (req_url clone) (req_method clone) request s
                 text variables doc ->
  db s !! ("queries", hashedQueryOf E text variables) = Some cached ->
  truthy cached = true ->
  checkCachedQueryIsFresh E (obj_get "lastApiCall" (ownEntries cached)) = true ->
  cacheMethod (settings E) = Some "cache-network" ->
  net_fetch E (href (req_url clone))
            (queryOptions (req_method clone) (req_headers clone)
                          (requestBody (JStr text) variables)) = Some r ->
  net_json r = Some payload ->
  getProp payload "data" = inr inner ->
  normalizeResult E inner = inr nd ->
  truthy payload = true ->
  set_fails E "queries" (hashedQueryOf E text variables) = false ->
  hashedQueryOf E text variables <> "ROOT_QUERY" ->
  (forall v, Some (hashedQueryOf E text variables, v) ∉ arrayKeyVals nd) ->
  exists s',
    fetchAndGetResponse E request clone s
    = (Return (SwResponse (stringify cached) 200), s')
    /\ db s' !! ("queries", hashedQueryOf E text variables)
       = Some (cacheRecord E payload).
Proof.
  intros Hreach Hdb Htruthy Hfresh Hmode Hfetch Hjson Hdata Hnorm Hpay Hset
         Hroot Hnot.
  rewrite (fetchAndGetResponse_served E _ _ _ _ _ _
             (runCachingLogic_cache_network_hit E _ _ _ _ _ _ _ _ _
                Hreach Hdb Htruthy Hfresh Hmode)).
  eexists. split; [reflexivity|].
  cbn [db with_saved]. rewrite detached_db.
  match goal with
  | |- context [executeAndUpdate E ?h ?u ?m ?hd ?b ?s0] =>
      destruct (executeAndUpdate_write_through E h u m hd b s0 r payload inner nd
                  Hfetch Hjson Hdata Hnorm Hpay Hset Hroot Hnot)
        as (s1 & Hupd & Hrec)
  end.
  rewrite Hupd. exact Hrec.
Qed.

Lemma X5_background_refresh_replaces_the_record_witness :
  exists s',
    fetchAndGetResponse (env_cache_network true) (post_request posts_text JNull)
                        (post_request posts_text JNull) warm_state
    = (Return (SwResponse (stringify posts_record) 200), s')
    /\ db s' !! ("queries", posts_key)
       = Some (JObj [("data", posts_payload); ("lastApiCall", JNum 5500)]).
Proof.
  apply (X5_background_refresh_replaces_the_record
           (env_cache_network true) (post_request posts_text JNull)
           (post_request posts_text JNull) warm_state posts_text JNull
           posts_doc posts_record ok_response posts_payload
           (JObj [("posts", JArr [JObj [("__typename", JStr "Post");
                                        ("id", JNum 1)]])])
           posts_normalized).
  - repeat split. right. by eexists.
  - reflexivity.
  - reflexivity.
  - reflexivity.
  - reflexivity.
  - reflexivity.
  - reflexivity.
  - reflexivity.
  - reflexivity.
  - reflexivity.
  - reflexivity.
  - discriminate.
  - intros v Hin. apply list_elem_of_singleton in Hin. discriminate Hin.
Defined.

(** X6. On a miss or a stale hit, a network call that fails (transport
    failure or a body that is not JSON) ends in the pass-through: the
    caller gets the outcome of [fetch] on the original request, so the
    network is tried a second time, and the store and the metrics are
    left as they were. *)
Theorem X6_failed_refetch_passes_through
        (E : Env) (request clone : Request) (s : State)
        (text : string) (variables : jsval) (doc : DocumentNode) :
  reaches_lookup E (req_url clone) (req_method clone) request s
                 text variables doc ->
  (let cached :=
     default JUndefined (db s !! ("queries", hashedQueryOf E text variables)) in
   truthy cached
   && checkCachedQueryIsFresh E (obj_get "lastApiCall" (ownEntries cached))
   = false) ->
  (forall r, net_fetch E (href (req_url clone))
                       (queryOptions (req_method clone) (req_headers clone)
                                     (requestBody (JStr text) variables)) = Some r ->
             net_json r = None) ->
  exists s',
    fetchAndGetResponse E request clone s
    = (match net_fetchRequest E clone with
       | Some r => Return (NetworkResponse r)
       | None => Throw NetworkError
       end, s')
    /\ same_store s s'
    /\ trace s'
       = (trace s
          ++ [EvGet "queries" "ROOT_QUERY";
              EvGet "queries" (hashedQueryOf E text variables);
              EvFetch (href (req_url clone))
                      (queryOptions (req_method clone) (req_headers clone)
                                    (requestBody (JStr text) variables));
              EvErrorLog "Error executing query";
              EvErrorLog "There was an error in the caching logic!";
              EvFetchRequest clone])%list.
Proof.
  intros Hreach Hmiss Hfail.
  pose proof (runCachingLogic_refetch E (req_url clone) (req_method clone)
                (req_headers clone) request s text variables doc Hreach Hmiss)
    as Hrun.
  revert Hrun. run.
  rewrite (executeAndUpdate_network_failure_state E _ _ _ _ _ _ Hfail).
  intros Hrun.
  rewrite (fetchAndGetResponse_passes_through E _ _ _ _ _ Hrun).
  eexists. split; [reflexivity|].
  split; [by repeat split|].
  cbn [trace with_event]. by rewrite <- !app_assoc.
Qed.

Lemma X6_failed_refetch_passes_through_witness :
  exists s',
    fetchAndGetResponse (env_fixture false [] []) (post_request posts_text JNull)
                        (post_request posts_text JNull) empty_state
    = (Throw NetworkError, s')
    /\ same_store empty_state s'
    /\ trace s'
       = [EvGet "queries" "ROOT_QUERY";
          EvGet "queries" posts_key;
          EvFetch (href endpoint_url)
                  (queryOptions "POST" [("Content-Type", "application/json")]
                                (requestBody (JStr posts_text) JNull));
          EvErrorLog "Error executing query";
          EvErrorLog "There was an error in the caching logic!";
          EvFetchRequest (post_request posts_text JNull)].
Proof.
  apply (X6_failed_refetch_passes_through
           (env_fixture false [] []) (post_request posts_text JNull)
           (post_request posts_text JNull) empty_state posts_text JNull
           posts_doc).
  - repeat split. right. by eexists.
  - reflexivity.
  - discriminate.
Defined.

(* ===================================================================== *)
(** * Further properties: requests that never reach the cache *)
(* ===================================================================== *)

Section NeverCached.
Variable E : Env.

(** The caching logic up to the bypass test throws under [stops], having
    done nothing but read the store and log. *)
Lemma runCachingLogic_throws_early
      (url : URL) (method : string) (headers : Headers) (request : Request)
      (s : State) :
  (forall query s0 cst s1,
     metaParseAST E query s0 = (Return cst, s1) ->
     exists e,
       match doNotCacheGlobal (settings E) with
       | Some _ => lift (doNotCacheCheck E cst url)
       | None => ret false
       end s1 = (Throw e, s1)) ->
  exists e s',
    runCachingLogic E url method headers request s = (Throw e, s')
    /\ same_store s s'.
Proof.
  intros Hstop. unfold runCachingLogic. run.
  fold (extraction url method request).
  destruct (extraction url method request s) as [[qv|e] s0] eqn:Hext; run.
  - apply extraction_frame in Hext.
    destruct (metaParseAST E qv.1 s0) as [[cst|e] s1] eqn:Hmeta; run.
    + destruct (Hstop _ _ _ _ Hmeta) as [e He]. revert He. run. intros He.
      apply metaParseAST_frame in Hmeta.
      destruct (doNotCacheGlobal (settings E)).
      * destruct (doNotCacheCheck E cst url) as [e'|b]; [|discriminate He].
        eexists _, _. split; [reflexivity|].
        exact (same_store_trans _ _ _ Hext Hmeta).
      * discriminate He.
    + apply metaParseAST_frame in Hmeta.
      eexists _, _. split; [reflexivity|].
      exact (same_store_trans _ _ _ Hext Hmeta).
  - apply extraction_frame in Hext. eexists _, _. split; [reflexivity|].
    exact Hext.
Qed.

Lemma passes_through_when_throwing
      (request clone : Request) (s : State) :
  (exists e s', runCachingLogic E (req_url clone) (req_method clone)
                                (req_headers clone) request s = (Throw e, s')
                /\ same_store s s') ->
  exists s',
    fetchAndGetResponse E request clone s
    = (match net_fetchRequest E clone with
       | Some r => Return (NetworkResponse r)
       | None => Throw NetworkError
       end, s')
    /\ same_store s s'.
Proof.
  intros (e & s1 & Hrun & Hsame).
  rewrite (fetchAndGetResponse_passes_through E _ _ _ _ _ Hrun).
  eexists. split; [reflexivity|]. exact Hsame.
Qed.

End NeverCached.

(** X7. With a bypass list configured ([doNotCacheGlobal]) and no
    per-endpoint setting ([doNotCacheCustom] undefined), no request is ever
    served by the caching logic: the bypass test throws on the [in]
    operator, so every request is answered with the outcome of [fetch] on
    the original request and the store, the metrics and the unhandled
    rejections are left as they were. *)
Theorem X7_missing_custom_setting_disables_the_cache
        (E : Env) (request clone : Request) (s : State) (global : list string) :
  doNotCacheGlobal (settings E) = Some global ->
  doNotCacheCustom (settings E) = None ->
  exists s',
    fetchAndGetResponse E request clone s
    = (match net_fetchRequest E clone with
       | Some r => Return (NetworkResponse r)
       | None => Throw NetworkError
       end, s')
    /\ same_store s s'.
Proof.
  intros Hg Hc. apply passes_through_when_throwing.
  apply runCachingLogic_throws_early.
  intros query s0 cst s1 _. rewrite Hg. unfold doNotCacheCheck. rewrite Hc.
  eexists. reflexivity.
Qed.

Lemma X7_missing_custom_setting_disables_the_cache_witness :
  exists s',
    fetchAndGetResponse env_no_custom (post_request posts_text JNull)
                        (post_request posts_text JNull) warm_state
    = (Return (NetworkResponse ok_response), s')
    /\ same_store warm_state s'.
Proof.
  exact (X7_missing_custom_setting_disables_the_cache
           env_no_custom (post_request posts_text JNull)
           (post_request posts_text JNull) warm_state ["comments"]
           eq_refl eq_refl).
Defined.

(** X8. The classifier reads [ROOT_QUERY] before anything else is decided
    and does not catch a failure of that read, although it never uses the
    value: while that read fails, every request is answered with the
    outcome of [fetch] on the original request, and the store, the metrics
    and the unhandled rejections are left as they were. *)
Theorem X8_unreadable_root_record_disables_the_cache
        (E : Env) (request clone : Request) (s : State) :
  get_fails E "queries" "ROOT_QUERY" = true ->
  exists s',
    fetchAndGetResponse E request clone s
    = (match net_fetchRequest E clone with
       | Some r => Return (NetworkResponse r)
       | None => Throw NetworkError
       end, s')
    /\ same_store s s'.
Proof.
  intros Hroot. apply passes_through_when_throwing.
  apply runCachingLogic_throws_early.
  intros query s0 cst s1. unfold metaParseAST, get. run.
  destruct query as [| | | |text| |]; run; try discriminate.
  destruct (parse E text); run; [|discriminate].
  rewrite Hroot. discriminate.
Qed.

Lemma X8_unreadable_root_record_disables_the_cache_witness :
  exists s',
    fetchAndGetResponse (env_fixture true ["ROOT_QUERY"] [])
                        (post_request posts_text JNull)
                        (post_request posts_text JNull) warm_state
    = (Return (NetworkResponse ok_response), s')
    /\ same_store warm_state s'.
Proof.
  exact (X8_unreadable_root_record_disables_the_cache
           (env_fixture true ["ROOT_QUERY"] []) (post_request posts_text JNull)
           (post_request posts_text JNull) warm_state eq_refl).
Defined.

(** X9. A GET request whose URL has no [query] parameter, or an empty one,
    never reaches the store: the extraction throws, the error is logged by
    the caching logic and by the listener, and the caller gets the outcome
    of [fetch] on the original request. *)
Theorem X9_get_without_query_passes_through
        (E : Env) (request clone : Request) (s : State) :
  req_method clone = "GET" ->
  truthy (searchParams_get (req_url clone) "query") = false ->
  exists s',
    fetchAndGetResponse E request clone s
    = (match net_fetchRequest E clone with
       | Some r => Return (NetworkResponse r)
       | None => Throw NetworkError
       end, s')
    /\ same_store s s'
    /\ trace s'
       = (trace s
          ++ [EvErrorLog
                "There was an error getting the query/variables from the request!";
              EvErrorLog "There was an error in the caching logic!";
              EvFetchRequest clone])%list.
Proof.
  intros Hmethod Hquery.
  unfold fetchAndGetResponse, runCachingLogic, fetchRequest, getQueryFromUrl.
  rewrite Hmethod, Hquery. cbn [String.eqb Ascii.eqb Bool.eqb negb]. run.
  eexists. split; [destruct (net_fetchRequest E clone); reflexivity|].
  split; [by repeat split|].
  cbn [trace with_event]. by rewrite <- !app_assoc.
Qed.

Lemma X9_get_without_query_passes_through_witness :
  exists s',
    fetchAndGetResponse (env_fixture true [] [])
                        (get_request [("variables", "{}")])
                        (get_request [("variables", "{}")]) warm_state
    = (Return (NetworkResponse ok_response), s')
    /\ same_store warm_state s'
    /\ trace s'
       = (trace warm_state
          ++ [EvErrorLog
                "There was an error getting the query/variables from the request!";
              EvErrorLog "There was an error in the caching logic!";
              EvFetchRequest (get_request [("variables", "{}")])])%list.
Proof.
  exact (X9_get_without_query_passes_through
           (env_fixture true [] []) (get_request [("variables", "{}")])
           (get_request [("variables", "{}")]) warm_state eq_refl eq_refl).
Defined.

(* ===================================================================== *)
(** * Further properties: the functions one by one *)
(* ===================================================================== *)

(** X10. [doNotCacheCheck], given both bypass settings, answers true
    exactly when one of the fields it is handed is in the global list or
    in the list of the first per-endpoint entry whose key is the origin
    followed by the path of the URL; entries of other endpoints never
    count, and an empty list of fields is never bypassed. *)
Theorem X10_doNotCacheCheck_is_membership
        (E : Env) (cst : QueryCST) (url : URL)
        (global : list string) (custom : list (string * list string)) :
  doNotCacheGlobal (settings E) = Some global ->
  doNotCacheCustom (settings E) = Some custom ->
  let own :=
    match List.find (fun kv => String.eqb kv.1 (origin url +:+ pathname url))
                    custom with
    | Some kv => kv.2
    | None => []
    end in
  exists b,
    doNotCacheCheck E cst url = inr b
    /\ (b = true <-> exists f, f ∈ fields cst /\ (f ∈ own \/ f ∈ global))
    /\ (fields cst = [] -> b = false).
Proof.
  intros Hg Hc own. unfold doNotCacheCheck. rewrite Hg, Hc.
  eexists. split; [reflexivity|]. split.
  - rewrite existsb_exists. setoid_rewrite existsb_exists.
    subst own.
    destruct (List.find _ custom) as [kv|]; split.
    + intros (f & Hf & d & Hd & Heq). apply String.eqb_eq in Heq as ->.
      exists d. rewrite list_elem_of_In. split; [done|].
      apply in_app_or in Hd. rewrite !list_elem_of_In. tauto.
    + intros (f & Hf & Hin). exists f. rewrite <- list_elem_of_In.
      split; [done|]. exists f. split; [|apply String.eqb_refl].
      apply in_or_app. rewrite <- !list_elem_of_In. tauto.
    + intros (f & Hf & d & Hd & Heq). apply String.eqb_eq in Heq as ->.
      exists d. rewrite !list_elem_of_In. tauto.
    + intros (f & Hf & [Hin|Hin]); [by apply elem_of_nil in Hin|].
      exists f. rewrite <- list_elem_of_In.
      split; [done|]. exists f. split; [|apply String.eqb_refl].
      by apply list_elem_of_In.
  - intros ->. reflexivity.
Qed.

Lemma X10_doNotCacheCheck_is_membership_witness :
  doNotCacheCheck (env_fixture true [] [])
                  {| operationType := "query"; fields := ["user"; "posts"] |}
                  endpoint_url
  = inr true.
Proof.
  destruct (X10_doNotCacheCheck_is_membership
              (env_fixture true [] [])
              {| operationType := "query"; fields := ["user"; "posts"] |}
              endpoint_url ["posts"] [] eq_refl eq_refl)
    as (b & Hb & Hiff & _).
  rewrite Hb. f_equal. apply Hiff. exists "posts". split.
  - apply list_elem_of_further, list_elem_of_here.
  - right. apply list_elem_of_here.
Defined.

(** X11. [executeQuery] makes exactly one network call, with the body
    attached only when the method is POST, never throws and never touches
    the store: it returns the decoded body when the call succeeds and the
    body is JSON, and otherwise logs once and returns [undefined]. *)
Theorem X11_executeQuery_one_call_no_throw
        (E : Env) (url : URL) (method : string) (headers : Headers)
        (body : string) (s : State) :
  let options := queryOptions method headers body in
  let outcome :=
    match net_fetch E (href url) options with
    | Some r => net_json r
    | None => None
    end in
  exists s',
    executeQuery E url method headers body s
    = (Return (default JUndefined outcome), s')
    /\ same_store s s'
    /\ trace s'
       = (trace s ++ EvFetch (href url) options
                  :: match outcome with
                     | Some _ => []
                     | None => [EvErrorLog "Error executing query"]
                     end)%list
    /\ fo_method options = method
    /\ fo_body options = (if String.eqb method "POST" then Some body else None).
Proof.
  cbv zeta. unfold executeQuery, fetch, response_json. run.
  destruct (net_fetch E (href url) (queryOptions method headers body)) as [r|];
    run; [destruct (net_json r); run|];
    (eexists; split; [reflexivity|]; split; [by repeat split|];
     cbn [trace with_event]; rewrite <- ?app_assoc; by repeat split).
Qed.

(** X12. [checkQueryExists] never throws and never writes: it returns the
    value stored under the key, and [undefined] both when nothing is
    stored there and when the read fails, in which case it logs once. *)
Theorem X12_checkQueryExists_failure_reads_as_miss
        (E : Env) (hashedQuery : string) (s : State) :
  exists s',
    checkQueryExists E hashedQuery s
    = (Return (if get_fails E "queries" hashedQuery then JUndefined
               else default JUndefined (db s !! ("queries", hashedQuery))), s')
    /\ same_store s s'
    /\ trace s'
       = (trace s ++ EvGet "queries" hashedQuery
                  :: if get_fails E "queries" hashedQuery
                     then [EvErrorLog "Error getting query from IDB"]
                     else [])%list.
Proof.
  unfold checkQueryExists, get. run.
  destruct (get_fails E "queries" hashedQuery);
    (eexists; split; [reflexivity|]; split; [by repeat split|];
     cbn [trace with_event]; by rewrite <- ?app_assoc).
Qed.

(** X13. [writeToCache] does nothing at all for a falsy payload
    ([undefined], [null], [false], [0], the empty string): no store call,
    no log. For any other payload, when the write succeeds, the record
    under the key is replaced by the payload with the current time and
    every other key is left alone; when the write fails the store is
    unchanged and the error is rethrown. *)
Theorem X13_writeToCache_skips_falsy_and_overwrites
        (E : Env) (hashedQuery : string) (data : jsval) (s : State) :
  (truthy data = false -> writeToCache E hashedQuery data s = (Return tt, s))
  /\ (truthy data = true ->
      set_fails E "queries" hashedQuery = false ->
      exists s',
        writeToCache E hashedQuery data s = (Return tt, s')
        /\ db s' = <[("queries", hashedQuery) := cacheRecord E data]> (db s)
        /\ unhandled s' = unhandled s)
  /\ (truthy data = true ->
      set_fails E "queries" hashedQuery = true ->
      exists s',
        writeToCache E hashedQuery data s = (Throw (StoreError hashedQuery), s')
        /\ same_store s s').
Proof.
  unfold writeToCache, set. repeat split.
  - intros ->. reflexivity.
  - intros -> ->. run. eexists. by repeat split.
  - intros -> ->. run. eexists. by repeat split.
Qed.

Lemma X13_writeToCache_skips_falsy_and_overwrites_witness :
  writeToCache (env_fixture true [] []) posts_key (JNum 0) warm_state
  = (Return tt, warm_state)
  /\ exists s',
       writeToCache (env_fixture true [] []) posts_key (JStr "new") warm_state
       = (Return tt, s')
       /\ db s' = <[("queries", posts_key)
                    := cacheRecord (env_fixture true [] []) (JStr "new")]>
                  (db warm_state)
       /\ unhandled s' = unhandled warm_state.
Proof.
  split.
  - exact (proj1 (X13_writeToCache_skips_falsy_and_overwrites
                    (env_fixture true [] []) posts_key (JNum 0) warm_state)
                 eq_refl).
  - exact (proj1 (proj2 (X13_writeToCache_skips_falsy_and_overwrites
                    (env_fixture true [] []) posts_key (JStr "new") warm_state))
                 eq_refl eq_refl).
Defined.

Lemma visit_operationType (doc : DocumentNode) (cst : QueryCST) :
  visit metaVisitor doc cst
  = {| operationType := lastOperation doc (operationType cst);
       fields := fields cst |}.
Proof.
  unfold visit. revert cst.
  induction doc as [|d doc IH]; intros cst; simpl.
  - by destruct cst.
  - rewrite IH. destruct d; simpl; rewrite ?visitSelectionSet_id; reflexivity.
Qed.

(** X14. For a text that parses, [metaParseAST] reports the operation
    type of the last operation definition of the document (the empty
    string when the document has none), and an empty list of fields. *)
Theorem X14_metaParseAST_keeps_the_last_operation
        (E : Env) (text : string) (doc : DocumentNode) (s : State) :
  parse E text = Some doc ->
  get_fails E "queries" "ROOT_QUERY" = false ->
  metaParseAST E (JStr text) s
  = (Return {| operationType := lastOperation doc EmptyString; fields := [] |},
     with_event (EvGet "queries" "ROOT_QUERY") s).
Proof.
  intros Hparse Hroot.
  rewrite (metaParseAST_run E _ _ _ Hparse Hroot), visit_operationType.
  reflexivity.
Qed.

Lemma X14_metaParseAST_keeps_the_last_operation_witness :
  metaParseAST (env_parsing two_operations_doc) (JStr "any") empty_state
  = (Return {| operationType := "mutation"; fields := [] |},
     with_event (EvGet "queries" "ROOT_QUERY") empty_state).
Proof.
  exact (X14_metaParseAST_keeps_the_last_operation
           (env_parsing two_operations_doc) "any" two_operations_doc
           empty_state eq_refl eq_refl).
Defined.

(* ===================================================================== *)
(** * Further properties: what no request ever does *)
(* ===================================================================== *)

Section Respects.
Context {A B : Type}.

Lemma extends_refl (s : State) : extends s s.
Proof. by repeat split. Qed.

Lemma extends_trans (s1 s2 s3 : State) :
  extends s1 s2 -> extends s2 s3 -> extends s1 s3.
Proof.
  intros (Hs & Hd & Ht & Hu) (Hs' & Hd' & Ht' & Hu'). repeat split.
  - congruence.
  - intros c k Hc. rewrite (Hd' c k Hc). by apply Hd.
  - by etrans.
  - by etrans.
Qed.

Lemma respects_ret (a : A) : respects (ret a).
Proof. intros s c s' [= <- <-]. apply extends_refl. Qed.

Lemma respects_throw (e : JSError) : respects (@throw A e).
Proof. intros s c s' [= <- <-]. apply extends_refl. Qed.

Lemma respects_lift (r : JSError + A) : respects (lift r).
Proof. destruct r; [apply respects_throw | apply respects_ret]. Qed.

Lemma respects_bind (m : Async A) (k : A -> Async B) :
  respects m -> (forall a, respects (k a)) -> respects (bind m k).
Proof.
  intros Hm Hk s c s'. unfold bind.
  destruct (m s) as [[a|e] s1] eqn:Hrun.
  - intros Hk'. exact (extends_trans _ _ _ (Hm _ _ _ Hrun) (Hk a _ _ _ Hk')).
  - intros [= <- <-]. exact (Hm _ _ _ Hrun).
Qed.

Lemma respects_try_catch (m : Async A) (h : JSError -> Async A) :
  respects m -> (forall e, respects (h e)) -> respects (try_catch m h).
Proof.
  intros Hm Hh s c s'. unfold try_catch.
  destruct (m s) as [[a|e] s1] eqn:Hrun.
  - intros [= <- <-]. exact (Hm _ _ _ Hrun).
  - intros Hh'. exact (extends_trans _ _ _ (Hm _ _ _ Hrun) (Hh e _ _ _ Hh')).
Qed.

Lemma respects_detached (m : Async A) : respects m -> respects (detached m).
Proof.
  intros Hm s c s'. unfold detached.
  destruct (m s) as [[a|e] s1] eqn:Hrun; intros [= <- <-].
  - exact (Hm _ _ _ Hrun).
  - destruct (Hm _ _ _ Hrun) as (Hs & Hd & Ht & Hu). repeat split; try done.
    cbn [unhandled with_unhandled]. etrans; [exact Hu|]. by apply prefix_app_r.
Qed.

End Respects.

Section RespectsWorker.
Variable E : Env.

Lemma respects_emit (e : Event) : respects (emit e).
Proof.
  intros s c s' [= <- <-]. repeat split; try done.
  cbn [trace with_event]. by apply prefix_app_r.
Qed.

Lemma respects_get (collection key : string) : respects (get E collection key).
Proof.
  unfold get. apply respects_bind; [apply respects_emit|]. intros _.
  destruct (get_fails E collection key); [apply respects_throw|].
  intros s c s' [= <- <-]. apply extends_refl.
Qed.

Lemma respects_set (key : string) (value : jsval) :
  respects (set E "queries" key value).
Proof.
  unfold set. apply respects_bind; [apply respects_emit|]. intros _.
  destruct (set_fails E "queries" key); [apply respects_throw|].
  intros s c s' [= <- <-]. repeat split; try done.
  intros col k Hcol. cbn [db with_db]. apply lookup_insert_ne. congruence.
Qed.

Lemma putAll_other_collection (kvs : list (string * jsval))
      (m : gmap (string * string) jsval) (collection key : string) :
  collection <> "queries" ->
  putAll "queries" kvs m !! (collection, key) = m !! (collection, key).
Proof.
  intros Hcol. revert m. induction kvs as [|[k v] kvs IH]; intros m; [done|].
  unfold putAll in *. simpl. rewrite IH. apply lookup_insert_ne. congruence.
Qed.

Lemma respects_setMany (entries : list (option (string * jsval))) :
  respects (setMany E "queries" entries).
Proof.
  unfold setMany. apply respects_bind; [apply respects_emit|]. intros _.
  induction entries as [|[[k v]|] entries IH]; simpl.
  - apply respects_ret.
  - destruct (set_fails E "queries" k); [apply respects_throw|].
    apply respects_bind; [|intros _; exact IH].
    intros s c s' [= <- <-]. repeat split; try done.
    intros col k' Hcol. cbn [db with_db]. apply lookup_insert_ne. congruence.
  - apply respects_throw.
Qed.

Lemma respects_isCached (b : bool) : respects (metrics_set_isCached b).
Proof. intros s c s' [= <- <-]. by repeat split. Qed.

(** Walks a worker function down to the primitives above. *)
Ltac respect :=
  repeat first
    [ apply respects_ret | apply respects_throw | apply respects_lift
    | apply respects_emit | apply respects_get | apply respects_set
    | apply respects_setMany | apply respects_isCached
    | apply respects_detached
    | apply respects_bind; [|intros ?]
    | apply respects_try_catch; [|intros ?]
    | match goal with
      | |- respects (if ?b then _ else _) => destruct b
      | |- respects (match ?x with _ => _ end) => destruct x
      | |- respects (let _ := _ in _) => cbv zeta
      end ].

Lemma respects_getQueryFromUrl (url : URL) : respects (getQueryFromUrl url).
Proof. unfold getQueryFromUrl. respect. Qed.

Lemma respects_getQueryFromBody (request : Request) :
  respects (getQueryFromBody request).
Proof. unfold getQueryFromBody, request_json, sw_error_log. respect. Qed.

Lemma respects_checkQueryExists (h : string) : respects (checkQueryExists E h).
Proof. unfold checkQueryExists, sw_error_log. respect. Qed.

Lemma respects_executeQuery (url : URL) (method : string) (headers : Headers)
      (body : string) :
  respects (executeQuery E url method headers body).
Proof. unfold executeQuery, fetch, response_json, sw_error_log. respect. Qed.

Lemma respects_writeToCache (h : string) (data : jsval) :
  respects (writeToCache E h data).
Proof. unfold writeToCache, sw_log, sw_error_log. respect. Qed.

Lemma respects_writeToNormalizedCache (nd : NormalizedData) :
  respects (writeToNormalizedCache E nd).
Proof. unfold writeToNormalizedCache, writeRootQuery. respect. Qed.

Lemma respects_executeAndUpdate (h : string) (url : URL) (method : string)
      (headers : Headers) (body : string) :
  respects (executeAndUpdate E h url method headers body).
Proof.
  unfold executeAndUpdate.
  apply respects_bind; [apply respects_executeQuery|]. intros data.
  apply respects_bind;
    [apply respects_detached, respects_writeToCache|]. intros _.
  apply respects_bind; [apply respects_lift|]. intros payload.
  apply respects_bind; [apply respects_lift|]. intros nd.
  apply respects_bind;
    [apply respects_detached, respects_writeToNormalizedCache|]. intros _.
  apply respects_ret.
Qed.

Lemma respects_metaParseAST (query : jsval) : respects (metaParseAST E query).
Proof. unfold metaParseAST. respect. Qed.

Lemma respects_runCachingLogic (url : URL) (method : string)
      (headers : Headers) (request : Request) :
  respects (runCachingLogic E url method headers request).
Proof.
  unfold runCachingLogic.
  apply respects_bind.
  { apply respects_try_catch.
    - destruct (String.eqb method "GET");
        [apply respects_getQueryFromUrl | apply respects_getQueryFromBody].
    - intros e. unfold sw_error_log. respect. }
  intros qv. cbv zeta.
  apply respects_bind; [apply respects_metaParseAST|]. intros metadata.
  apply respects_bind; [respect|]. intros [|].
  - unfold sw_error_log, uninitialized. respect.
  - apply respects_bind.
    { apply respects_try_catch.
      - apply respects_bind; [respect|]. intros text.
        apply respects_bind; [apply respects_lift|]. intros joined.
        apply respects_bind; [apply respects_checkQueryExists|]. intros cached.
        apply respects_ret.
      - intros e. unfold sw_error_log. respect. }
    intros found.
    destruct (_ && _).
    + apply respects_bind; [apply respects_isCached|]. intros _.
      apply respects_bind; [apply respects_emit|]. intros _.
      apply respects_bind; [|intros _; apply respects_ret].
      destruct (bool_decide _); [|apply respects_ret].
      apply respects_detached, respects_executeAndUpdate.
    + apply respects_bind; [apply respects_executeAndUpdate|]. intros data.
      apply respects_ret.
Qed.

End RespectsWorker.

(* ===================================================================== *)
(** * The cache key *)
(* ===================================================================== *)

Section CacheKey.
Variable E : Env.

Lemma trace_after_lookup (s s2 s' : State) (key : string) (more : list Event) :
  trace s2 = (trace s ++ [EvGet "queries" "ROOT_QUERY"; EvGet "queries" key] ++ more)%list ->
  extends s2 s' ->
  exists rest,
    trace s' = (trace s ++ [EvGet "queries" "ROOT_QUERY"; EvGet "queries" key] ++ rest)%list.
Proof.
  intros Hs2 (_ & _ & [k Hk] & _). exists (more ++ k)%list.
  rewrite Hk, Hs2. by rewrite <- !app_assoc.
Qed.

Lemma runCachingLogic_looks_up
      (url : URL) (method : string) (headers : Headers) (request : Request)
      (s : State) (text : string) (variables : jsval) (doc : DocumentNode)
      (suffix : string) :
  extraction url method request s = (Return (JStr text, variables), s) ->
  parse E text = Some doc ->
  get_fails E "queries" "ROOT_QUERY" = false ->
  doNotCacheGlobal (settings E) = None \/ is_Some (doNotCacheCustom (settings E)) ->
  toString variables = inr suffix ->
  looksUpUnder E url method headers request s (ourMD5 E (text +:+ suffix)).
Proof.
  intros Hext Hparse Hroot Hbyp Hstr.
  assert (Hconc : concat text variables = inr (text +:+ suffix))
    by (unfold concat; by rewrite Hstr).
  unfold looksUpUnder, extraction in *. cbv zeta.
  unfold runCachingLogic. run. rewrite Hext. run.
  rewrite (metaParseAST_run E _ _ _ Hparse Hroot). run.
  destruct (doNotCacheGlobal (settings E)) as [g|] eqn:Hg;
    [destruct Hbyp as [?|Hc]; [done|];
     rewrite (doNotCacheCheck_no_fields E _ url g
                (visit_fields doc {| operationType := EmptyString; fields := [] |})
                Hg Hc)
    |]; run; rewrite Hconc; run.
  all: unfold checkQueryExists, get; run.
  all: destruct (get_fails E "queries" (ourMD5 E (text +:+ suffix))); run.
  all: destruct (_ && _); run.
  all: repeat match goal with
         | |- context [if bool_decide ?P then _ else _] => destruct (bool_decide P)
         end.
  all: try match goal with
         | |- context [detached ?m ?st] =>
             let Hrun := fresh "Hrun" in
             let Hext' := fresh "Hextends" in
             destruct (detached_returns m st) as [s3 Hrun];
             pose proof (respects_detached m
                           (respects_executeAndUpdate E _ _ _ _ _) _ _ _ Hrun)
               as Hext';
             rewrite Hrun
         | |- context [executeAndUpdate E ?k ?u ?m ?h ?b ?st] =>
             let Hrun := fresh "Hrun" in
             let Hext' := fresh "Hextends" in
             destruct (executeAndUpdate E k u m h b st) as [[d|e] s3] eqn:Hrun;
             pose proof (respects_executeAndUpdate E _ _ _ _ _ _ _ _ Hrun)
               as Hext'
         end.
  all: cbn [fst snd].
  all: (split; [|intros result; (discriminate || (intros [= <-]; reflexivity))]).
  all: try (eapply trace_after_lookup; [|eassumption];
            cbn [trace with_event with_isCached];
            rewrite <- ?app_assoc; simpl; reflexivity).
  all: eexists; cbn [trace with_event with_isCached];
    rewrite <- ?app_assoc; simpl; reflexivity.
Qed.

(** Variables that do not convert to a string end the caching logic in
    the [try] around the hashing: the error is logged and thrown on, and
    no record is looked up. *)
Lemma runCachingLogic_unconvertible
      (url : URL) (method : string) (headers : Headers) (request : Request)
      (s : State) (text : string) (variables : jsval) (doc : DocumentNode)
      (e : JSError) :
  extraction url method request s = (Return (JStr text, variables), s) ->
  parse E text = Some doc ->
  get_fails E "queries" "ROOT_QUERY" = false ->
  doNotCacheGlobal (settings E) = None \/ is_Some (doNotCacheCustom (settings E)) ->
  toString variables = inl e ->
  runCachingLogic E url method headers request s
  = (Throw e,
     with_event (EvErrorLog "There was an error getting the cached data!")
       (with_event (EvGet "queries" "ROOT_QUERY") s)).
Proof.
  intros Hext Hparse Hroot Hbyp Hstr.
  assert (Hconc : concat text variables = inl e)
    by (unfold concat; by rewrite Hstr).
  unfold extraction in Hext.
  unfold runCachingLogic. run. rewrite Hext. run.
  rewrite (metaParseAST_run E _ _ _ Hparse Hroot). run.
  destruct (doNotCacheGlobal (settings E)) as [g|] eqn:Hg;
    [destruct Hbyp as [?|Hc]; [done|];
     rewrite (doNotCacheCheck_no_fields E _ url g
                (visit_fields doc {| operationType := EmptyString; fields := [] |})
                Hg Hc)
    |]; run; rewrite Hconc; reflexivity.
Qed.

End CacheKey.

(** C9, the claim as stated, is false on the code. A [variables] object
    of a JSON body may have a member named [toString]; it is not callable,
    [query.concat(variables)] throws a TypeError in place of yielding
    [[object Object]], and the request is never looked up under the key
    of the other object variables. *)
Lemma C9_own_toString_member_counterexample :
  ~ (forall (E : Env) (text : string) (props : list (string * jsval))
            (doc : DocumentNode) (s : State),
       parse E text = Some doc ->
       get_fails E "queries" "ROOT_QUERY" = false ->
       doNotCacheGlobal (settings E) = None
       \/ is_Some (doNotCacheCustom (settings E)) ->
       let request := post_request text (JObj props) in
       looksUpUnder E (req_url request) (req_method request)
                    (req_headers request) request s
                    (ourMD5 E (text +:+ "[object Object]"))).
Proof.
  intros Hclaim.
  destruct (Hclaim (env_fixture true [] []) posts_text [("toString", JNum 1)]
                   posts_doc empty_state eq_refl eq_refl
                   (or_intror (mk_is_Some _ _ eq_refl)))
    as [[rest Hrest] _].
  vm_compute in Hrest. discriminate Hrest.
Qed.

(** A request whose variables have an own [toString] member is passed
    through to the network: the caching logic throws before any lookup. *)
Lemma shadowing_variables_pass_through :
  let E := env_fixture true [] [] in
  let request := post_request posts_text shadowing_variables in
  let out := fetchAndGetResponse E request request empty_state in
  concat posts_text shadowing_variables
  = inl (TypeError "Cannot convert object to primitive value")
  /\ out.1 = Return (NetworkResponse ok_response)
  /\ trace out.2
     = [EvGet "queries" "ROOT_QUERY";
        EvErrorLog "There was an error getting the cached data!";
        EvErrorLog "There was an error in the caching logic!";
        EvFetchRequest request]
  /\ db out.2 = ∅.
Proof. repeat split. Qed.

(** C9. The cache key is the hash of [query.concat(variables)]. For a
    request that gets as far as the hashing, with a query text [text]:
    every [variables] object without an own [toString] member is looked
    up, and returned, under the hash of [text] followed by
    [[object Object]], so any two such objects share one key; [null] is
    looked up under the hash of [text] followed by the four characters
    [null], which is not [text]; and a [variables] object with an own
    [toString] member makes the concatenation throw a TypeError, which is
    logged and thrown on before any lookup. *)
Theorem C9_cache_key_of_object_variables
        (E : Env) (url : URL) (method : string) (headers : Headers)
        (request : Request) (s : State) (text : string) (variables : jsval)
        (doc : DocumentNode) :
  extraction url method request s = (Return (JStr text, variables), s) ->
  parse E text = Some doc ->
  get_fails E "queries" "ROOT_QUERY" = false ->
  doNotCacheGlobal (settings E) = None \/ is_Some (doNotCacheCustom (settings E)) ->
  (forall props,
     variables = JObj props ->
     "toString" ∉ props.*1 ->
     looksUpUnder E url method headers request s
                  (ourMD5 E (text +:+ "[object Object]")))
  /\ (variables = JNull ->
      looksUpUnder E url method headers request s
                   (ourMD5 E (text +:+ "null")))
  /\ text +:+ "null" <> text
  /\ (forall props,
        variables = JObj props ->
        "toString" ∈ props.*1 ->
        runCachingLogic E url method headers request s
        = (Throw (TypeError "Cannot convert object to primitive value"),
           with_event (EvErrorLog "There was an error getting the cached data!")
             (with_event (EvGet "queries" "ROOT_QUERY") s))).
Proof.
  intros Hext Hparse Hroot Hbyp. split; [|split; [|split]].
  - intros props -> Hown.
    exact (runCachingLogic_looks_up E url method headers request s text
             (JObj props) doc "[object Object]" Hext Hparse Hroot Hbyp
             (toString_object props Hown)).
  - intros ->.
    exact (runCachingLogic_looks_up E url method headers request s text
             JNull doc "null" Hext Hparse Hroot Hbyp eq_refl).
  - intros Heq. apply (f_equal String.length) in Heq.
    rewrite length_append in Heq. simpl in Heq. lia.
  - intros props -> Hown.
    exact (runCachingLogic_unconvertible E url method headers request s text
             (JObj props) doc _ Hext Hparse Hroot Hbyp
             (toString_own_member props Hown)).
Qed.

Lemma C9_cache_key_of_object_variables_witness :
  let E := env_fixture true [] [] in
  let request := post_request posts_text (JObj [("id", JNum 1)]) in
  looksUpUnder E (req_url request) (req_method request) (req_headers request)
               request empty_state
               (ourMD5 E (posts_text +:+ "[object Object]")).
Proof.
  cbv zeta.
  apply (proj1 (C9_cache_key_of_object_variables
                  (env_fixture true [] []) endpoint_url "POST"
                  [("Content-Type", "application/json")]
                  (post_request posts_text (JObj [("id", JNum 1)]))
                  empty_state posts_text (JObj [("id", JNum 1)]) posts_doc
                  eq_refl eq_refl eq_refl (or_intror (mk_is_Some _ _ eq_refl)))
               [("id", JNum 1)] eq_refl).
  intros [Heq|Hin]%elem_of_cons; [discriminate|].
  by apply not_elem_of_nil in Hin.
Defined.


(** X15. Whatever the request, the settings, the network and the store
    do, handling a request never touches a collection other than
    [queries], never removes anything from the trace or from the unhandled
    rejections, and saves the metrics exactly once when the answer is
    built by the worker (always with status 200) and not at all when the
    request is passed through or fails. *)
Theorem X15_fetchAndGetResponse_invariants
        (E : Env) (request clone : Request) (s : State) :
  let out := fetchAndGetResponse E request clone s in
  (forall collection key,
     collection <> "queries" ->
     db out.2 !! (collection, key) = db s !! (collection, key))
  /\ trace s `prefix_of` trace out.2
  /\ unhandled s `prefix_of` unhandled out.2
  /\ match out.1 with
     | Return (SwResponse body status) =>
         status = 200
         /\ exists hashedQuery,
              saved out.2 = (saved s ++ [(isCached out.2, hashedQuery)])%list
     | _ => saved out.2 = saved s
     end.
Proof.
  cbv zeta. unfold fetchAndGetResponse, fetchRequest. run.
  destruct (runCachingLogic E (req_url clone) (req_method clone)
              (req_headers clone) request s) as [[result|e] s1] eqn:Hrun;
    apply respects_runCachingLogic in Hrun as (Hsaved & Hdb & Htrace & Hunh).
  - destruct (getProp result "data") as [e|data]; run;
      [|destruct (getProp result "hashedQuery") as [e|h]; run].
    1,2: destruct (net_fetchRequest E clone); cbn [fst snd];
      (split; [exact Hdb|split; [|split; [exact Hunh|exact Hsaved]]]);
      cbn [trace with_event]; rewrite <- app_assoc;
      (etrans; [exact Htrace | by apply prefix_app_r]).
    cbn [fst snd db trace unhandled saved isCached with_saved].
    split; [exact Hdb|split; [exact Htrace|split; [exact Hunh|]]].
    split; [reflexivity|]. exists h. by rewrite Hsaved.
  - destruct (net_fetchRequest E clone); cbn [fst snd];
      (split; [exact Hdb|split; [|split; [exact Hunh|exact Hsaved]]]);
      cbn [trace with_event]; rewrite <- app_assoc;
      (etrans; [exact Htrace | by apply prefix_app_r]).
Qed.

(* ===================================================================== *)
(** * Further properties: writing the same response twice *)
(* ===================================================================== *)

Section Idempotence.
Variable E : Env.

Lemma obj_find_elem (k : string) (v : jsval) (props : list (string * jsval)) :
  obj_find k props = Some v -> (k, v) ∈ props.
Proof.
  induction props as [|[k' v'] props IH]; simpl; [discriminate|].
  destruct (obj_find k props) as [w|].
  - intros [= ->]. apply list_elem_of_further. by apply IH.
  - destruct (String.eqb_spec k k') as [->|]; [|discriminate].
    intros [= ->]. apply list_elem_of_here.
Qed.

Lemma elem_obj_find (k : string) (v : jsval) (props : list (string * jsval)) :
  NoDup props.*1 -> (k, v) ∈ props -> obj_find k props = Some v.
Proof.
  induction props as [|[k' v'] props IH]; simpl.
  - intros _ Hin. by apply elem_of_nil in Hin.
  - rewrite NoDup_cons. intros [Hnotin Hnd] Hin.
    apply elem_of_cons in Hin as [[= -> ->]|Hin].
    + rewrite (obj_find_not_key k' props Hnotin).
      by rewrite String.eqb_refl.
    + by rewrite (IH Hnd Hin).
Qed.

Lemma obj_set_fresh (k : string) (v : jsval) (props : list (string * jsval)) :
  k ∉ props.*1 -> obj_set k v props = (props ++ [(k, v)])%list.
Proof.
  induction props as [|[k' v'] props IH]; simpl; [done|].
  rewrite not_elem_of_cons. intros [Hne Hnotin].
  destruct (String.eqb_spec k k'); [done|]. by rewrite IH.
Qed.

Lemma obj_set_present (k : string) (v : jsval) (props : list (string * jsval)) :
  NoDup props.*1 -> (k, v) ∈ props -> obj_set k v props = props.
Proof.
  induction props as [|[k' v'] props IH]; simpl.
  - intros _ Hin. by apply elem_of_nil in Hin.
  - rewrite NoDup_cons. intros [Hnotin Hnd] Hin.
    destruct (String.eqb_spec k k') as [->|Hne].
    + apply elem_of_cons in Hin as [[= ->]|Hin]; [done|].
      exfalso. apply Hnotin. apply list_elem_of_fmap. by exists (k', v).
    + apply elem_of_cons in Hin as [[= -> ->]|Hin]; [done|].
      by rewrite IH.
Qed.

(** Assigning the properties of an object with distinct keys, one by one,
    to what is already there, appends them. *)
Lemma assign_fresh (src acc : list (string * jsval)) :
  NoDup ((acc ++ src)%list).*1 ->
  fold_left (fun acc kv => obj_set kv.1 kv.2 acc) src acc = (acc ++ src)%list.
Proof.
  revert acc. induction src as [|[k v] src IH]; intros acc Hnd; simpl.
  - by rewrite app_nil_r.
  - rewrite obj_set_fresh.
    + rewrite IH; rewrite <- app_assoc; done.
    + rewrite fmap_app in Hnd. apply NoDup_app in Hnd as (_ & Hdisj & _).
      intros Hin. apply (Hdisj k Hin). simpl. apply list_elem_of_here.
Qed.

(** Assigning properties an object already has changes nothing. *)
Lemma assign_present (src acc : list (string * jsval)) :
  NoDup acc.*1 ->
  (forall kv, kv ∈ src -> kv ∈ acc) ->
  fold_left (fun acc kv => obj_set kv.1 kv.2 acc) src acc = acc.
Proof.
  intros Hnd. induction src as [|[k v] src IH]; intros Hsub; simpl; [done|].
  rewrite obj_set_present; [|done|apply Hsub, list_elem_of_here].
  apply IH. intros kv Hin. apply Hsub. by apply list_elem_of_further.
Qed.

Lemma spread2_NoDup (a b : jsval) : NoDup (spread2 a b).*1.
Proof.
  unfold spread2.
  assert (H : forall src acc, NoDup acc.*1 ->
              NoDup (fold_left (fun acc kv => obj_set kv.1 kv.2 acc) src acc).*1).
  { induction src as [|[k v] src IH]; intros acc Hnd; simpl; [done|].
    apply IH. by apply obj_set_NoDup. }
  apply H. apply NoDup_nil_2.
Qed.

(** Spreading the patch again over a record that already has it gives the
    record back. *)
Lemma spread2_again (root patch : list (string * jsval)) :
  NoDup root.*1 ->
  (forall kv, kv ∈ patch -> kv ∈ root) ->
  spread2 (JObj root) (JObj patch) = root.
Proof.
  intros Hnd Hsub. unfold spread2. cbn [ownEntries].
  rewrite fold_left_app, (assign_fresh root []) by done.
  by apply assign_present.
Qed.

Lemma putAll_lookup (kvs : list (string * jsval))
      (m : gmap (string * string) jsval) (key : string) :
  putAll "queries" kvs m !! ("queries", key)
  = match obj_find key kvs with
    | Some v => Some v
    | None => m !! ("queries", key)
    end.
Proof.
  revert m. induction kvs as [|[k v] kvs IH]; intros m; [done|].
  change (putAll "queries" ((k, v) :: kvs) m)
    with (putAll "queries" kvs (<[("queries", k) := v]> m)).
  rewrite IH. simpl. destruct (obj_find key kvs); [done|].
  destruct (String.eqb_spec key k) as [->|Hne].
  - apply lookup_insert_eq.
  - apply lookup_insert_ne. congruence.
Qed.

(** Putting the same pairs again changes nothing, even with the root
    record written in between. *)
Lemma putAll_again (kvs : list (string * jsval))
      (m : gmap (string * string) jsval) (root : jsval) :
  "ROOT_QUERY" ∉ kvs.*1 ->
  putAll "queries" kvs (<[("queries", "ROOT_QUERY") := root]> (putAll "queries" kvs m))
  = <[("queries", "ROOT_QUERY") := root]> (putAll "queries" kvs m).
Proof.
  intros Hroot. apply map_eq. intros [c k].
  destruct (decide (c = "queries")) as [->|Hc].
  - rewrite putAll_lookup.
    destruct (obj_find k kvs) as [v|] eqn:Hfind; [|done].
    rewrite lookup_insert_ne.
    + by rewrite putAll_lookup, Hfind.
    + intros [= <-]. apply Hroot. apply obj_find_elem in Hfind.
      apply list_elem_of_fmap. by exists ("ROOT_QUERY", v).
  - assert (Hput : forall m', putAll "queries" kvs m' !! (c, k) = m' !! (c, k)).
    { intros m'. revert m'. clear Hroot.
      induction kvs as [|[k' v'] kvs IH]; intros m'; [done|].
      change (putAll "queries" ((k', v') :: kvs) m')
        with (putAll "queries" kvs (<[("queries", k') := v']> m')).
      rewrite IH. apply lookup_insert_ne. congruence. }
    by rewrite Hput.
Qed.

(** The store after a normalized write in which every store call
    succeeds. *)
Lemma writeToNormalizedCache_db (nd : NormalizedData) (s : State)
      (kvs : list (string * jsval)) :
  mapM id (arrayKeyVals nd) = Some kvs ->
  (forall k, set_fails E "queries" k = false) ->
  get_fails E "queries" "ROOT_QUERY" = false ->
  db (writeToNormalizedCache E nd s).2
  = let stored := putAll "queries" kvs (db s) in
    let rootQuery := default JUndefined (stored !! ("queries", "ROOT_QUERY")) in
    <[("queries", "ROOT_QUERY")
      := if truthy rootQuery
         then JObj (spread2 rootQuery (JObj (rootQueryObject nd)))
         else JObj (rootQueryObject nd)]> stored.
Proof.
  intros Hmap Hset Hget. unfold writeToNormalizedCache, writeRootQuery. run.
  rewrite (setMany_run E _ _ _ _ Hmap (fun k _ => Hset k)). run.
  unfold get, set. run. rewrite Hget, Hset. cbn [db with_db with_event].
  destruct (truthy _); reflexivity.
Qed.

End Idempotence.

(** X16. Writing the same normalized response a second time leaves the
    store as the first write left it: provided every store call succeeds,
    no entity is keyed [ROOT_QUERY] and the root patch is an object (its
    keys are distinct), [writeToNormalizedCache] is idempotent on the
    store. *)
Theorem X16_writeToNormalizedCache_idempotent
        (E : Env) (nd : NormalizedData) (s : State)
        (kvs : list (string * jsval)) :
  mapM id (arrayKeyVals nd) = Some kvs ->
  "ROOT_QUERY" ∉ kvs.*1 ->
  NoDup (rootQueryObject nd).*1 ->
  (forall k, set_fails E "queries" k = false) ->
  get_fails E "queries" "ROOT_QUERY" = false ->
  db (writeToNormalizedCache E nd (writeToNormalizedCache E nd s).2).2
  = db (writeToNormalizedCache E nd s).2.
Proof.
  intros Hmap Hroot Hnd Hset Hget.
  rewrite (writeToNormalizedCache_db E nd _ kvs Hmap Hset Hget).
  rewrite (writeToNormalizedCache_db E nd s kvs Hmap Hset Hget).
  cbv zeta. rewrite putAll_again by done.
  set (stored := putAll "queries" kvs (db s)).
  set (root1 := if truthy (default JUndefined (stored !! ("queries", "ROOT_QUERY")))
                then JObj (spread2 (default JUndefined (stored !! ("queries", "ROOT_QUERY")))
                                   (JObj (rootQueryObject nd)))
                else JObj (rootQueryObject nd)).
  rewrite lookup_insert_eq. cbn [default from_option id].
  assert (Hsame : (if truthy root1
                   then JObj (spread2 root1 (JObj (rootQueryObject nd)))
                   else JObj (rootQueryObject nd)) = root1).
  { subst root1.
    destruct (truthy (default JUndefined (stored !! ("queries", "ROOT_QUERY"))));
      cbn [truthy]; f_equal.
    - apply spread2_again; [apply spread2_NoDup|].
      intros [k v] Hin. apply obj_find_elem.
      rewrite obj_find_spread2. cbn [ownEntries].
      by rewrite (elem_obj_find k v _ Hnd Hin).
    - by apply spread2_again. }
  rewrite Hsame. apply insert_insert_eq.
Qed.

Lemma X16_writeToNormalizedCache_idempotent_witness :
  db (writeToNormalizedCache (env_fixture true [] []) user_update
        (writeToNormalizedCache (env_fixture true [] []) user_update
                                user_state).2).2
  = db (writeToNormalizedCache (env_fixture true [] []) user_update user_state).2.
Proof.
  apply (X16_writeToNormalizedCache_idempotent
           (env_fixture true [] []) user_update user_state
           [("User:1", JObj [("name", JStr "B")])]).
  - reflexivity.
  - intros Hin. apply list_elem_of_singleton in Hin. discriminate Hin.
  - apply NoDup_singleton.
  - reflexivity.
  - reflexivity.
Defined.

(* ===================================================================== *)
(** * Further properties: extraction and the cache key *)
(* ===================================================================== *)

(** X17. An operation sent without variables is keyed differently by
    method: a GET whose URL has no [variables] parameter yields [null], a
    POST whose body has no [variables] member yields [undefined], and the
    two are hashed as the text followed by [null] and by [undefined]; so
    with a hash that does not collide on them the two requests never share
    a cache record. *)
Theorem X17_missing_variables_keyed_by_method
        (E : Env) (url : URL) (byUrl byBody : Request) (s : State)
        (text : string) (props : list (string * jsval)) :
  searchParams_get url "query" = JStr text ->
  text <> EmptyString ->
  searchParams_get url "variables" = JNull ->
  req_json byBody = Some (JObj props) ->
  obj_find "query" props = Some (JStr text) ->
  obj_find "variables" props = None ->
  extraction url "GET" byUrl s = (Return (JStr text, JNull), s)
  /\ extraction url "POST" byBody s = (Return (JStr text, JUndefined), s)
  /\ hashedQueryOf E text JNull = ourMD5 E (text +:+ "null")
  /\ hashedQueryOf E text JUndefined = ourMD5 E (text +:+ "undefined")
  /\ (Inj (=) (=) (ourMD5 E) ->
      hashedQueryOf E text JNull <> hashedQueryOf E text JUndefined).
Proof.
  intros Hq Hne Hv Hjson Hpq Hpv. repeat split.
  - unfold extraction, getQueryFromUrl. cbn [String.eqb Ascii.eqb Bool.eqb].
    rewrite Hq, Hv. cbn [truthy].
    destruct (String.eqb_spec text EmptyString); [done|reflexivity].
  - unfold extraction, getQueryFromBody, request_json.
    cbn [String.eqb Ascii.eqb Bool.eqb]. rewrite Hjson. run.
    unfold getProp, obj_get. rewrite Hpq, Hpv. reflexivity.
  - intros Hinj Heq. apply Hinj in Heq. unfold concat in Heq.
    apply (f_equal String.length) in Heq.
    rewrite !length_append in Heq. simpl in Heq. lia.
Qed.

Lemma X17_missing_variables_keyed_by_method_witness :
  extraction (req_url (get_request [("query", posts_text)])) "GET"
             (get_request [("query", posts_text)]) empty_state
  = (Return (JStr posts_text, JNull), empty_state)
  /\ extraction (req_url (get_request [("query", posts_text)])) "POST"
                {| req_url := endpoint_url; req_method := "POST";
                   req_headers := [];
                   req_json := Some (JObj [("query", JStr posts_text)]) |}
                empty_state
     = (Return (JStr posts_text, JUndefined), empty_state).
Proof.
  destruct (X17_missing_variables_keyed_by_method
              (env_fixture true [] [])
              (req_url (get_request [("query", posts_text)]))
              (get_request [("query", posts_text)])
              {| req_url := endpoint_url; req_method := "POST";
                 req_headers := [];
                 req_json := Some (JObj [("query", JStr posts_text)]) |}
              empty_state posts_text [("query", JStr posts_text)]
              eq_refl ltac:(discriminate) eq_refl eq_refl eq_refl eq_refl)
    as (Hget & Hpost & _).
  split; [exact Hget | exact Hpost].
Defined.

(* ===================================================================== *)
(** * Further properties: activation *)
(* ===================================================================== *)

Section ActivationFacts.
Variable E : Env.

Lemma loadSettings_spec (names : list string) (acc : list (string * jsval))
      (failed : bool) (s : State) :
  NoDup acc.*1 ->
  exists settings failed' s',
    loadSettings E names (acc, failed) s = (Return (settings, failed'), s')
    /\ same_store s s'
    /\ NoDup settings.*1
    /\ failed' = failed || existsb (get_fails E "settings") names
    /\ forall name,
         obj_find name settings
         = if bool_decide (name ∈ names) && negb (get_fails E "settings" name)
           then Some (default JUndefined (db s !! ("settings", name)))
           else obj_find name acc.
Proof.
  revert acc failed s.
  induction names as [|n names IH]; intros acc failed s Hnd.
  - eexists _, _, _. split; [reflexivity|]. split; [by repeat split|].
    split; [done|]. split; [by rewrite orb_false_r|].
    intros name. rewrite bool_decide_eq_false_2; [done|apply not_elem_of_nil].
  - cbn [loadSettings]. unfold loadSetting, get. run.
    destruct (get_fails E "settings" n) eqn:Hfail; run.
    + destruct (IH acc true (with_event (EvGet "settings" n) s) Hnd)
        as (st & f' & s' & Hrun & Hsame & Hnd' & Hf & Hfind).
      rewrite Hrun. eexists _, _, _. split; [reflexivity|].
      split; [exact Hsame|]. split; [exact Hnd'|].
      split; [rewrite Hf; cbn [existsb]; rewrite Hfail; by destruct failed|].
      intros name. rewrite Hfind. cbn [db with_event].
      destruct (decide (name = n)) as [->|Hne].
      * rewrite Hfail. cbn [negb]. by rewrite !andb_false_r.
      * rewrite (bool_decide_ext (name ∈ n :: names) (name ∈ names)); [done|].
        rewrite elem_of_cons. tauto.
    + destruct (IH (obj_set n (default JUndefined (db s !! ("settings", n))) acc)
                   failed (with_event (EvGet "settings" n) s)
                   (obj_set_NoDup _ _ _ Hnd))
        as (st & f' & s' & Hrun & Hsame & Hnd' & Hf & Hfind).
      cbn [fst snd db with_event]. rewrite Hrun. eexists _, _, _. split; [reflexivity|].
      split; [exact Hsame|]. split; [exact Hnd'|].
      split; [rewrite Hf; cbn [existsb]; by rewrite Hfail|].
      intros name. rewrite Hfind. cbn [db with_event fst].
      rewrite obj_find_obj_set by done.
      destruct (String.eqb_spec name n) as [->|Hne].
      * rewrite Hfail. cbn [negb]. rewrite andb_true_r.
        rewrite (bool_decide_eq_true_2 (n ∈ n :: names)) by apply list_elem_of_here.
        by destruct (bool_decide (n ∈ names)).
      * rewrite (bool_decide_ext (name ∈ n :: names) (name ∈ names)); [done|].
        rewrite elem_of_cons. tauto.
Qed.

End ActivationFacts.

(** X18. Loading the settings at activation never throws and never writes
    the store. Afterwards a setting is defined in the [settings] object
    exactly when it is one of the valid settings and its read succeeded,
    with the value stored for it ([undefined] when none is stored): the
    settings that could be read are loaded even when the read of another
    one fails. The last thing logged is the success message when every
    read succeeded, and the error message otherwise. *)
Theorem X18_activation_loads_every_readable_setting
        (E : Env) (validSettings : list string) (s : State) :
  exists settings s',
    activateSettings E validSettings s = (Return settings, s')
    /\ same_store s s'
    /\ (forall name,
          obj_find name settings
          = if bool_decide (name ∈ validSettings)
               && negb (get_fails E "settings" name)
            then Some (default JUndefined (db s !! ("settings", name)))
            else None)
    /\ last (trace s')
       = Some (if existsb (get_fails E "settings") validSettings
               then EvErrorLog "Could not initialize service worker settings."
               else EvLog "Service worker settings initialized.").
Proof.
  unfold activateSettings. run.
  destruct (loadSettings_spec E validSettings [] false s (NoDup_nil_2))
    as (st & f' & s' & Hrun & Hsame & _ & Hf & Hfind).
  rewrite Hrun. cbn [fst snd]. cbn [orb] in Hf. subst f'.
  destruct (existsb (get_fails E "settings") validSettings); run;
    (eexists _, _; split; [reflexivity|]; split; [exact Hsame|];
     split; [exact Hfind|]; cbn [trace with_event]; apply last_snoc).
Qed.

(* ===================================================================== *)
(** * Further properties: a response the normalizer refuses, and time *)
(* ===================================================================== *)

Section Refused.
Variable E : Env.

Lemma executeAndUpdate_normalizer_failure
      (h : string) (url : URL) (method : string) (headers : Headers)
      (body : string) (s : State) (r : NetResponse) (payload inner : jsval)
      (e : JSError) :
  net_fetch E (href url) (queryOptions method headers body) = Some r ->
  net_json r = Some payload ->
  getProp payload "data" = inr inner ->
  normalizeResult E inner = inl e ->
  truthy payload = true ->
  set_fails E "queries" h = false ->
  exists s',
    executeAndUpdate E h url method headers body s = (Throw e, s')
    /\ db s' = <[("queries", h) := cacheRecord E payload]> (db s)
    /\ saved s' = saved s.
Proof.
  intros Hfetch Hjson Hdata Hnorm Htruthy Hset.
  unfold executeAndUpdate. run.
  rewrite (executeQuery_run E _ _ _ _ _ _ _ Hfetch Hjson). run.
  unfold detached, writeToCache, set. rewrite Htruthy. run. rewrite Hset. run.
  rewrite Hdata. run. rewrite Hnorm. run.
  eexists. by repeat split.
Qed.

End Refused.

(** X19. The cache record is written before the response is normalized:
    on a miss or a stale hit, when the network answers with a truthy JSON
    payload that the normalizer refuses, the caller gets the outcome of
    [fetch] on the original request and no metrics are saved, yet the
    payload has been stored under the hashed query with the current
    time. *)
Theorem X19_refused_payload_is_cached_anyway
        (E : Env) (request clone : Request) (s : State)
        (text : string) (variables : jsval) (doc : DocumentNode)
        (r : NetResponse) (payload inner : jsval) (e : JSError) :
  reaches_lookup E (req_url clone) (req_method clone) request s
                 text variables doc ->
  (let cached :=
     default JUndefined (db s !! ("queries", hashedQueryOf E text variables)) in
   truthy cached
   && checkCachedQueryIsFresh E (obj_get "lastApiCall" (ownEntries cached))
   = false) ->
  net_fetch E (href (req_url clone))
            (queryOptions (req_method clone) (req_headers clone)
                          (requestBody (JStr text) variables)) = Some r ->
  net_json r = Some payload ->
  getProp payload "data" = inr inner ->
  normalizeResult E inner = inl e ->
  truthy payload = true ->
  set_fails E "queries" (hashedQueryOf E text variables) = false ->
  exists s',
    fetchAndGetResponse E request clone s
    = (match net_fetchRequest E clone with
       | Some r => Return (NetworkResponse r)
       | None => Throw NetworkError
       end, s')
    /\ db s'
       = <[("queries", hashedQueryOf E text variables) := cacheRecord E payload]>
         (db s)
    /\ saved s' = saved s.
Proof.
  intros Hreach Hmiss Hfetch Hjson Hdata Hnorm Htruthy Hset.
  pose proof (runCachingLogic_refetch E (req_url clone) (req_method clone)
                (req_headers clone) request s text variables doc Hreach Hmiss)
    as Hrun.
  match type of Hrun with
  | context [executeAndUpdate E ?h ?u ?m ?hd ?b] =>
      destruct (executeAndUpdate_normalizer_failure E h u m hd b
                  (with_event (EvGet "queries" h)
                     (with_event (EvGet "queries" "ROOT_QUERY") s))
                  r payload inner e Hfetch Hjson Hdata Hnorm Htruthy Hset)
        as (s1 & Hupd & Hdb & Hsaved)
  end.
  revert Hrun. run. rewrite Hupd. intros Hrun.
  rewrite (fetchAndGetResponse_passes_through E _ _ _ _ _ Hrun).
  eexists. split; [reflexivity|]. split; [exact Hdb | exact Hsaved].
Qed.

Lemma X19_refused_payload_is_cached_anyway_witness :
  exists s',
    fetchAndGetResponse env_errors (post_request posts_text JNull)
                        (post_request posts_text JNull) empty_state
    = (Return (NetworkResponse {| net_status := 200;
                                  net_json := Some errors_payload |}), s')
    /\ db s' = <[("queries", posts_key) := cacheRecord env_errors errors_payload]> ∅
    /\ saved s' = [].
Proof.
  apply (X19_refused_payload_is_cached_anyway
           env_errors (post_request posts_text JNull)
           (post_request posts_text JNull) empty_state posts_text JNull
           posts_doc {| net_status := 200; net_json := Some errors_payload |}
           errors_payload JUndefined NormalizeError).
  - repeat split. right. by eexists.
  - reflexivity.
  - reflexivity.
  - reflexivity.
  - reflexivity.
  - reflexivity.
  - reflexivity.
  - reflexivity.
Defined.

(** X20. Staleness is permanent: with the same settings, a record that is
    stale at one time is stale at every later time. *)
Theorem X20_stale_stays_stale
        (E1 E2 : Env) (lastApiCall : Z) :
  settings E2 = settings E1 ->
  now E1 <= now E2 ->
  checkCachedQueryIsFresh E1 (JNum lastApiCall) = false ->
  checkCachedQueryIsFresh E2 (JNum lastApiCall) = false.
Proof.
  unfold checkCachedQueryIsFresh. intros -> Hnow.
  destruct (cacheExpirationLimit (settings E1)) as [limit|]; [|done].
  destruct (limit =? 0); [done|].
  rewrite !sub_lt_number, !Z.ltb_ge. lia.
Qed.

Lemma X20_stale_stays_stale_witness :
  checkCachedQueryIsFresh (env_with_limit (Some 1000) 7000) (JNum 5000) = false.
Proof.
  apply (X20_stale_stays_stale (env_with_limit (Some 1000) 6000)
                               (env_with_limit (Some 1000) 7000) 5000).
  - reflexivity.
  - simpl. lia.
  - reflexivity.
Defined.
